(** * Windowed mobility statistics of [forest.jasmine.traj2stats]

    A shallow embedding of [gps_summaries]: the window planner, the
    segment clipper, the per-window metrics, the place clustering and
    attribution, the assembly of the table and the day/night reshape.

    Numbers.  The trajectory is a numpy array of float64.  Its cells are
    modelled as exact rationals extended with the three IEEE special
    values, so that a division by zero yields an infinity or a NaN and
    raises nothing, as numpy does; rounding is not modelled, and there
    is no negative zero.  Integer time stamps are [Z].

    Effects.  What the function itself does to the outside, by a
    statement of its own, is kept as a trace of events: the lines it
    writes with [sys.stdout.write], its calls of [requests.get] and of
    [time.sleep]; [sys.exit] is an outcome.  The warnings that numpy
    hands to the module [warnings] on a division by zero or on an
    invalid operation are not in the trace, and nothing below says that
    there are none.

    Code of the repository that is not part of the file (the great-circle
    distance, the calendar conversions, the home locator, ...) and library
    calls (numpy's [std], [round], [log], shapely's [contains]) are
    variables of the section [Summaries]. *)

From Stdlib Require Import ZArith QArith Qabs Qround List String Ascii Bool Lia Lqa.
From Stdlib Require Import DecimalString.
From Stdlib Require Reals Lra.
Import ListNotations.

Local Open Scope Z_scope.

(* ------------------------------------------------------------------ *)
(** ** Extended rationals: the float64 cells *)

Inductive xnum : Type :=
| Fin (q : Q)
| PInf
| NInf
| NaN.

Definition Qsgn (q : Q) : comparison := (Qnum q ?= 0)%Z.

Definition of_Z (z : Z) : xnum := Fin (inject_Z z).

Definition xzero : xnum := Fin 0%Q.
Definition xone : xnum := Fin 1%Q.

Definition xneg (a : xnum) : xnum :=
  match a with
  | Fin q => Fin (- q)%Q
  | PInf => NInf
  | NInf => PInf
  | NaN => NaN
  end.

Definition xadd (a b : xnum) : xnum :=
  match a, b with
  | NaN, _ | _, NaN => NaN
  | Fin p, Fin q => Fin (p + q)%Q
  | PInf, NInf | NInf, PInf => NaN
  | PInf, _ | _, PInf => PInf
  | NInf, _ | _, NInf => NInf
  end.

Definition xsub (a b : xnum) : xnum := xadd a (xneg b).

(** An infinity of the sign of [c] times the sign [pos]; zero times an
    infinity is NaN. *)
Definition inf_signed (pos : bool) (c : comparison) : xnum :=
  match c with
  | Eq => NaN
  | Gt => if pos then PInf else NInf
  | Lt => if pos then NInf else PInf
  end.

Definition xsgn (a : xnum) : option comparison :=
  match a with
  | Fin q => Some (Qsgn q)
  | PInf => Some Gt
  | NInf => Some Lt
  | NaN => None
  end.

Definition xmul (a b : xnum) : xnum :=
  match a, b with
  | NaN, _ | _, NaN => NaN
  | Fin p, Fin q => Fin (p * q)%Q
  | PInf, Fin q | Fin q, PInf => inf_signed true (Qsgn q)
  | NInf, Fin q | Fin q, NInf => inf_signed false (Qsgn q)
  | PInf, PInf | NInf, NInf => PInf
  | PInf, NInf | NInf, PInf => NInf
  end.

(** Division of float64 scalars: a zero divisor gives an infinity of the
    sign of the dividend, or NaN for [0/0]; numpy warns and goes on (the
    warning is not modelled). *)
Definition xdiv (a b : xnum) : xnum :=
  match a, b with
  | NaN, _ | _, NaN => NaN
  | Fin p, Fin q =>
      match Qsgn q with
      | Eq => inf_signed true (Qsgn p)
      | _ => Fin (p / q)%Q
      end
  | Fin _, PInf | Fin _, NInf => xzero
  | PInf, Fin q => match Qsgn q with Lt => NInf | _ => PInf end
  | NInf, Fin q => match Qsgn q with Lt => PInf | _ => NInf end
  | PInf, PInf | PInf, NInf | NInf, PInf | NInf, NInf => NaN
  end.

(** Comparisons: every comparison with NaN is false. *)
Definition xltb (a b : xnum) : bool :=
  match a, b with
  | NaN, _ | _, NaN => false
  | Fin p, Fin q => negb (Qle_bool q p)
  | NInf, NInf | PInf, _ => false
  | NInf, _ => true
  | Fin _, PInf => true
  | Fin _, NInf => false
  end.

Definition xleb (a b : xnum) : bool :=
  match a, b with
  | NaN, _ | _, NaN => false
  | Fin p, Fin q => Qle_bool p q
  | NInf, _ => true
  | PInf, PInf => true
  | PInf, _ => false
  | Fin _, PInf => true
  | Fin _, NInf => false
  end.

Definition xeqb (a b : xnum) : bool :=
  match a, b with
  | Fin p, Fin q => Qeq_bool p q
  | PInf, PInf | NInf, NInf => true
  | _, _ => false
  end.

Definition xgtb (a b : xnum) : bool := xltb b a.
Definition xgeb (a b : xnum) : bool := xleb b a.

Definition is_nan (a : xnum) : bool :=
  match a with NaN => true | _ => false end.

Definition is_finite (a : xnum) : bool :=
  match a with Fin _ => true | _ => false end.

(** Equality of cells up to the representation of a rational. *)
Definition xeq (a b : xnum) : Prop :=
  match a, b with
  | Fin p, Fin q => (p == q)%Q
  | PInf, PInf | NInf, NInf | NaN, NaN => True
  | _, _ => False
  end.

Declare Scope xnum_scope.
Delimit Scope xnum_scope with X.
Bind Scope xnum_scope with xnum.
Infix "+" := xadd : xnum_scope.
Infix "-" := xsub : xnum_scope.
Infix "*" := xmul : xnum_scope.
Infix "/" := xdiv : xnum_scope.
Infix "<?" := xltb : xnum_scope.
Infix "<=?" := xleb : xnum_scope.
Infix ">?" := xgtb : xnum_scope.
Infix ">=?" := xgeb : xnum_scope.
Infix "=?" := xeqb : xnum_scope.
Infix "==" := xeq (at level 70, no associativity) : xnum_scope.

(* ------------------------------------------------------------------ *)
(** ** Exceptions *)

Inductive exn : Type :=
| IndexError
| ValueError
| TypeError
| KeyError.

Inductive result (A : Type) : Type :=
| Ok (a : A)
| Raise (e : exn).
Arguments Ok {A} a.
Arguments Raise {A} e.

Definition bind {A B} (m : result A) (f : A -> result B) : result B :=
  match m with
  | Ok a => f a
  | Raise e => Raise e
  end.

Notation "x <- m ;; k" := (bind m (fun x => k))
  (at level 61, m at next level, right associativity).

(* ------------------------------------------------------------------ *)
(** ** Python and numpy on sequences *)

(** The builtin [sum], which starts from the integer [0]. *)
Definition pysum (l : list xnum) : xnum := fold_left xadd l xzero.

(** The builtin [max]: the first item is kept until a greater one comes;
    an empty sequence raises [ValueError]. *)
Definition pymax (l : list xnum) : result xnum :=
  match l with
  | [] => Raise ValueError
  | x :: r => Ok (fold_left (fun m y => if xltb m y then y else m) r x)
  end.

(** [np.min] of a non-empty array; NaN wins. *)
Definition np_min1 (x : xnum) (r : list xnum) : xnum :=
  fold_left (fun m y =>
               if is_nan m then m else if is_nan y then y
               else if xltb y m then y else m) r x.

Definition np_min (l : list xnum) : result xnum :=
  match l with
  | [] => Raise ValueError
  | x :: r => Ok (np_min1 x r)
  end.

(** [sum(mask)]: the number of [True] cells. *)
Definition count_true (mask : list bool) : Z :=
  Z.of_nat (List.length (filter (fun b => b) mask)).

(** [a[mask]]: the cells of [a] where the mask holds. *)
Fixpoint take_mask {A} (a : list A) (mask : list bool) : list A :=
  match a, mask with
  | x :: a', b :: mask' =>
      if b then x :: take_mask a' mask' else take_mask a' mask'
  | _, _ => []
  end.

(** [np.mean] of a non-empty vector. *)
Definition np_mean (l : list xnum) : xnum :=
  xdiv (pysum l) (of_Z (Z.of_nat (List.length l))).

(** [np.dot] of two vectors of one length. *)
Definition np_dot (a b : list xnum) : xnum :=
  pysum (map (fun p => xmul (fst p) (snd p)) (combine a b)).

(** A Python index into a sequence of length [n]: a negative one counts
    from the end. *)
Definition norm_index (n : nat) (i : Z) : result nat :=
  let j := if i <? 0 then i + Z.of_nat n else i in
  if (0 <=? j) && (j <? Z.of_nat n) then Ok (Z.to_nat j) else Raise IndexError.

(** [str] of an integer. *)
Definition str_Z (z : Z) : string := NilZero.string_of_int (Z.to_int z).

(* ------------------------------------------------------------------ *)
(** ** The trajectory array *)

(** One line of [traj]: [s, x0, y0, t0, x1, y1, t1, obs]. *)
Record row : Type := mkRow {
  r_s : xnum;
  r_x0 : xnum;
  r_y0 : xnum;
  r_t0 : xnum;
  r_x1 : xnum;
  r_y1 : xnum;
  r_t1 : xnum;
  r_obs : xnum
}.

(** Column [j] of a line. *)
Definition getc (r : row) (j : nat) : xnum :=
  match j with
  | 0 => r_s r
  | 1 => r_x0 r
  | 2 => r_y0 r
  | 3 => r_t0 r
  | 4 => r_x1 r
  | 5 => r_y1 r
  | 6 => r_t1 r
  | _ => r_obs r
  end%nat.

Definition setc (r : row) (j : nat) (v : xnum) : row :=
  match r with
  | mkRow s x0 y0 t0 x1 y1 t1 obs =>
      match j with
      | 0 => mkRow v x0 y0 t0 x1 y1 t1 obs
      | 1 => mkRow s v y0 t0 x1 y1 t1 obs
      | 2 => mkRow s x0 v t0 x1 y1 t1 obs
      | 3 => mkRow s x0 y0 v x1 y1 t1 obs
      | 4 => mkRow s x0 y0 t0 v y1 t1 obs
      | 5 => mkRow s x0 y0 t0 x1 v t1 obs
      | 6 => mkRow s x0 y0 t0 x1 y1 v obs
      | _ => mkRow s x0 y0 t0 x1 y1 t1 v
      end%nat
  end.

Fixpoint update_nth {A} (l : list A) (k : nat) (f : A -> A) : list A :=
  match l, k with
  | [], _ => []
  | x :: l', O => f x :: l'
  | x :: l', S k' => x :: update_nth l' k' f
  end.

(** [temp[i, j]] *)
Definition aget (temp : list row) (i : Z) (j : nat) : result xnum :=
  k <- norm_index (List.length temp) i ;;
  match nth_error temp k with
  | Some r => Ok (getc r j)
  | None => Raise IndexError
  end.

(** [temp[i, j] = v] *)
Definition aset (temp : list row) (i : Z) (j : nat) (v : xnum)
  : result (list row) :=
  k <- norm_index (List.length temp) i ;;
  Ok (update_nth temp k (fun r => setc r j v)).

(** The duration column [temp[:, 6] - temp[:, 3]]. *)
Definition dur (r : row) : xnum := xsub (r_t1 r) (r_t0 r).

(** The list [year, month, day, hour, minute, second] of the calendar
    conversions. *)
Record time_list : Type := mkTime {
  tl_year : Z;
  tl_month : Z;
  tl_day : Z;
  tl_hour : Z;
  tl_minute : Z;
  tl_second : Z
}.

Definition set_hour (t : time_list) (h : Z) : time_list :=
  mkTime (tl_year t) (tl_month t) (tl_day t) h (tl_minute t) (tl_second t).

Definition set_minute (t : time_list) (m : Z) : time_list :=
  mkTime (tl_year t) (tl_month t) (tl_day t) (tl_hour t) m (tl_second t).

Definition set_second (t : time_list) (s : Z) : time_list :=
  mkTime (tl_year t) (tl_month t) (tl_day t) (tl_hour t) (tl_minute t) s.

Inductive resolution : Type :=
| Hourly
| Daily.

(** The place-of-interest index built from the provider's answer:
    dictionaries in insertion order. *)
Definition coords : Type := list (xnum * xnum).
Definition tag_dict : Type := list (string * string).

Fixpoint dict_get {V} (d : list (string * V)) (k : string) : option V :=
  match d with
  | [] => None
  | (k', v) :: d' => if String.eqb k' k then Some v else dict_get d' k
  end.

(** [d[k] = v]: a present key keeps its place. *)
Fixpoint dict_set {V} (d : list (string * V)) (k : string) (v : V)
  : list (string * V) :=
  match d with
  | [] => [(k, v)]
  | (k', v') :: d' =>
      if String.eqb k' k then (k', v) :: d' else (k', v') :: dict_set d' k v
  end.

Fixpoint idict_get {V} (d : list (Z * V)) (k : Z) : option V :=
  match d with
  | [] => None
  | (k', v) :: d' => if k' =? k then Some v else idict_get d' k
  end.

Fixpoint idict_set {V} (d : list (Z * V)) (k : Z) (v : V) : list (Z * V) :=
  match d with
  | [] => [(k, v)]
  | (k', v') :: d' =>
      if k' =? k then (k', v) :: d' else (k', v') :: idict_set d' k v
  end.

Section Summaries.

(** Code of the repository outside this file. *)
(** [great_circle_dist lat1 lon1 lat2 lon2] of [data2mobmat], in meters. *)
Variable great_circle_dist : xnum -> xnum -> xnum -> xnum -> xnum.
Variable pairwise_great_circle_dist : list (xnum * xnum) -> list xnum.
(** The fourth component [t_xy] of [num_sig_places] of [mobmat2traj]. *)
Variable num_sig_places : list row -> Z -> list xnum.
Variable locate_home : list row -> string -> xnum * xnum.
(** [stamp2datetime] and [datetime2stamp] of [poplar.legacy.common_funcs]. *)
Variable stamp2datetime : xnum -> string -> time_list.
Variable datetime2stamp : time_list -> string -> Z.
(** [str(boundingBox(lat, lon, radius))] of [bonsai.simulate_gps_data]. *)
Variable bbox_str : xnum -> xnum -> Z -> string.

(** Library calls. *)
Variable np_std : list xnum -> xnum.
Variable np_round : xnum -> xnum.
Variable np_log : xnum -> xnum.
(** [Polygon(vertices).contains(Point(x, y))] of shapely. *)
Variable polygon_contains : coords -> xnum * xnum -> bool.

(* ------------------------------------------------------------------ *)
(** ** The segment clipper *)

Section Window.

Variable traj : list row.
Variable tz_str : string.
Variable opt : resolution.
Variable split_day_night : bool.
Variable start_stamp : Z.
Variable window : Z.
Variable no_windows : Z.

Definition i2_of (i : Z) : Z := if split_day_night then i / 2 else i.

Definition start_time_of (i : Z) : Z := start_stamp + i2_of i * window.
Definition end_time_of (i : Z) : Z := start_stamp + (i2_of i + 1) * window.

Definition current_time_list (i : Z) : time_list :=
  stamp2datetime (of_Z (start_time_of i)) tz_str.

(** The stamps of 8 and of 20 o'clock of the window's day. *)
Definition t2_of (i : Z) : Z :=
  datetime2stamp (set_hour (current_time_list i) 8) tz_str.
Definition t3_of (i : Z) : Z :=
  datetime2stamp (set_hour (current_time_list i) 20) tz_str.

(** [(traj[:, 3] < end_time) * (traj[:, 6] > start_time)] *)
Definition index_plain (start_time end_time : Z) : list bool :=
  map (fun r => xltb (r_t0 r) (of_Z end_time)
                && xgtb (r_t1 r) (of_Z start_time)) traj.

(** [(traj[:, 3] <= t3) * (traj[:, 6] >= t2)] *)
Definition index_day (t2 t3 : Z) : list bool :=
  map (fun r => xleb (r_t0 r) (of_Z t3) && xgeb (r_t1 r) (of_Z t2)) traj.

Definition index1 (start_time end_time t2 : Z) : list bool :=
  map (fun r => xltb (r_t1 r) (of_Z t2)
                && xltb (r_t0 r) (of_Z end_time)
                && xgtb (r_t1 r) (of_Z start_time)) traj.

Definition index2 (start_time end_time t3 : Z) : list bool :=
  map (fun r => xgtb (r_t0 r) (of_Z t3)
                && xltb (r_t0 r) (of_Z end_time)
                && xgtb (r_t1 r) (of_Z start_time)) traj.

(** [index1 + index2] on boolean arrays. *)
Definition mask_or (a b : list bool) : list bool :=
  map (fun p => orb (fst p) (snd p)) (combine a b).

Definition is_day (i : Z) : bool := i mod 2 =? 0.

Definition index_rows (i : Z) : list bool :=
  if split_day_night then
    if is_day i then index_day (t2_of i) (t3_of i)
    else mask_or (index1 (start_time_of i) (end_time_of i) (t2_of i))
                 (index2 (start_time_of i) (end_time_of i) (t3_of i))
  else index_plain (start_time_of i) (end_time_of i).

Definition stop1 (i : Z) : Z :=
  count_true (index1 (start_time_of i) (end_time_of i) (t2_of i)) - 1.
Definition stop2 (i : Z) : Z :=
  count_true (index1 (start_time_of i) (end_time_of i) (t2_of i)).

(** [temp = traj[index_rows, :]], a copy. *)
Definition selected (i : Z) : list row := take_mask traj (index_rows i).

(** [i2 not in (0, no_windows - 1)] *)
Definition interior (i : Z) : bool :=
  negb ((i2_of i =? 0) || (i2_of i =? no_windows - 1)).

(** One selected line: both ends are cut on that line. *)
Definition clip_single (t0_temp t1_temp : Z) (temp : list row)
  : result (list row) :=
  a3 <- aget temp 0 3 ;;
  a6 <- aget temp 0 6 ;;
  let p0 := ((of_Z t0_temp - a3) / (a6 - a3))%X in
  let p1 := ((of_Z t1_temp - a3) / (a6 - a3))%X in
  x0 <- aget temp 0 1 ;;
  x1 <- aget temp 0 4 ;;
  y0 <- aget temp 0 2 ;;
  y1 <- aget temp 0 5 ;;
  temp <- aset temp 0 1 ((xone - p0) * x0 + p0 * x1)%X ;;
  temp <- aset temp 0 2 ((xone - p0) * y0 + p0 * y1)%X ;;
  temp <- aset temp 0 3 (of_Z t0_temp) ;;
  temp <- aset temp 0 4 ((xone - p1) * x0 + p1 * x1)%X ;;
  temp <- aset temp 0 5 ((xone - p1) * y0 + p1 * y1)%X ;;
  aset temp 0 6 (of_Z t1_temp).

(** The start of line [sidx] is cut at [t0_temp], the end of line [eidx]
    at [t1_temp]: the body of the night loop, and, with the lines [0]
    and [-1], the last branch. *)
Definition clip_ends (sidx eidx : Z) (t0_temp t1_temp : Z) (temp : list row)
  : result (list row) :=
  s6 <- aget temp sidx 6 ;;
  s3 <- aget temp sidx 3 ;;
  let p0 := ((s6 - of_Z t0_temp) / (s6 - s3))%X in
  e3 <- aget temp eidx 3 ;;
  e6 <- aget temp eidx 6 ;;
  let p1 := ((of_Z t1_temp - e3) / (e6 - e3))%X in
  s4 <- aget temp sidx 4 ;;
  s1 <- aget temp sidx 1 ;;
  temp <- aset temp sidx 1 ((xone - p0) * s4 + p0 * s1)%X ;;
  s5 <- aget temp sidx 5 ;;
  s2 <- aget temp sidx 2 ;;
  temp <- aset temp sidx 2 ((xone - p0) * s5 + p0 * s2)%X ;;
  temp <- aset temp sidx 3 (of_Z t0_temp) ;;
  e1 <- aget temp eidx 1 ;;
  e4 <- aget temp eidx 4 ;;
  temp <- aset temp eidx 4 ((xone - p1) * e1 + p1 * e4)%X ;;
  e2 <- aget temp eidx 2 ;;
  e5 <- aget temp eidx 5 ;;
  temp <- aset temp eidx 5 ((xone - p1) * e2 + p1 * e5)%X ;;
  aset temp eidx 6 (of_Z t1_temp).

(** Lines 225 to 284: the selection and the cut at the two ends. *)
Definition clip (i : Z) : result (list row) :=
  let temp := selected i in
  if interior i then
    let t0_temp := if split_day_night && is_day i then t2_of i
                   else start_time_of i in
    let t1_temp := if split_day_night && is_day i then t3_of i
                   else end_time_of i in
    if count_true (index_rows i) =? 1 then clip_single t0_temp t1_temp temp
    else if split_day_night && negb (is_day i) then
      temp <- clip_ends 0 (stop1 i) (start_time_of i) (t2_of i) temp ;;
      clip_ends (stop2 i) (-1) (t3_of i) (end_time_of i) temp
    else clip_ends 0 (-1) t0_temp t1_temp temp
  else Ok temp.


(* ------------------------------------------------------------------ *)
(** ** The metrics of one window (lines 286 to 300) *)

Variable home_x home_y : xnum.

Definition is_flight (r : row) : bool := xeqb (r_s r) (of_Z 1).
Definition is_pause (r : row) : bool := xeqb (r_s r) (of_Z 2).
Definition is_observed (r : row) : bool := xeqb (r_obs r) (of_Z 1).

Definition obs_dur (temp : list row) : xnum :=
  pysum (map dur (filter is_observed temp)).

Definition d_home_1 (temp : list row) : list xnum :=
  map (fun r => great_circle_dist home_x home_y (r_x0 r) (r_y0 r)) temp.

Definition d_home_2 (temp : list row) : list xnum :=
  map (fun r => great_circle_dist home_x home_y (r_x1 r) (r_y1 r)) temp.

Definition d_home (temp : list row) : list xnum :=
  map (fun p => ((fst p + snd p) / of_Z 2)%X)
      (combine (d_home_1 temp) (d_home_2 temp)).

Definition max_dist_home (temp : list row) : result xnum :=
  pymax (d_home_1 temp ++ d_home_2 temp).

Definition time_at_home (temp : list row) : xnum :=
  pysum (take_mask (map dur temp)
                   (map (fun d => xleb d (of_Z 50)) (d_home temp))).

Definition mov_vec (temp : list row) : list xnum :=
  map (fun r => np_round
                  (great_circle_dist (r_x1 r) (r_y1 r) (r_x0 r) (r_y0 r)))
      temp.

Definition flight_d_vec (temp : list row) : list xnum :=
  take_mask (mov_vec temp) (map is_flight temp).

Definition flight_t_vec (temp : list row) : list xnum :=
  map dur (filter is_flight temp).

Definition pause_t_vec (temp : list row) : list xnum :=
  map dur (filter is_pause temp).

Definition total_pause_time (temp : list row) : xnum :=
  pysum (pause_t_vec temp).

Definition total_flight_time (temp : list row) : xnum :=
  pysum (flight_t_vec temp).

Definition dist_traveled (temp : list row) : xnum := pysum (mov_vec temp).

(** The mean and the deviation of a vector, [0] for an empty one
    (lines 395 to 410). *)
Definition mean_or_0 (v : list xnum) : xnum :=
  match v with [] => xzero | _ => np_mean v end.

Definition std_or_0 (v : list xnum) : xnum :=
  match v with [] => xzero | _ => np_std v end.

(* ------------------------------------------------------------------ *)
(** ** Places: the clusters of pauses (lines 303 to 332) *)

(** A line of [pause_array]: latitude, longitude, minutes. *)
Record cluster : Type := mkCluster {
  c_lat : xnum;
  c_lon : xnum;
  c_min : xnum
}.

Definition dwell (r : row) : xnum := xdiv (dur r) (of_Z 60).

Definition dist_to (r : row) (c : cluster) : xnum :=
  great_circle_dist (r_x0 r) (r_y0 r) (c_lat c) (c_lon c).

(** The body of the loop over the pauses of the window. *)
Definition cluster_step (pause_array : list cluster) (r : row)
  : list cluster :=
  if xgtb (great_circle_dist (r_x0 r) (r_y0 r) home_x home_y) (of_Z 5) then
    match pause_array with
    | [] => [mkCluster (r_x0 r) (r_y0 r) (dwell r)]
    | c :: cs =>
        if xgtb (np_min1 (dist_to r c) (map (dist_to r) cs)) (of_Z 5) then
          pause_array ++ [mkCluster (r_x0 r) (r_y0 r) (dwell r)]
        else
          map (fun c' =>
                 if xleb (dist_to r c') (of_Z 5)
                 then mkCluster (c_lat c') (c_lon c') (xadd (c_min c') (dwell r))
                 else c')
              pause_array
    end
  else pause_array.

Definition pause_clusters (temp : list row) : list cluster :=
  fold_left cluster_step (filter is_pause temp) [].

(* ------------------------------------------------------------------ *)
(** ** Places: attribution and visit log (lines 333 to 393) *)

Variable places_of_interest : option (list string).
Variable save_log : bool.
Variable ids : list (string * list Z).
Variable locations : list (Z * coords).
Variable tags : list (Z * tag_dict).

Definition near_limit : xnum := Fin (15 # 2).

(** Does the geometry [values] match the cluster: a single point by
    proximity, three vertices or more by containment. *)
Definition geometry_matches (c : cluster) (values : coords) : bool :=
  match values with
  | [(lat, lon)] =>
      xltb (great_circle_dist (c_lat c) (c_lon c) lat lon) near_limit
  | _ =>
      (3 <=? List.length values)%nat
      && polygon_contains values (c_lat c, c_lon c)
  end.

(** The loop over [ids[place]], left at the first match. *)
Fixpoint match_elements (c : cluster) (els : list Z) : result bool :=
  match els with
  | [] => Ok false
  | element_id :: els' =>
      match idict_get locations element_id with
      | None => Raise KeyError
      | Some values =>
          if geometry_matches c values then Ok true
          else match_elements c els'
      end
  end.

(** [l[j] += v] *)
Definition list_add_at (l : list xnum) (j : Z) (v : xnum)
  : result (list xnum) :=
  k <- norm_index (List.length l) j ;;
  Ok (update_nth l k (fun x => xadd x v)).

(** The loop over the requested categories for one cluster: the times and
    the flag [add_to_other]. *)
Fixpoint attribute_places (c : cluster) (places : list string) (j : Z)
  (acc : list xnum * bool) : result (list xnum * bool) :=
  match places with
  | [] => Ok acc
  | place :: places' =>
      acc' <- match dict_get ids place with
              | None => Ok acc
              | Some els =>
                  m <- match_elements c els ;;
                  if m : bool then
                    times <- list_add_at (fst acc) j (xdiv (c_min c) (of_Z 60)) ;;
                    Ok (times, false)
                  else Ok acc
              end ;;
      attribute_places c places' (j + 1) acc'
  end.

(** The loop over [locations] for the log of one cluster. *)
Fixpoint log_matches (c : cluster) (locs : list (Z * coords))
  (log : list tag_dict) : result (list tag_dict) :=
  match locs with
  | [] => Ok log
  | (element_id, values) :: locs' =>
      if geometry_matches c values then
        match idict_get tags element_id with
        | None => Raise KeyError
        | Some t => log_matches c locs' (log ++ [t])
        end
      else log_matches c locs' log
  end.

Definition threshold_notice : string :=
  "threshold parameter set to None, automatically converted to 60min."
  ++ String (ascii_of_nat 10) "".

(** What the place loop carries: the times per category, the log of the
    window, the threshold and the lines written to the standard output. *)
Record place_state : Type := mkPlaceState {
  all_place_times_temp : list xnum;
  log_tags_temp : list tag_dict;
  threshold : option xnum;
  written : list string
}.

(** Lines 337 to 366: the times after the cluster [c]. *)
Definition place_times (st : place_state) (c : cluster)
  : result (list xnum) :=
  match places_of_interest with
  | Some places =>
      r <- attribute_places c places 0 (all_place_times_temp st, true) ;;
      if snd r : bool then
        list_add_at (fst r) (-1) (xdiv (c_min c) (of_Z 60))
      else Ok (fst r)
  | None => Ok (all_place_times_temp st)
  end.

(** The body of the loop over [pause_array]. *)
Definition place_step (st : place_state) (c : cluster) : result place_state :=
  times <- place_times st c ;;
  if save_log then
    let th := match threshold st with Some t => t | None => of_Z 60 end in
    let w := match threshold st with
             | Some _ => written st
             | None => written st ++ [threshold_notice]
             end in
    log <- (if xgeb (c_min c) th
            then log_matches c locations (log_tags_temp st)
            else Ok (log_tags_temp st)) ;;
    Ok (mkPlaceState times log (Some th) w)
  else Ok (mkPlaceState times (log_tags_temp st) (threshold st) (written st)).

Fixpoint place_loop (st : place_state) (cs : list cluster)
  : result place_state :=
  match cs with
  | [] => Ok st
  | c :: cs' => st' <- place_step st c ;; place_loop st' cs'
  end.

(** The lines written by the time the step for [c] ends or raises: the
    notice is written at line 371, after the times of lines 337 to 366
    and before the search of the log. *)
Definition place_step_written (st : place_state) (c : cluster)
  : list string :=
  match place_times st c with
  | Raise _ => written st
  | Ok _ =>
      if save_log then
        match threshold st with
        | Some _ => written st
        | None => written st ++ [threshold_notice]
        end
      else written st
  end.

(** The lines written by the time the loop ends or raises. *)
Fixpoint place_loop_written (st : place_state) (cs : list cluster)
  : list string :=
  match cs with
  | [] => written st
  | c :: cs' =>
      match place_step st c with
      | Ok st' => place_loop_written st' cs'
      | Raise _ => place_step_written st c
      end
  end.

(** Lines 302 to 393 for one window. *)
Definition places_part (temp : list row) (th : option xnum)
  (w : list string) : result place_state :=
  if (match places_of_interest with Some _ => true | None => false end)
     || save_log then
    match places_of_interest with
    | None => Raise TypeError
    | Some places =>
        place_loop
          (mkPlaceState (repeat xzero (List.length places + 1)) [] th w)
          (pause_clusters temp)
    end
  else Ok (mkPlaceState [] [] th w).

(** The lines written by the time lines 302 to 393 end or raise. *)
Definition places_part_written (temp : list row) (th : option xnum)
  (w : list string) : list string :=
  if (match places_of_interest with Some _ => true | None => false end)
     || save_log then
    match places_of_interest with
    | None => w
    | Some places =>
        place_loop_written
          (mkPlaceState (repeat xzero (List.length places + 1)) [] th w)
          (pause_clusters temp)
    end
  else w.

(* ------------------------------------------------------------------ *)
(** ** The daily additions (lines 479 to 516) *)

Definition mid_hour (r : row) : Z :=
  tl_hour (stamp2datetime ((r_t0 r + r_t1 r) / of_Z 2)%X tz_str).

Definition day_index (temp : list row) : list bool :=
  map (fun r => (8 <=? mid_hour r) && (mid_hour r <=? 19)) temp.

Definition obs_day (temp : list row) : xnum :=
  obs_dur (take_mask temp (day_index temp)).

Definition obs_night (temp : list row) : xnum :=
  obs_dur (take_mask temp (map negb (day_index temp))).

Definition pause_weights (temp : list row) : list xnum :=
  map (fun r => xdiv (dur r) (total_pause_time temp)) (filter is_pause temp).

Definition centroid_x (temp : list row) : xnum :=
  np_dot (pause_weights temp) (map r_x0 (filter is_pause temp)).

Definition centroid_y (temp : list row) : xnum :=
  np_dot (pause_weights temp) (map r_y0 (filter is_pause temp)).

Definition radius (temp : list row) : xnum :=
  np_dot (pause_weights temp)
         (map (fun r => great_circle_dist (centroid_x temp) (centroid_y temp)
                                          (r_x0 r) (r_y0 r))
              (filter is_pause temp)).

(** [np.array(t_xy) / 60 > 15] *)
Definition significant (t : xnum) : bool := xgtb (xdiv t (of_Z 60)) (of_Z 15).

Definition t_sig (temp : list row) : list xnum :=
  filter significant (num_sig_places (filter is_pause temp) 50).

Definition num_sig (temp : list row) : xnum :=
  of_Z (Z.of_nat (List.length (t_sig temp))).

Definition log_shift : xnum := Fin (1 # 100000).

(** [-sum(p * np.log(p + 0.00001))] with [p = t_sig / sum(t_sig)]. *)
Definition entropy_of (ts : list xnum) : xnum :=
  let p := map (fun t => xdiv t (pysum ts)) ts in
  xneg (pysum (map (fun q => xmul q (np_log (xadd q log_shift))) p)).

Definition entropy (temp : list row) : xnum := entropy_of (t_sig temp).

Definition diameter (temp : list row) : result xnum :=
  if (List.length temp =? 1)%nat then Ok xzero
  else pymax (pairwise_great_circle_dist
                (map (fun r => (r_x0 r, r_y0 r)) temp)).

(* ------------------------------------------------------------------ *)
(** ** The line of the table and the log entry of one window
       (lines 411 to 590) *)

Inductive log_entry : Type :=
| LogNaN
| LogTags (l : list tag_dict).

Definition day_label (day month year : Z) : string :=
  str_Z day ++ "/" ++ str_Z month ++ "/" ++ str_Z year.

Definition hour_label (day month year hour : Z) : string :=
  day_label day month year ++ " " ++ str_Z hour ++ ":00".

(** The cells appended for the places: NaN for each category and for
    [other] in a window without observation. *)
Definition nan_places : list xnum :=
  match places_of_interest with
  | Some places => repeat NaN (List.length places + 1)
  | None => []
  end.

Definition place_cells (ps : place_state) : list xnum :=
  match places_of_interest with
  | Some _ => all_place_times_temp ps
  | None => []
  end.

Definition hourly_nan_row (year month day hour : Z) : list xnum :=
  [of_Z year; of_Z month; of_Z day; of_Z hour; xzero] ++ repeat NaN 11
  ++ nan_places.

Definition hourly_row (year month day hour : Z) (temp : list row)
  (mdh : xnum) (ps : place_state) : list xnum :=
  let m := of_Z 60 in
  [of_Z year; of_Z month; of_Z day; of_Z hour;
   xdiv (obs_dur temp) m;
   xdiv (time_at_home temp) m;
   dist_traveled temp;
   mdh;
   xdiv (total_flight_time temp) m;
   mean_or_0 (flight_d_vec temp);
   match flight_d_vec temp with [] => xzero | v => np_std v end;
   xdiv (match flight_d_vec temp with
         | [] => xzero | _ => np_mean (flight_t_vec temp) end) m;
   xdiv (match flight_d_vec temp with
         | [] => xzero | _ => np_std (flight_t_vec temp) end) m;
   xdiv (total_pause_time temp) m;
   xdiv (mean_or_0 (pause_t_vec temp)) m;
   xdiv (std_or_0 (pause_t_vec temp)) m]
  ++ place_cells ps.

Definition daily_nan_row (year month day : Z) : list xnum :=
  [of_Z year; of_Z month; of_Z day; xzero; xzero; xzero] ++ repeat NaN 15
  ++ nan_places.

Definition daily_row (year month day : Z) (temp : list row)
  (mdh diam : xnum) (ps : place_state) : list xnum :=
  let h := of_Z 3600 in
  let k := of_Z 1000 in
  [of_Z year; of_Z month; of_Z day;
   xdiv (obs_dur temp) h;
   xdiv (obs_day temp) h;
   xdiv (obs_night temp) h;
   xdiv (time_at_home temp) h;
   xdiv (dist_traveled temp) k;
   xdiv mdh k;
   xdiv (radius temp) k;
   xdiv diam k;
   num_sig temp;
   entropy temp;
   xdiv (total_flight_time temp) h;
   xdiv (mean_or_0 (flight_d_vec temp)) k;
   xdiv (match flight_d_vec temp with [] => xzero | v => np_std v end) k;
   xdiv (match flight_d_vec temp with
         | [] => xzero | _ => np_mean (flight_t_vec temp) end) h;
   xdiv (match flight_d_vec temp with
         | [] => xzero | _ => np_std (flight_t_vec temp) end) h;
   xdiv (total_pause_time temp) h;
   xdiv (mean_or_0 (pause_t_vec temp)) h;
   xdiv (std_or_0 (pause_t_vec temp)) h]
  ++ place_cells ps.

(** What the loop over the windows carries. *)
Record loop_state : Type := mkLoop {
  summary_stats : list (list xnum);
  log_tags : list (string * log_entry);
  cur_threshold : option xnum;
  stdout : list string
}.

Definition time_cat (i : Z) : string :=
  if is_day i then "datetime" else "nighttime".

(** The body of the loop over the windows (lines 192 to 590). *)
Definition window_step (st : loop_state) (i : Z) : result loop_state :=
  let year := tl_year (current_time_list i) in
  let month := tl_month (current_time_list i) in
  let day := tl_day (current_time_list i) in
  let hour := tl_hour (current_time_list i) in
  temp <- clip i ;;
  mdh <- max_dist_home temp ;;
  ps <- places_part temp (cur_threshold st) (stdout st) ;;
  match opt with
  | Hourly =>
      if xeqb (obs_dur temp) xzero then
        Ok (mkLoop (summary_stats st ++ [hourly_nan_row year month day hour])
                   (dict_set (log_tags st)
                             (hour_label day month year hour) LogNaN)
                   (threshold ps) (written ps))
      else
        Ok (mkLoop (summary_stats st
                    ++ [hourly_row year month day hour temp mdh ps])
                   (dict_set (log_tags st)
                             (hour_label day month year hour)
                             (LogTags (log_tags_temp ps)))
                   (threshold ps) (written ps))
  | Daily =>
      diam <- diameter temp ;;
      if xeqb (obs_dur temp) xzero then
        Ok (mkLoop (summary_stats st ++ [daily_nan_row year month day])
                   (dict_set (log_tags st) (day_label day month year) LogNaN)
                   (threshold ps) (written ps))
      else
        Ok (mkLoop (summary_stats st
                    ++ [daily_row year month day temp mdh diam ps])
                   (dict_set (log_tags st)
                             (if split_day_night
                              then day_label day month year ++ ", "
                                   ++ time_cat i
                              else day_label day month year)
                             (LogTags (log_tags_temp ps)))
                   (threshold ps) (written ps))
  end.

(** [for i in range(no_windows)] *)
Fixpoint window_loop (st : loop_state) (is_ : list Z) : result loop_state :=
  match is_ with
  | [] => Ok st
  | i :: rest => st' <- window_step st i ;; window_loop st' rest
  end.

(** The lines written by the time the body for the window [i] ends or
    raises: nothing is written before the place part, and nothing after
    it. *)
Definition window_step_written (st : loop_state) (i : Z) : list string :=
  match clip i with
  | Raise _ => stdout st
  | Ok temp =>
      match max_dist_home temp with
      | Raise _ => stdout st
      | Ok _ => places_part_written temp (cur_threshold st) (stdout st)
      end
  end.

(** The lines written by the time the loop ends or raises. *)
Fixpoint window_loop_written (st : loop_state) (is_ : list Z)
  : list string :=
  match is_ with
  | [] => stdout st
  | i :: rest =>
      match window_step st i with
      | Ok st' => window_loop_written st' rest
      | Raise _ => window_step_written st i
      end
  end.

Definition py_range (n : Z) : list Z :=
  map Z.of_nat (seq 0 (Z.to_nat n)).

End Window.

(* ------------------------------------------------------------------ *)
(** ** The table *)

(** A pandas frame: the labels of the columns and the lines. *)
Record frame : Type := mkFrame {
  columns : list string;
  data : list (list xnum)
}.

Definition hourly_columns : list string :=
  ["year"; "month"; "day"; "hour"; "obs_duration"; "home_time";
   "dist_traveled"; "max_dist_home"; "total_flight_time";
   "av_flight_length"; "sd_flight_length"; "av_flight_duration";
   "sd_flight_duration"; "total_pause_time"; "av_pause_duration";
   "sd_pause_duration"]%string.

Definition daily_columns : list string :=
  ["year"; "month"; "day"; "obs_duration"; "obs_day"; "obs_night";
   "home_time"; "dist_traveled"; "max_dist_home"; "radius"; "diameter";
   "num_sig_places"; "entropy"; "total_flight_time"; "av_flight_length";
   "sd_flight_length"; "av_flight_duration"; "sd_flight_duration";
   "total_pause_time"; "av_pause_duration"; "sd_pause_duration"]%string.

Definition base_columns (opt : resolution) : list string :=
  match opt with
  | Hourly => hourly_columns
  | Daily => daily_columns
  end.

Definition places_of_interest2 (places_of_interest : option (list string))
  : list string :=
  match places_of_interest with
  | None => []
  | Some places => places ++ ["other"%string]
  end.

(** [pd.DataFrame(np.array(lines))] followed by the assignment of the
    labels: the lines must have one length, the number of labels. *)
Definition make_frame (names : list string) (lines : list (list xnum))
  : result frame :=
  if forallb (fun l => (List.length l =? List.length names)%nat) lines
  then Ok (mkFrame names lines)
  else Raise ValueError.

(* ------------------------------------------------------------------ *)
(** ** The day/night reshape (lines 696 to 722) *)

(** [l[::2]] and [l[1::2]] *)
Fixpoint evens {A} (l : list A) : list A :=
  match l with
  | [] => []
  | x :: l' =>
      x :: match l' with
           | [] => []
           | _ :: l'' => evens l''
           end
  end.

Definition odds {A} (l : list A) : list A :=
  match l with
  | [] => []
  | _ :: l' => evens l'
  end.

(** [pd.concat([a, b], axis=1)] after [reset_index]: line [k] of [a]
    beside line [k] of [b]; where [b] is shorter its cells are NaN.  The
    night half [b] is never the longer one. *)
Fixpoint concat_lines (wb : nat) (a b : list (list xnum))
  : list (list xnum) :=
  match a with
  | [] => []
  | x :: a' =>
      match b with
      | [] => (x ++ repeat NaN wb) :: concat_lines wb a' []
      | y :: b' => (x ++ y) :: concat_lines wb a' b'
      end
  end.

Definition mem_string (s : string) (l : list string) : bool :=
  existsb (String.eqb s) l.

(** [frame.drop(labels, axis=1)]: a label that is no column raises
    [KeyError]. *)
Definition drop_columns (labels : list string) (f : frame) : result frame :=
  if forallb (fun l => mem_string l (columns f)) labels then
    let keep := map (fun c => negb (mem_string c labels)) (columns f) in
    Ok (mkFrame (take_mask (columns f) keep)
                (map (fun l => take_mask l keep) (data f)))
  else Raise KeyError.

Fixpoint positions (name : string) (names : list string) (k : nat)
  : list nat :=
  match names with
  | [] => []
  | n :: names' =>
      if String.eqb n name then k :: positions name names' (S k)
      else positions name names' (S k)
  end.

(** [frame[name]] as one series: no such column raises [KeyError]; with
    several columns of that label pandas gives a frame, which the
    insertion below refuses. *)
Definition get_column (name : string) (f : frame) : result (list xnum) :=
  match positions name (columns f) 0 with
  | [] => Raise KeyError
  | [k] => Ok (map (fun l => nth k l NaN) (data f))
  | _ => Raise ValueError
  end.

Definition insert_at {A} (k : nat) (x : A) (l : list A) : list A :=
  firstn k l ++ x :: skipn k l.

(** [frame.insert(loc, name, values)] *)
Definition insert_column (loc : nat) (name : string) (values : list xnum)
  (f : frame) : result frame :=
  if mem_string name (columns f) then Raise ValueError
  else if (List.length (columns f) <? loc)%nat then Raise IndexError
  else Ok (mkFrame (insert_at loc name (columns f))
                   (map (fun p => insert_at loc (snd p) (fst p))
                        (combine (data f) values))).

Definition dropped_labels : list string :=
  ["obs_day_datetime"; "obs_night_datetime";
   "obs_day_nighttime"; "obs_night_nighttime"]%string.

Definition reshape (summary_stats : frame) : result frame :=
  let summary_stats_datetime := evens (data summary_stats) in
  let summary_stats_nighttime := odds (data summary_stats) in
  let cols := columns summary_stats in
  _ <- (if (List.length cols <? 3)%nat then Raise ValueError else Ok tt) ;;
  summary_stats2 <-
    make_frame
      (firstn 3 cols
       ++ map (fun cname => cname ++ "_datetime")%string (skipn 3 cols)
       ++ map (fun cname => cname ++ "_nighttime")%string (skipn 3 cols))
      (concat_lines (List.length cols - 3)
                    summary_stats_datetime
                    (map (skipn 3) summary_stats_nighttime)) ;;
  summary_stats2 <- drop_columns dropped_labels summary_stats2 ;;
  d <- get_column "obs_duration_datetime" summary_stats2 ;;
  n <- get_column "obs_duration_nighttime" summary_stats2 ;;
  insert_column 3 "obs_duration"
                (map (fun p => xadd (fst p) (snd p)) (combine d n))
                summary_stats2.

(* ------------------------------------------------------------------ *)
(** ** The window planner and the assembly (lines 150 to 726) *)

Definition nl : string := String (ascii_of_nat 10) "".
Definition tab : string := String (ascii_of_nat 9) "".

Definition truncate_hour (t : time_list) : time_list :=
  set_second (set_minute t 0) 0.

Definition truncate_day (t : time_list) : time_list :=
  set_second (set_minute (set_hour t 0) 0) 0.

Definition window_of (opt : resolution) : Z :=
  match opt with
  | Hourly => 60 * 60
  | Daily => 60 * 60 * 24
  end.

Definition start_stamp_of (opt : resolution) (tz_str : string) (first : xnum)
  : Z :=
  match opt with
  | Hourly =>
      datetime2stamp (truncate_hour (stamp2datetime first tz_str)) tz_str
      + 3600
  | Daily => datetime2stamp (truncate_day (stamp2datetime first tz_str)) tz_str
  end.

Definition end_stamp_of (opt : resolution) (tz_str : string) (last : xnum)
  : Z :=
  match opt with
  | Hourly =>
      datetime2stamp (truncate_hour (stamp2datetime last tz_str)) tz_str
  | Daily =>
      datetime2stamp (truncate_day (stamp2datetime last tz_str)) tz_str
      + 3600 * 24
  end.

(** Lines 168 and 186 to 188. *)
Definition no_windows_of (opt : resolution) (split_day_night : bool)
  (start_stamp end_stamp : Z) : Z :=
  let n := (end_stamp - start_stamp) / window_of opt in
  match opt with
  | Hourly => n
  | Daily => if split_day_night then n * 2 else n
  end.

Definition calculating (opt : resolution) : string :=
  match opt with
  | Hourly => "Calculating the hourly summary stats..." ++ nl
  | Daily => "Calculating the daily summary stats..." ++ nl
  end.

(** What [gps_summaries] returns, with the lines it wrote. *)
Record summaries : Type := mkSummaries {
  table : frame;
  logs : list (string * log_entry);
  printed : list string
}.

(** Lines 74 and 75: no split for the hourly resolution. *)
Definition effective_split (opt : resolution) (split_day_night : bool)
  : bool :=
  match opt with
  | Hourly => false
  | Daily => split_day_night
  end.

(** [gps_summaries] from line 150 on, once the place index is there. *)
Definition summaries_core (traj : list row) (tz_str : string)
  (opt : resolution) (places_of_interest : option (list string))
  (save_log : bool) (threshold : option xnum) (split_day_night : bool)
  (ids : list (string * list Z)) (locations : list (Z * coords))
  (tags : list (Z * tag_dict)) : result summaries :=
  let split_day_night := effective_split opt split_day_night in
  let home := locate_home (filter is_observed traj) tz_str in
  first <- aget traj 0 3 ;;
  last <- aget traj (-1) 3 ;;
  let start_stamp := start_stamp_of opt tz_str first in
  let end_stamp := end_stamp_of opt tz_str last in
  let window := window_of opt in
  let no_windows := no_windows_of opt split_day_night start_stamp end_stamp in
  let names := base_columns opt ++ places_of_interest2 places_of_interest in
  r <- (if 0 <? no_windows then
          st <- window_loop traj tz_str opt split_day_night start_stamp
                  window no_windows (fst home) (snd home)
                  places_of_interest save_log ids locations tags
                  (mkLoop [] [] threshold [calculating opt])
                  (py_range no_windows) ;;
          f <- make_frame names (summary_stats st) ;;
          Ok (f, st)
        else Ok (mkFrame names [],
                 mkLoop [] [] threshold [calculating opt])) ;;
  summary_stats2 <- (if split_day_night then reshape (fst r)
                     else Ok (fst r)) ;;
  Ok (mkSummaries summary_stats2 (log_tags (snd r)) (stdout (snd r))).

(** The lines [gps_summaries] has written from line 150 on by the time
    it returns or raises: the line that names the resolution is written
    at line 156 or 172, before the first stamp is read. *)
Definition core_written (traj : list row) (tz_str : string)
  (opt : resolution) (places_of_interest : option (list string))
  (save_log : bool) (threshold : option xnum) (split_day_night : bool)
  (ids : list (string * list Z)) (locations : list (Z * coords))
  (tags : list (Z * tag_dict)) : list string :=
  let split_day_night := effective_split opt split_day_night in
  let home := locate_home (filter is_observed traj) tz_str in
  match aget traj 0 3, aget traj (-1) 3 with
  | Ok first, Ok last =>
      let start_stamp := start_stamp_of opt tz_str first in
      let end_stamp := end_stamp_of opt tz_str last in
      let window := window_of opt in
      let no_windows :=
        no_windows_of opt split_day_night start_stamp end_stamp in
      if 0 <? no_windows then
        window_loop_written traj tz_str opt split_day_night start_stamp
          window no_windows (fst home) (snd home)
          places_of_interest save_log ids locations tags
          (mkLoop [] [] threshold [calculating opt])
          (py_range no_windows)
      else [calculating opt]
  | _, _ => [calculating opt]
  end.

(* ------------------------------------------------------------------ *)
(** ** The query to the provider (lines 77 to 148) *)

(** What the function does to the outside by a statement of its own, in
    order: a line written to the standard output, a request, a pause.
    The warnings of numpy are not events of the trace. *)
Inductive event : Type :=
| Stdout (text : string)
| HttpGet (url : string) (query : string)
| Sleep (seconds : Z).

(** One element of the provider's answer. *)
Record element : Type := mkElement {
  el_id : Z;
  el_type : string;
  el_tags : tag_dict;
  el_lat : xnum;
  el_lon : xnum;
  el_geometry : coords
}.

Record response : Type := mkResponse {
  status_code : Z;
  elements : list element
}.

(** The provider: its answer to the request number [n] of the run. *)
Definition provider : Type := nat -> response.

(** The points the query is built around: a pause is kept when it is
    more than 1000 meters from every point kept so far. *)
Definition anchor_step (acc : list (xnum * xnum)) (r : row)
  : list (xnum * xnum) :=
  match acc with
  | [] => [(r_x0 r, r_y0 r)]
  | a :: acc' =>
      let d := fun p => great_circle_dist (r_x0 r) (r_y0 r) (fst p) (snd p) in
      if xgtb (np_min1 (d a) (map d acc')) (of_Z 1000)
      then acc ++ [(r_x0 r, r_y0 r)]
      else acc
  end.

Definition anchors (traj : list row) : list (xnum * xnum) :=
  fold_left anchor_step (filter is_pause traj) [].

Definition query_of (traj : list row) : string :=
  ("[out:json];" ++ nl ++ "("
   ++ String.concat ""
        (map (fun p =>
                let bbox := bbox_str (fst p) (snd p) 1000 in
                nl ++ tab ++ "node" ++ bbox ++ "['leisure'];"
                ++ nl ++ tab ++ "way" ++ bbox ++ "['leisure'];"
                ++ nl ++ tab ++ "node" ++ bbox ++ "['amenity'];"
                ++ nl ++ tab ++ "way" ++ bbox ++ "['amenity'];")
             (anchors traj))
   ++ nl ++ ");" ++ nl ++ "out geom qt;")%string.

Definition overpass_url : string := "http://overpass-api.de/api/interpreter".

Definition too_many : string :=
  "Too many Overpass requests in a short time."
  ++ " Please try again in a minute...".

(** The loop of requests: [left] is [2 - tries].  [None] is [sys.exit()]. *)
Fixpoint request_loop (world : provider) (query : string) (left n : nat)
  : option response * list event :=
  let r := world n in
  if status_code r =? 200 then (Some r, [HttpGet overpass_url query])
  else
    match left with
    | O => (None, [HttpGet overpass_url query; Stdout too_many])
    | S left' =>
        let rest := request_loop world query left' (S n) in
        (fst rest, HttpGet overpass_url query :: Sleep 60 :: snd rest)
    end.

(** The three dictionaries read off the answer. *)
Record place_index : Type := mkIndex {
  ix_ids : list (string * list Z);
  ix_locations : list (Z * coords);
  ix_tags : list (Z * tag_dict)
}.

Definition add_id (ids : list (string * list Z)) (key : string) (id : Z)
  : list (string * list Z) :=
  match dict_get ids key with
  | None => dict_set ids key [id]
  | Some l => dict_set ids key (l ++ [id])
  end.

Definition index_step (ix : place_index) (e : element) : place_index :=
  let ids :=
    match dict_get (el_tags e) "amenity" with
    | Some a => add_id (ix_ids ix) a (el_id e)
    | None =>
        match dict_get (el_tags e) "leisure" with
        | Some l => add_id (ix_ids ix) l (el_id e)
        | None => ix_ids ix
        end
    end in
  let locations :=
    if String.eqb (el_type e) "node"
    then idict_set (ix_locations ix) (el_id e) [(el_lat e, el_lon e)]
    else if String.eqb (el_type e) "way"
    then idict_set (ix_locations ix) (el_id e) (el_geometry e)
    else ix_locations ix in
  mkIndex ids locations (idict_set (ix_tags ix) (el_id e) (el_tags e)).

Definition index_of (res : response) : place_index :=
  fold_left index_step (elements res) (mkIndex [] [] []).

(* ------------------------------------------------------------------ *)
(** ** [gps_summaries] *)

Inductive outcome : Type :=
| Returned (summary_stats2 : frame) (log_tags : list (string * log_entry))
| Raised (e : exn)
| Exited.

(** The end of the call: [w] is what has been written from line 150 on
    when the call raises. *)
Definition finish (before : list event) (w : list string)
  (r : result summaries) : outcome * list event :=
  match r with
  | Ok s => (Returned (table s) (logs s), before ++ map Stdout (printed s))
  | Raise e => (Raised e, before ++ map Stdout w)
  end.

Definition gps_summaries (world : provider) (traj : list row)
  (tz_str : string) (opt : resolution)
  (places_of_interest : option (list string)) (save_log : bool)
  (threshold : option xnum) (split_day_night : bool)
  : outcome * list event :=
  if (match places_of_interest with Some _ => true | None => false end)
     || save_log then
    match request_loop world (query_of traj) 2 0 with
    | (None, trace) => (Exited, trace)
    | (Some res, trace) =>
        let ix := index_of res in
        finish trace
               (core_written traj tz_str opt places_of_interest save_log
                  threshold split_day_night
                  (ix_ids ix) (ix_locations ix) (ix_tags ix))
               (summaries_core traj tz_str opt places_of_interest save_log
                  threshold split_day_night
                  (ix_ids ix) (ix_locations ix) (ix_tags ix))
    end
  else
    finish [] (core_written traj tz_str opt places_of_interest save_log
                 threshold split_day_night [] [] [])
           (summaries_core traj tz_str opt places_of_interest save_log
              threshold split_day_night [] [] []).

(* ------------------------------------------------------------------ *)
(** * Facts *)

(** ** Masks, indices, cells *)

Lemma take_mask_map {A} (p : A -> bool) (l : list A) :
  take_mask l (map p l) = filter p l.
Proof.
  induction l as [|x l IH]; simpl; [reflexivity|].
  destruct (p x); rewrite IH; reflexivity.
Qed.

Lemma count_true_map {A} (p : A -> bool) (l : list A) :
  count_true (map p l) = Z.of_nat (List.length (filter p l)).
Proof.
  unfold count_true. f_equal.
  induction l as [|x l IH]; simpl; [reflexivity|].
  destruct (p x); simpl; rewrite IH; reflexivity.
Qed.

Lemma mask_or_map {A} (p q : A -> bool) (l : list A) :
  mask_or (map p l) (map q l) = map (fun x => p x || q x) l.
Proof.
  unfold mask_or. induction l as [|x l IH]; simpl; [reflexivity|].
  rewrite IH. reflexivity.
Qed.


Lemma Qsgn_pos (q : Q) : (0 < q)%Q -> Qsgn q = Gt.
Proof.
  destruct q as [n d]. unfold Qlt, Qsgn. cbn [Qnum Qden].
  intros H. apply Z.compare_gt_iff. lia.
Qed.

Lemma Qsgn_neg (q : Q) : (q < 0)%Q -> Qsgn q = Lt.
Proof.
  destruct q as [n d]. unfold Qlt, Qsgn. cbn [Qnum Qden].
  intros H. apply Z.compare_lt_iff. lia.
Qed.


(* ------------------------------------------------------------------ *)
(** ** The selection and the clipping *)

Section ClipperFacts.

Variable traj : list row.
Variable tz_str : string.
Variable split_day_night : bool.
Variable start_stamp : Z.
Variable window : Z.
Variable no_windows : Z.

Local Abbreviation start_time i := (start_time_of split_day_night start_stamp window i).
Local Abbreviation end_time i := (end_time_of split_day_night start_stamp window i).
Local Abbreviation t2 i := (t2_of tz_str split_day_night start_stamp window i).
Local Abbreviation t3 i := (t3_of tz_str split_day_night start_stamp window i).
Local Abbreviation selected_ i :=
  (selected traj tz_str split_day_night start_stamp window i).
Local Abbreviation index_rows_ i :=
  (index_rows traj tz_str split_day_night start_stamp window i).
Local Abbreviation clip_ i :=
  (clip traj tz_str split_day_night start_stamp window no_windows i).
Local Abbreviation interior_ i := (interior split_day_night no_windows i).

(** The test a line passes to be taken into window [i]. *)
Definition selection_rule (i : Z) (r : row) : bool :=
  if split_day_night then
    if is_day i then
      xleb (r_t0 r) (of_Z (t3 i)) && xgeb (r_t1 r) (of_Z (t2 i))
    else
      (xltb (r_t1 r) (of_Z (t2 i)) || xgtb (r_t0 r) (of_Z (t3 i)))
      && xltb (r_t0 r) (of_Z (end_time i))
      && xgtb (r_t1 r) (of_Z (start_time i))
  else
    xltb (r_t0 r) (of_Z (end_time i)) && xgtb (r_t1 r) (of_Z (start_time i)).

Lemma index_rows_rule (i : Z) :
  index_rows_ i = map (selection_rule i) traj.
Proof.
  unfold index_rows, selection_rule.
  destruct split_day_night; [|reflexivity].
  destruct (is_day i); [reflexivity|].
  unfold index1, index2. rewrite mask_or_map.
  apply map_ext. intros r.
  destruct (xltb (r_t1 r) _), (xgtb (r_t0 r) _), (xltb (r_t0 r) _),
    (xgtb (r_t1 r) _); reflexivity.
Qed.

Lemma selected_is_filter (i : Z) :
  selected_ i = filter (selection_rule i) traj.
Proof.
  unfold selected. rewrite index_rows_rule. apply take_mask_map.
Qed.

(** C5, as amended: the lines taken into a window are, in the order of
    the trajectory, exactly those that pass [selection_rule]: a strict
    overlap with the window when the day is not split; for a daytime
    window [t_start <= t3] and [t_end >= t2], with equality allowed; for
    a nighttime window a strict overlap with the calendar day together
    with an end strictly before [t2] or a start strictly after [t3]. *)
Theorem selected_by_rule (i : Z) :
  selected_ i = filter (selection_rule i) traj.
Proof. exact (selected_is_filter i). Qed.

Lemma count_selected (i : Z) :
  count_true (index_rows_ i) = Z.of_nat (List.length (selected_ i)).
Proof.
  rewrite selected_is_filter, index_rows_rule. apply count_true_map.
Qed.

(** The one line of the one-line branch after the cut. *)
Definition cut_line (t0_temp t1_temp : Z) (r : row) : row :=
  let p0 := ((of_Z t0_temp - r_t0 r) / (r_t1 r - r_t0 r))%X in
  let p1 := ((of_Z t1_temp - r_t0 r) / (r_t1 r - r_t0 r))%X in
  mkRow (r_s r)
        ((xone - p0) * r_x0 r + p0 * r_x1 r)%X
        ((xone - p0) * r_y0 r + p0 * r_y1 r)%X
        (of_Z t0_temp)
        ((xone - p1) * r_x0 r + p1 * r_x1 r)%X
        ((xone - p1) * r_y0 r + p1 * r_y1 r)%X
        (of_Z t1_temp)
        (r_obs r).

Lemma clip_single_one (t0_temp t1_temp : Z) (r : row) :
  clip_single t0_temp t1_temp [r] = Ok [cut_line t0_temp t1_temp r].
Proof. destruct r; reflexivity. Qed.

(** The bounds the one-line branch cuts at. *)
Definition t0_temp_of (i : Z) : Z :=
  if split_day_night && is_day i then t2 i else start_time i.
Definition t1_temp_of (i : Z) : Z :=
  if split_day_night && is_day i then t3 i else end_time i.

Lemma clip_one_line (i : Z) (r : row) :
  interior_ i = true ->
  selected_ i = [r] ->
  clip_ i = Ok [cut_line (t0_temp_of i) (t1_temp_of i) r].
Proof.
  intros Hint Hsel. unfold clip. rewrite Hint, count_selected, Hsel.
  simpl. apply clip_single_one.
Qed.

Lemma clip_outer (i : Z) :
  interior_ i = false -> clip_ i = Ok (selected_ i).
Proof. intros H. unfold clip. rewrite H. reflexivity. Qed.

End ClipperFacts.

(* ------------------------------------------------------------------ *)
(** ** The test for an interior window and the one spanning line *)

Lemma interior_plain (no_windows i : Z) :
  interior false no_windows i = negb ((i =? 0) || (i =? no_windows - 1)).
Proof. reflexivity. Qed.

(** With the day split the count is doubled while [i2] runs over the
    days, so that the last day passes the test as soon as there are two
    days. *)
Lemma interior_split_last_day (days i : Z) :
  2 <= days ->
  i / 2 = days - 1 ->
  interior true (days * 2) i = true.
Proof.
  intros Hd Hi. unfold interior, i2_of. rewrite Hi.
  apply negb_true_iff, orb_false_iff.
  split; apply Z.eqb_neq; lia.
Qed.

(** The duration of the line left by the one-line branch is the length
    of the window, whatever the line was. *)
Lemma cut_line_duration (t0_temp t1_temp : Z) (r : row) :
  xeq (dur (cut_line t0_temp t1_temp r)) (of_Z (t1_temp - t0_temp)).
Proof.
  unfold dur, cut_line, of_Z, Z.sub.
  cbn [r_t0 r_t1 xsub xadd xneg xeq].
  rewrite inject_Z_plus, inject_Z_opp. reflexivity.
Qed.

(** The weight of the one-line branch is a finite number when the line
    has a positive duration. *)
Lemma weight_finite (b a t : Q) :
  (a < t)%Q ->
  ((Fin b - Fin a) / (Fin t - Fin a))%X = Fin ((b + - a) / (t + - a)).
Proof.
  intros H. cbn [xsub xadd xneg xdiv].
  rewrite (Qsgn_pos (t + - a)) by lra. reflexivity.
Qed.

Section SpanningLine.

Variable traj : list row.
Variable tz_str : string.
Variable split_day_night : bool.
Variable start_stamp : Z.
Variable window : Z.
Variable no_windows : Z.

(** The one line selected for an interior window, when its end is after
    its start (as it is when the line spans the window): after the cut
    it starts and ends with the window, so that its duration is the
    length of the window, and each end is the blend
    [(1 - p) * start + p * end] of its two points, with
    [p = (bound - t_start) / (t_end - t_start)]. *)
Theorem one_line_cut_to_window (i : Z) (r : row) (a b x0 y0 x1 y1 : Q) :
  interior split_day_night no_windows i = true ->
  selected traj tz_str split_day_night start_stamp window i = [r] ->
  r_t0 r = Fin a -> r_t1 r = Fin b -> (a < b)%Q ->
  r_x0 r = Fin x0 -> r_y0 r = Fin y0 -> r_x1 r = Fin x1 -> r_y1 r = Fin y1 ->
  let t0_temp := t0_temp_of tz_str split_day_night start_stamp window i in
  let t1_temp := t1_temp_of tz_str split_day_night start_stamp window i in
  let p0 := ((inject_Z t0_temp - a) / (b - a))%Q in
  let p1 := ((inject_Z t1_temp - a) / (b - a))%Q in
  exists r',
    clip traj tz_str split_day_night start_stamp window no_windows i
    = Ok [r']
    /\ r_t0 r' = of_Z t0_temp /\ r_t1 r' = of_Z t1_temp
    /\ xeq (dur r') (of_Z (t1_temp - t0_temp))
    /\ xeq (r_x0 r') (Fin ((1 - p0) * x0 + p0 * x1))
    /\ xeq (r_y0 r') (Fin ((1 - p0) * y0 + p0 * y1))
    /\ xeq (r_x1 r') (Fin ((1 - p1) * x0 + p1 * x1))
    /\ xeq (r_y1 r') (Fin ((1 - p1) * y0 + p1 * y1)).
Proof.
  intros Hint Hsel Ht0 Ht1 Hab Hx0 Hy0 Hx1 Hy1. cbv zeta.
  exists (cut_line (t0_temp_of tz_str split_day_night start_stamp window i)
                   (t1_temp_of tz_str split_day_night start_stamp window i)
                   r).
  split; [apply clip_one_line; assumption|].
  split; [reflexivity|]. split; [reflexivity|].
  split; [apply cut_line_duration|].
  unfold cut_line. cbn [r_x0 r_y0 r_x1 r_y1].
  rewrite Ht0, Ht1, Hx0, Hy0, Hx1, Hy1. unfold of_Z.
  rewrite !weight_finite by exact Hab.
  cbn [xone xsub xadd xneg xmul xeq]. unfold Qminus.
  repeat split; reflexivity.
Qed.

End SpanningLine.

(* ------------------------------------------------------------------ *)
(** ** The window without observation *)

Lemma dict_set_get {V} (d : list (string * V)) (k : string) (v : V) :
  dict_get (dict_set d k v) k = Some v.
Proof.
  induction d as [|[k' v'] d IH]; simpl.
  - rewrite String.eqb_refl. reflexivity.
  - destruct (String.eqb k' k) eqn:E; simpl; rewrite E; auto.
Qed.

(** Writing the same entry twice is writing it once. *)
Lemma dict_set_twice {V} (d : list (string * V)) (k : string) (v : V) :
  dict_set (dict_set d k v) k v = dict_set d k v.
Proof.
  induction d as [|[k' v'] d IH]; simpl.
  - rewrite String.eqb_refl. reflexivity.
  - destruct (String.eqb k' k) eqn:E; simpl; rewrite E; [reflexivity|].
    rewrite IH. reflexivity.
Qed.

Lemma pymax_nonempty (l : list xnum) : l <> [] -> exists m, pymax l = Ok m.
Proof. destruct l; [congruence|]. intros _. eexists. reflexivity. Qed.

Ltac bind_ok H :=
  match type of H with
  | bind ?m _ = Ok _ =>
      let E := fresh "E" in
      destruct m eqn:E; cbn [bind] in H; [|discriminate H]
  end.

(** The cell at place [k] of the line of a window without observation:
    the date, the zero durations, NaN. *)
Definition nan_cell (opt : resolution) (t : time_list) (k : nat) : xnum :=
  match opt, k with
  | _, 0%nat => of_Z (tl_year t)
  | _, 1%nat => of_Z (tl_month t)
  | _, 2%nat => of_Z (tl_day t)
  | Hourly, 3%nat => of_Z (tl_hour t)
  | Hourly, 4%nat => xzero
  | Daily, 3%nat | Daily, 4%nat | Daily, 5%nat => xzero
  | _, _ => NaN
  end.

Definition nan_line (opt : resolution)
  (places_of_interest : option (list string)) (t : time_list) : list xnum :=
  map (nan_cell opt t)
      (seq 0 (List.length (base_columns opt
                           ++ places_of_interest2 places_of_interest))).






Section WindowFacts.

Variable traj : list row.
Variable tz_str : string.
Variable opt : resolution.
Variable split_day_night : bool.
Variable start_stamp : Z.
Variable window : Z.
Variable no_windows : Z.
Variable home_x home_y : xnum.
Variable places_of_interest : option (list string).
Variable save_log : bool.
Variable ids : list (string * list Z).
Variable locations : list (Z * coords).
Variable tags : list (Z * tag_dict).

Local Abbreviation clip_ i :=
  (clip traj tz_str split_day_night start_stamp window no_windows i).
Local Abbreviation places_part_ temp th w :=
  (places_part home_x home_y places_of_interest save_log ids locations tags
               temp th w).
Local Abbreviation window_step_ st i :=
  (window_step traj tz_str opt split_day_night start_stamp window no_windows
               home_x home_y places_of_interest save_log ids locations tags
               st i).
Local Abbreviation time_of i :=
  (current_time_list tz_str split_day_night start_stamp window i).


(** Without places and without log the place part raises nothing. *)
Lemma places_part_off (temp : list row) (th : option xnum) (w : list string) :
  places_of_interest = None -> save_log = false ->
  places_part_ temp th w = Ok (mkPlaceState [] [] th w).
Proof. intros -> ->. reflexivity. Qed.

End WindowFacts.

(* ------------------------------------------------------------------ *)
(** ** The log keys of a split day *)

Section SplitDay.

Variable traj : list row.
Variable tz_str : string.
Variable start_stamp : Z.
Variable window : Z.
Variable no_windows : Z.
Variable home_x home_y : xnum.
Variable places_of_interest : option (list string).
Variable save_log : bool.
Variable ids : list (string * list Z).
Variable locations : list (Z * coords).
Variable tags : list (Z * tag_dict).

Local Abbreviation clip_ i :=
  (clip traj tz_str true start_stamp window no_windows i).
Local Abbreviation window_step_ st i :=
  (window_step traj tz_str Daily true start_stamp window no_windows
               home_x home_y places_of_interest save_log ids locations tags
               st i).
Local Abbreviation time_of i :=
  (current_time_list tz_str true start_stamp window i).

(** The key of the log entry of the day of a time list. *)
Definition day_key (t : time_list) : string :=
  day_label (tl_day t) (tl_month t) (tl_year t).

Lemma halves_same_time (k : Z) : time_of (2 * k + 1) = time_of (2 * k).
Proof.
  unfold current_time_list, start_time_of, i2_of.
  replace ((2 * k + 1) / 2) with k.
  - replace (2 * k / 2) with k; [reflexivity|].
    symmetry. rewrite Z.mul_comm. apply Z.div_mul. lia.
  - symmetry. rewrite Z.mul_comm, Z.add_comm.
    rewrite Z.div_add by lia. reflexivity.
Qed.

(** The log after one window of a split day: the plain key and NaN
    without observation, the key with its suffix and the tags found
    otherwise. *)
Lemma split_step_log (st st' : loop_state) (i : Z) (temp : list row) :
  clip_ i = Ok temp ->
  window_step_ st i = Ok st' ->
  (xeqb (obs_dur temp) xzero = true
   /\ log_tags st' = dict_set (log_tags st) (day_key (time_of i)) LogNaN)
  \/ (xeqb (obs_dur temp) xzero = false
      /\ exists l,
          log_tags st'
          = dict_set (log_tags st)
                     (day_key (time_of i) ++ ", " ++ time_cat i) (LogTags l)).
Proof.
  intros Hclip Hstep. unfold window_step in Hstep.
  rewrite Hclip in Hstep. cbn [bind] in Hstep.
  bind_ok Hstep. bind_ok Hstep. bind_ok Hstep.
  destruct (xeqb (obs_dur temp) xzero); inversion Hstep; subst; clear Hstep.
  - left. split; reflexivity.
  - right. split; [reflexivity|]. eexists. reflexivity.
Qed.

(** C10: with the day split, a half of a day without observation writes
    NaN under the key [day/month/year], without the suffix of its half;
    the two halves of a day have one such key, so that when both are
    without observation the second writes over the entry of the first
    and the log holds one entry for the day. *)
Theorem degenerate_halves_share_key (st st1 st2 : loop_state) (k : Z)
  (temp1 temp2 : list row) :
  clip_ (2 * k) = Ok temp1 ->
  xeqb (obs_dur temp1) xzero = true ->
  window_step_ st (2 * k) = Ok st1 ->
  clip_ (2 * k + 1) = Ok temp2 ->
  xeqb (obs_dur temp2) xzero = true ->
  window_step_ st1 (2 * k + 1) = Ok st2 ->
  log_tags st1 = dict_set (log_tags st) (day_key (time_of (2 * k))) LogNaN
  /\ log_tags st2 = log_tags st1
  /\ dict_get (log_tags st2) (day_key (time_of (2 * k))) = Some LogNaN.
Proof.
  intros Hc1 Ho1 Hs1 Hc2 Ho2 Hs2.
  destruct (split_step_log _ _ _ _ Hc1 Hs1) as [[_ H1]|[H _]];
    [|congruence].
  destruct (split_step_log _ _ _ _ Hc2 Hs2) as [[_ H2]|[H _]];
    [|congruence].
  rewrite halves_same_time in H2.
  assert (E : log_tags st2 = log_tags st1).
  { rewrite H2, H1. apply dict_set_twice. }
  repeat split; [exact H1 | exact E |].
  rewrite E, H1. apply dict_set_get.
Qed.

End SplitDay.

(* ------------------------------------------------------------------ *)
(** ** The clusters of pauses *)

(** The order of the cells that are numbers. *)
Lemma xltb_min (b x y : xnum) :
  is_nan x = false -> is_nan y = false -> is_nan b = false ->
  xltb b (if xltb y x then y else x) = xltb b x && xltb b y.
Proof.
  destruct x as [x| | |], y as [y| | |], b as [b| | |];
    cbn [is_nan xltb]; intros Hx Hy Hb; try discriminate; try reflexivity;
    try (destruct (negb _); reflexivity).
  destruct (Qle_bool x y) eqn:Exy; cbn [negb];
    destruct (Qle_bool x b) eqn:Exb, (Qle_bool y b) eqn:Eyb;
    cbn [negb andb]; try reflexivity; exfalso;
    repeat match goal with
           | H : Qle_bool _ _ = true |- _ => apply Qle_bool_iff in H
           | H : Qle_bool ?a ?c = false |- _ =>
               assert (~ (a <= c)%Q)
                 by (rewrite <- Qle_bool_iff; congruence);
               clear H
           end; lra.
Qed.

Lemma forallb_of_map {A B} (f : B -> bool) (g : A -> B) (l : list A) :
  forallb f (map g l) = forallb (fun x => f (g x)) l.
Proof.
  induction l as [|x l IH]; cbn [map forallb];
    [reflexivity | rewrite IH; reflexivity].
Qed.

Lemma np_min1_gt (b x : xnum) (r : list xnum) :
  is_nan b = false ->
  is_nan x = false ->
  (forall y, In y r -> is_nan y = false) ->
  xgtb (np_min1 x r) b = forallb (fun y => xgtb y b) (x :: r)
  /\ is_nan (np_min1 x r) = false.
Proof.
  intros Hb. revert x. unfold np_min1.
  induction r as [|y r IH]; intros x Hx Hr; cbn [fold_left forallb].
  - rewrite andb_true_r. auto.
  - assert (Hy : is_nan y = false) by (apply Hr; left; reflexivity).
    rewrite Hx, Hy.
    destruct (IH (if xltb y x then y else x)) as [E N].
    + destruct (xltb y x); assumption.
    + intros z Hz. apply Hr. right. exact Hz.
    + split; [|exact N]. rewrite E. cbn [forallb]. unfold xgtb.
      rewrite xltb_min by assumption. rewrite andb_assoc. reflexivity.
Qed.

Section ClusterFacts.

Variable home_x home_y : xnum.

Local Abbreviation cluster_step_ pa r := (cluster_step home_x home_y pa r).

Definition seed (r : row) : cluster := mkCluster (r_x0 r) (r_y0 r) (dwell r).

Definition add_dwell (r : row) (c : cluster) : cluster :=
  mkCluster (c_lat c) (c_lon c) (xadd (c_min c) (dwell r)).

(** C7, as amended: a pause that is not more than 5 meters from home
    changes nothing; any other pause starts a new cluster, put last, when
    every cluster so far is more than 5 meters away (the first such pause
    finds none), and otherwise adds its minutes to every cluster within
    5 meters of it, the nearest and any other, and to no other cluster;
    the place of a cluster never moves.  The distances to the clusters
    are taken to be numbers. *)
Theorem cluster_step_rule (pause_array : list cluster) (r : row) :
  (forall c, In c pause_array -> is_nan (dist_to r c) = false) ->
  cluster_step_ pause_array r
  = if xgtb (great_circle_dist (r_x0 r) (r_y0 r) home_x home_y) (of_Z 5) then
      if forallb (fun c => xgtb (dist_to r c) (of_Z 5)) pause_array
      then pause_array ++ [seed r]
      else map (fun c => if xleb (dist_to r c) (of_Z 5)
                         then add_dwell r c else c)
               pause_array
    else pause_array.
Proof.
  intros Hnan. unfold cluster_step.
  destruct (xgtb (great_circle_dist _ _ _ _) (of_Z 5)); [|reflexivity].
  destruct pause_array as [|c cs]; [reflexivity|].
  destruct (np_min1_gt (of_Z 5) (dist_to r c) (map (dist_to r) cs))
    as [E _].
  - reflexivity.
  - apply Hnan. left. reflexivity.
  - intros y Hy. apply in_map_iff in Hy. destruct Hy as [c' [<- Hc']].
    apply Hnan. right. exact Hc'.
  - rewrite E. cbn [forallb]. rewrite forallb_of_map. reflexivity.
Qed.

(** The pauses of a window are taken in the order of its lines. *)
Lemma pause_clusters_snoc (temp : list row) (r : row) :
  pause_clusters home_x home_y (temp ++ [r])
  = if is_pause r
    then cluster_step_ (pause_clusters home_x home_y temp) r
    else pause_clusters home_x home_y temp.
Proof.
  unfold pause_clusters. rewrite filter_app. cbn [filter].
  destruct (is_pause r).
  - rewrite fold_left_app. reflexivity.
  - rewrite app_nil_r. reflexivity.
Qed.

End ClusterFacts.

(* ------------------------------------------------------------------ *)
(** ** What [gps_summaries] does to the outside *)

Lemma request_loop_ext (w1 w2 : provider) (query : string) (left n : nat) :
  (forall k, (k <= left)%nat -> w1 (n + k)%nat = w2 (n + k)%nat) ->
  request_loop w1 query left n = request_loop w2 query left n.
Proof.
  revert n. induction left as [|left IH]; intros n H; cbn [request_loop];
    assert (E : w1 n = w2 n)
      by (specialize (H 0%nat); rewrite Nat.add_0_r in H; apply H; lia);
    rewrite E.
  - reflexivity.
  - rewrite (IH (S n)); [reflexivity|].
    intros k Hk. replace (S n + k)%nat with (n + S k)%nat by lia.
    apply H. lia.
Qed.

Definition asks_provider (places_of_interest : option (list string))
  (save_log : bool) : bool :=
  (match places_of_interest with Some _ => true | None => false end)
  || save_log.

(* ------------------------------------------------------------------ *)
(** ** Labels with a suffix *)

Lemma length_append (a b : string) :
  String.length (a ++ b) = (String.length a + String.length b)%nat.
Proof. induction a as [|c a IH]; simpl; [reflexivity | rewrite IH; reflexivity]. Qed.

Lemma append_inj_r (p q s : string) : (p ++ s = q ++ s)%string -> p = q.
Proof.
  revert q. induction p as [|c p IH]; intros [|c' q] H.
  - reflexivity.
  - apply (f_equal String.length) in H. simpl in H.
    rewrite length_append in H. lia.
  - apply (f_equal String.length) in H. simpl in H.
    rewrite length_append in H. lia.
  - simpl in H. inversion H; subst. f_equal. apply IH. assumption.
Qed.

Lemma eqb_same_suffix (p q s : string) :
  String.eqb (p ++ s) (q ++ s) = String.eqb p q.
Proof.
  destruct (String.eqb_spec p q) as [->|N].
  - apply String.eqb_refl.
  - apply String.eqb_neq. intros H. apply N. exact (append_inj_r _ _ _ H).
Qed.

Lemma chars_append (a b : string) :
  list_ascii_of_string (a ++ b)
  = (list_ascii_of_string a ++ list_ascii_of_string b)%list.
Proof. induction a as [|c a IH]; simpl; [reflexivity | rewrite IH; reflexivity]. Qed.

(** The last characters of a label, the last one first. *)
Definition tail_chars (n : nat) (s : string) : list ascii :=
  firstn n (rev (list_ascii_of_string s)).

Lemma tail_chars_append (p s : string) :
  tail_chars (String.length s) (p ++ s) = rev (list_ascii_of_string s).
Proof.
  unfold tail_chars. rewrite chars_append, rev_app_distr.
  assert (L : List.length (rev (list_ascii_of_string s)) = String.length s).
  { rewrite length_rev. clear. induction s; simpl; auto. }
  rewrite <- L. rewrite firstn_app, Nat.sub_diag, firstn_all. cbn [firstn].
  apply app_nil_r.
Qed.

(** A label that does not end as [s] ends is no [p ++ s]. *)
Lemma eqb_other_suffix (p s t : string) :
  tail_chars (String.length s) t <> rev (list_ascii_of_string s) ->
  String.eqb (p ++ s) t = false.
Proof.
  intros H. apply String.eqb_neq. intros E. apply H.
  rewrite <- E. apply tail_chars_append.
Qed.

Definition dt (cname : string) : string := (cname ++ "_datetime")%string.
Definition nt (cname : string) : string := (cname ++ "_nighttime")%string.

(** The labels a place of interest must not bear for the reshape to find
    its columns: with one of them the frame would have two columns of
    one label. *)
Definition reserved : list string :=
  ["obs_duration"; "obs_day"; "obs_night"]%string.

Definition free_of_reserved (names : list string) : Prop :=
  forall p, In p names -> ~ In p reserved.

Lemma eqb_suffixed (c b s : string) :
  c <> b -> String.eqb (c ++ s) (b ++ s) = false.
Proof. intros H. rewrite eqb_same_suffix. apply String.eqb_neq. exact H. Qed.

Ltac other_suffix := apply eqb_other_suffix; vm_compute; discriminate.

Lemma dt_not_dropped (c : string) :
  ~ In c reserved -> mem_string (dt c) dropped_labels = false.
Proof.
  intros H. unfold mem_string, dropped_labels, dt. cbn [existsb].
  assert (E1 : String.eqb (c ++ "_datetime") "obs_day_datetime" = false)
    by (apply (eqb_suffixed c "obs_day" "_datetime");
        intros ->; apply H; simpl; tauto).
  assert (E2 : String.eqb (c ++ "_datetime") "obs_night_datetime" = false)
    by (apply (eqb_suffixed c "obs_night" "_datetime");
        intros ->; apply H; simpl; tauto).
  rewrite E1, E2.
  rewrite !eqb_other_suffix by (vm_compute; discriminate).
  reflexivity.
Qed.

Lemma nt_not_dropped (c : string) :
  ~ In c reserved -> mem_string (nt c) dropped_labels = false.
Proof.
  intros H. unfold mem_string, dropped_labels, nt. cbn [existsb].
  assert (E1 : String.eqb (c ++ "_nighttime") "obs_day_nighttime" = false)
    by (apply (eqb_suffixed c "obs_day" "_nighttime");
        intros ->; apply H; simpl; tauto).
  assert (E2 : String.eqb (c ++ "_nighttime") "obs_night_nighttime" = false)
    by (apply (eqb_suffixed c "obs_night" "_nighttime");
        intros ->; apply H; simpl; tauto).
  rewrite E1, E2.
  rewrite !eqb_other_suffix by (vm_compute; discriminate).
  reflexivity.
Qed.

Lemma dt_not_duration (c : string) :
  ~ In c reserved ->
  String.eqb (dt c) "obs_duration_datetime" = false
  /\ String.eqb (dt c) "obs_duration_nighttime" = false
  /\ String.eqb "obs_duration" (dt c) = false.
Proof.
  intros H. unfold dt. repeat split.
  - apply (eqb_suffixed c "obs_duration" "_datetime").
    intros ->. apply H. simpl. tauto.
  - other_suffix.
  - rewrite String.eqb_sym. other_suffix.
Qed.

Lemma nt_not_duration (c : string) :
  ~ In c reserved ->
  String.eqb (nt c) "obs_duration_datetime" = false
  /\ String.eqb (nt c) "obs_duration_nighttime" = false
  /\ String.eqb "obs_duration" (nt c) = false.
Proof.
  intros H. unfold nt. repeat split.
  - other_suffix.
  - apply (eqb_suffixed c "obs_duration" "_nighttime").
    intros ->. apply H. simpl. tauto.
  - rewrite String.eqb_sym. other_suffix.
Qed.

(* ------------------------------------------------------------------ *)
(** ** The reshape of a table of days split in two *)

Lemma take_mask_app {A} (a b : list A) (m m' : list bool) :
  List.length a = List.length m ->
  take_mask (a ++ b) (m ++ m') = (take_mask a m ++ take_mask b m')%list.
Proof.
  revert m. induction a as [|x a IH]; intros [|y m] H; try discriminate.
  - reflexivity.
  - cbn [app take_mask]. injection H as H. rewrite (IH _ H).
    destruct y; reflexivity.
Qed.

Lemma take_mask_true {A} (a : list A) :
  take_mask a (repeat true (List.length a)) = a.
Proof. induction a as [|x a IH]; cbn; [reflexivity | rewrite IH; reflexivity]. Qed.

Lemma positions_app (name : string) (a b : list string) (k : nat) :
  positions name (a ++ b) k
  = (positions name a k ++ positions name b (k + List.length a))%list.
Proof.
  revert k. induction a as [|x a IH]; intros k; cbn [app positions List.length].
  - rewrite Nat.add_0_r. reflexivity.
  - rewrite IH. replace (S k + List.length a)%nat
      with (k + S (List.length a))%nat by lia.
    destruct (String.eqb x name); reflexivity.
Qed.

Lemma positions_shift (name : string) (a : list string) (k : nat) :
  positions name a k = map (Nat.add k) (positions name a 0).
Proof.
  revert k. induction a as [|x a IH]; intros k; cbn [positions];
    [reflexivity|].
  rewrite (IH (S k)), (IH 1%nat).
  assert (E : map (Nat.add k) (map (Nat.add 1) (positions name a 0))
              = map (Nat.add (S k)) (positions name a 0)).
  { rewrite map_map. apply map_ext. intros j. lia. }
  destruct (String.eqb x name); cbn [map]; rewrite E, ?Nat.add_0_r;
    reflexivity.
Qed.

Lemma positions_none (name : string) (f : string -> string)
  (a : list string) (k : nat) :
  (forall c, In c a -> String.eqb (f c) name = false) ->
  positions name (map f a) k = [].
Proof.
  revert k. induction a as [|x a IH]; intros k H; cbn [map positions];
    [reflexivity|].
  rewrite H by (left; reflexivity). apply IH. intros c Hc. apply H.
  right. exact Hc.
Qed.

Lemma map_keep_true (f : string -> string) (g : string -> bool)
  (a : list string) :
  (forall c, In c a -> g (f c) = true) ->
  map g (map f a) = repeat true (List.length a).
Proof.
  induction a as [|x a IH]; intros H; cbn [map repeat List.length];
    [reflexivity|].
  rewrite H by (left; reflexivity). f_equal. apply IH. intros c Hc.
  apply H. right. exact Hc.
Qed.

Lemma existsb_map_false (name : string) (f : string -> string)
  (a : list string) :
  (forall c, In c a -> String.eqb name (f c) = false) ->
  mem_string name (map f a) = false.
Proof.
  unfold mem_string. induction a as [|x a IH]; intros H; cbn [map existsb];
    [reflexivity|].
  rewrite H by (left; reflexivity). apply IH. intros c Hc. apply H.
  right. exact Hc.
Qed.

(** The lines of a table of pairs, the day half before the night half. *)
Definition lines_of_pairs (pairs : list (list xnum * list xnum))
  : list (list xnum) :=
  flat_map (fun p => [fst p; snd p]) pairs.

Lemma evens_cons {A} (x : A) (l : list A) : evens (x :: l) = x :: odds l.
Proof. destruct l; reflexivity. Qed.

Lemma odds_cons {A} (x : A) (l : list A) : odds (x :: l) = evens l.
Proof. reflexivity. Qed.

Lemma evens_pairs (pairs : list (list xnum * list xnum)) :
  evens (lines_of_pairs pairs) = map fst pairs.
Proof.
  unfold lines_of_pairs.
  induction pairs as [|p pairs IH]; [reflexivity|].
  cbn [flat_map app map]. rewrite evens_cons, odds_cons, IH. reflexivity.
Qed.

Lemma odds_pairs (pairs : list (list xnum * list xnum)) :
  odds (lines_of_pairs pairs) = map snd pairs.
Proof.
  unfold lines_of_pairs.
  induction pairs as [|p pairs IH]; [reflexivity|].
  cbn [flat_map app map]. rewrite odds_cons, evens_cons, IH. reflexivity.
Qed.

Lemma concat_lines_pairs (wb : nat) (pairs : list (list xnum * list xnum)) :
  concat_lines wb (map fst pairs) (map (skipn 3) (map snd pairs))
  = map (fun p => fst p ++ skipn 3 (snd p))%list pairs.
Proof.
  induction pairs as [|p pairs IH]; [reflexivity|].
  cbn [map concat_lines]. rewrite IH. reflexivity.
Qed.

(** The daily columns after the date. *)
Definition tail_columns : list string := skipn 3 daily_columns.

(** The daily columns after the date that the reshape keeps. *)
Definition kept_columns : list string :=
  ["obs_duration"; "home_time"; "dist_traveled"; "max_dist_home"; "radius";
   "diameter"; "num_sig_places"; "entropy"; "total_flight_time";
   "av_flight_length"; "sd_flight_length"; "av_flight_duration";
   "sd_flight_duration"; "total_pause_time"; "av_pause_duration";
   "sd_pause_duration"]%string.

Definition date_columns : list string := ["year"; "month"; "day"]%string.

(** The labels given to the two halves put side by side. *)
Definition wide_columns (extra : list string) : list string :=
  date_columns ++ map dt (tail_columns ++ extra)
  ++ map nt (tail_columns ++ extra).

(** The labels of the reshaped table. *)
Definition merged_columns (extra : list string) : list string :=
  date_columns ++ ["obs_duration"%string]
  ++ map dt (kept_columns ++ extra) ++ map nt (kept_columns ++ extra).

(** The columns the [drop] keeps, among [wide_columns]. *)
Definition keep_half (k : nat) : list bool :=
  [true; false; false] ++ repeat true (15 + k).

Definition keep_mask (k : nat) : list bool :=
  [true; true; true] ++ keep_half k ++ keep_half k.

Definition is_kept (c : string) : bool := negb (mem_string c dropped_labels).

Lemma keep_mask_eq (extra : list string) :
  free_of_reserved extra ->
  map is_kept (wide_columns extra) = keep_mask (List.length extra).
Proof.
  intros H. unfold wide_columns, keep_mask, keep_half.
  rewrite !map_app.
  rewrite (map_keep_true dt is_kept extra)
    by (intros c Hc; unfold is_kept; rewrite dt_not_dropped; auto).
  rewrite (map_keep_true nt is_kept extra)
    by (intros c Hc; unfold is_kept; rewrite nt_not_dropped; auto).
  change (map is_kept date_columns) with [true; true; true].
  change (map is_kept (map dt tail_columns))
    with ([true; false; false] ++ repeat true 15).
  change (map is_kept (map nt tail_columns))
    with ([true; false; false] ++ repeat true 15).
  rewrite !repeat_app, <- !app_assoc. reflexivity.
Qed.

Lemma mem_string_In (s : string) (l : list string) :
  In s l -> mem_string s l = true.
Proof.
  intros H. unfold mem_string. apply existsb_exists.
  exists s. split; [exact H | apply String.eqb_refl].
Qed.

Lemma dropped_present (extra : list string) :
  forallb (fun l => mem_string l (wide_columns extra)) dropped_labels = true.
Proof.
  unfold wide_columns. rewrite !map_app.
  apply forallb_forall. intros l Hl. apply mem_string_In.
  cbn [dropped_labels In] in Hl.
  destruct Hl as [<-|[<-|[<-|[<-|[]]]]].
  - apply in_or_app. right. apply in_or_app. left. apply in_or_app. left.
    vm_compute. tauto.
  - apply in_or_app. right. apply in_or_app. left. apply in_or_app. left.
    vm_compute. tauto.
  - apply in_or_app. right. apply in_or_app. right. apply in_or_app. left.
    vm_compute. tauto.
  - apply in_or_app. right. apply in_or_app. right. apply in_or_app. left.
    vm_compute. tauto.
Qed.

Lemma take_mask_of_map {A B} (f : A -> B) (l : list A) (m : list bool) :
  take_mask (map f l) m = map f (take_mask l m).
Proof.
  revert m. induction l as [|x l IH]; intros [|b m]; cbn [map take_mask];
    try reflexivity.
  rewrite IH. destruct b; reflexivity.
Qed.

Lemma keep_half_length (k : nat) : List.length (keep_half k) = (18 + k)%nat.
Proof. unfold keep_half. cbn [app List.length]. rewrite repeat_length. lia. Qed.

Lemma half_kept (f : string -> string) (extra : list string) :
  take_mask (map f (tail_columns ++ extra)) (keep_half (List.length extra))
  = map f (kept_columns ++ extra).
Proof.
  unfold keep_half. rewrite repeat_app, app_assoc, !map_app.
  rewrite take_mask_app by reflexivity.
  rewrite <- (length_map f extra), take_mask_true.
  rewrite take_mask_of_map. reflexivity.
Qed.

Lemma wide_columns_kept (extra : list string) :
  take_mask (wide_columns extra) (keep_mask (List.length extra))
  = date_columns ++ map dt (kept_columns ++ extra)
    ++ map nt (kept_columns ++ extra).
Proof.
  unfold wide_columns, keep_mask.
  rewrite take_mask_app by reflexivity.
  rewrite take_mask_app.
  2: { rewrite length_map, length_app, keep_half_length. reflexivity. }
  rewrite !half_kept. reflexivity.
Qed.

Definition narrow_columns (extra : list string) : list string :=
  date_columns ++ map dt (kept_columns ++ extra)
  ++ map nt (kept_columns ++ extra).

Lemma day_duration_position (extra : list string) :
  free_of_reserved extra ->
  positions "obs_duration_datetime" (narrow_columns extra) 0 = [3%nat].
Proof.
  intros H. unfold narrow_columns. rewrite !map_app, !positions_app.
  rewrite (positions_none _ dt extra)
    by (intros c Hc; apply dt_not_duration; auto).
  rewrite (positions_none _ nt extra)
    by (intros c Hc; apply nt_not_duration; auto).
  reflexivity.
Qed.

Lemma night_duration_position (extra : list string) :
  free_of_reserved extra ->
  positions "obs_duration_nighttime" (narrow_columns extra) 0
  = [(19 + List.length extra)%nat].
Proof.
  intros H. unfold narrow_columns. rewrite !map_app, !positions_app.
  rewrite (positions_none _ dt extra)
    by (intros c Hc; apply dt_not_duration; auto).
  rewrite (positions_none _ nt extra)
    by (intros c Hc; apply nt_not_duration; auto).
  rewrite !length_app, !length_map.
  rewrite (positions_shift _ (map dt kept_columns)).
  rewrite (positions_shift _ (map nt kept_columns)).
  change (positions _ date_columns 0) with (@nil nat).
  change (positions _ (map dt kept_columns) 0) with (@nil nat).
  change (positions _ (map nt kept_columns) 0) with [0%nat].
  cbn [map app]. f_equal.
  change (List.length date_columns) with 3%nat.
  change (List.length kept_columns) with 16%nat. lia.
Qed.

Lemma duration_label_free (extra : list string) :
  free_of_reserved extra ->
  mem_string "obs_duration" (narrow_columns extra) = false.
Proof.
  intros H. unfold narrow_columns, mem_string.
  rewrite !map_app, !existsb_app.
  fold (mem_string "obs_duration" (map dt extra)).
  fold (mem_string "obs_duration" (map nt extra)).
  rewrite (existsb_map_false _ dt extra)
    by (intros c Hc; apply dt_not_duration; auto).
  rewrite (existsb_map_false _ nt extra)
    by (intros c Hc; apply nt_not_duration; auto).
  reflexivity.
Qed.

Lemma combine_maps {A B C} (f : A -> B) (g : A -> C) (l : list A) :
  combine (map f l) (map g l) = map (fun x => (f x, g x)) l.
Proof.
  induction l as [|x l IH]; cbn [map combine];
    [reflexivity | rewrite IH; reflexivity].
Qed.

Lemma combine_with_map {A B} (h : A -> B) (l : list A) :
  combine l (map h l) = map (fun x => (x, h x)) l.
Proof.
  induction l as [|x l IH]; cbn [map combine];
    [reflexivity | rewrite IH; reflexivity].
Qed.

(** What the reshape makes of one line of the two halves put side by
    side: the dropped cells go, the sum of the two durations comes in at
    place 3. *)
Definition shape (k : nat) (l : list xnum) : list xnum :=
  let l' := take_mask l (keep_mask k) in
  insert_at 3 (xadd (nth 3 l' NaN) (nth (19 + k) l' NaN)) l'.

Lemma reshape_wide (extra : list string) (lines : list (list xnum)) :
  free_of_reserved extra ->
  (forall l,
      In l (concat_lines (List.length (daily_columns ++ extra) - 3)
                         (evens lines) (map (skipn 3) (odds lines))) ->
      List.length l = List.length (wide_columns extra)) ->
  reshape (mkFrame (daily_columns ++ extra) lines)
  = Ok (mkFrame (merged_columns extra)
                (map (shape (List.length extra))
                     (concat_lines (List.length (daily_columns ++ extra) - 3)
                                   (evens lines)
                                   (map (skipn 3) (odds lines))))).
Proof.
  intros Hfree Hlen. unfold reshape. cbn [columns data].
  assert (L3 : (List.length (daily_columns ++ extra) <? 3)%nat = false).
  { apply Nat.ltb_ge. rewrite length_app. cbn. lia. }
  rewrite L3. cbn [bind].
  change (firstn 3 (daily_columns ++ extra)) with date_columns.
  change (skipn 3 (daily_columns ++ extra)) with (tail_columns ++ extra).
  change (date_columns ++ map _ (tail_columns ++ extra)
          ++ map _ (tail_columns ++ extra))
    with (wide_columns extra).
  set (wide := concat_lines _ _ _) in *.
  unfold make_frame.
  assert (F : forallb (fun l => (List.length l
                                 =? List.length (wide_columns extra))%nat)
                      wide = true).
  { apply forallb_forall. intros l Hl. apply Nat.eqb_eq, Hlen, Hl. }
  rewrite F. cbn [bind].
  unfold drop_columns. cbn [columns data].
  rewrite dropped_present.
  fold is_kept. rewrite (keep_mask_eq extra Hfree), wide_columns_kept.
  cbn [bind]. fold (narrow_columns extra).
  unfold get_column. cbn [columns data].
  rewrite (day_duration_position extra Hfree). cbn [bind].
  rewrite (night_duration_position extra Hfree). cbn [bind].
  unfold insert_column. cbn [columns data].
  rewrite (duration_label_free extra Hfree).
  assert (L4 : (List.length (narrow_columns extra) <? 3)%nat = false).
  { apply Nat.ltb_ge. unfold narrow_columns. rewrite length_app. cbn. lia. }
  rewrite L4. f_equal. f_equal.
  rewrite combine_maps, map_map, combine_with_map, !map_map.
  apply map_ext. intros l. reflexivity.
Qed.

(** The line of a day made of the lines of its two halves: the date, the
    sum of the two observed durations, then the cells of the day half
    and those of the night half, each without its date and without its
    [obs_day] and [obs_night]. *)
Definition merge_pair (d n : list xnum) : list xnum :=
  firstn 3 d ++ [xadd (nth 3 d NaN) (nth 3 n NaN)]
  ++ (nth 3 d NaN :: skipn 6 d) ++ (nth 3 n NaN :: skipn 6 n).

Lemma shape_pair (k : nat) (d n : list xnum) :
  List.length d = (21 + k)%nat ->
  List.length n = (21 + k)%nat ->
  shape k (d ++ skipn 3 n) = merge_pair d n.
Proof.
  intros Hd Hn.
  do 6 (destruct d as [|? d]; [discriminate Hd|]).
  do 6 (destruct n as [|? n]; [discriminate Hn|]).
  cbn [List.length] in Hd, Hn.
  assert (Ld : List.length d = (15 + k)%nat) by lia.
  assert (Ln : List.length n = (15 + k)%nat) by lia.
  unfold shape, merge_pair, keep_mask, keep_half.
  cbn [skipn app take_mask firstn nth].
  rewrite take_mask_app by (rewrite repeat_length; exact Ld).
  cbn [app take_mask].
  assert (Ed : take_mask d (repeat true (15 + k)) = d)
    by (rewrite <- Ld; apply take_mask_true).
  assert (En : take_mask n (repeat true (15 + k)) = n)
    by (rewrite <- Ln; apply take_mask_true).
  cbn zeta. rewrite !Ed, !En.
  replace (19 + k)%nat with (S (S (S (S (List.length d))))) by lia.
  cbn [nth]. rewrite nth_middle.
  reflexivity.
Qed.


(* ------------------------------------------------------------------ *)
(** ** The planner *)

Lemma nth_error_last {A} (l : list A) (d : A) :
  l <> [] -> nth_error l (List.length l - 1) = Some (List.last l d).
Proof.
  induction l as [|x l IH]; [congruence|]. intros _.
  destruct l as [|y l]; [reflexivity|].
  replace (List.length (x :: y :: l) - 1)%nat
    with (S (List.length (y :: l) - 1)) by (cbn [List.length]; lia).
  cbn [nth_error]. rewrite IH by congruence. reflexivity.
Qed.

Lemma aget_last (temp : list row) (r : row) (j : nat) :
  aget (r :: temp) (-1) j = Ok (getc (List.last (r :: temp) r) j).
Proof.
  unfold aget, norm_index.
  change (-1 <? 0) with true. cbv iota.
  assert (E : -1 + Z.of_nat (List.length (r :: temp))
              = Z.of_nat (List.length temp)).
  { cbn [List.length]. lia. }
  rewrite E.
  replace (0 <=? Z.of_nat (List.length temp)) with true
    by (symmetry; apply Z.leb_le; lia).
  replace (Z.of_nat (List.length temp)
           <? Z.of_nat (List.length (r :: temp))) with true
    by (symmetry; apply Z.ltb_lt; cbn [List.length]; lia).
  cbn [andb bind]. rewrite Nat2Z.id.
  replace (List.length temp) with (List.length (r :: temp) - 1)%nat
    by (cbn [List.length]; lia).
  rewrite (nth_error_last (r :: temp) r) by congruence. reflexivity.
Qed.

Lemma window_positive (opt : resolution) : 0 < window_of opt.
Proof. destruct opt; reflexivity. Qed.

(** The labels of the table [gps_summaries] returns. *)
Definition final_columns (opt : resolution) (split_day_night : bool)
  (places_of_interest : option (list string)) : list string :=
  if effective_split opt split_day_night
  then merged_columns (places_of_interest2 places_of_interest)
  else base_columns opt ++ places_of_interest2 places_of_interest.

(* ------------------------------------------------------------------ *)
(** ** Windows that raise *)

Lemma py_range_positive (n : Z) :
  0 < n -> exists rest, py_range n = 0 :: rest.
Proof.
  intros H. unfold py_range.
  destruct (Z.to_nat n) as [|m] eqn:E; [lia|].
  cbn [seq map]. eexists. reflexivity.
Qed.

Section FaultFacts.

Variable traj : list row.
Variable tz_str : string.
Variable opt : resolution.
Variable split_day_night : bool.
Variable start_stamp : Z.
Variable window : Z.
Variable no_windows : Z.
Variable home_x home_y : xnum.
Variable places_of_interest : option (list string).
Variable save_log : bool.
Variable ids : list (string * list Z).
Variable locations : list (Z * coords).
Variable tags : list (Z * tag_dict).

Local Abbreviation selected_ i :=
  (selected traj tz_str split_day_night start_stamp window i).
Local Abbreviation clip_ i :=
  (clip traj tz_str split_day_night start_stamp window no_windows i).
Local Abbreviation window_step_ st i :=
  (window_step traj tz_str opt split_day_night start_stamp window no_windows
               home_x home_y places_of_interest save_log ids locations tags
               st i).
Local Abbreviation window_loop_ st l :=
  (window_loop traj tz_str opt split_day_night start_stamp window no_windows
               home_x home_y places_of_interest save_log ids locations tags
               st l).

(** A window that no line of the trajectory overlaps gives no line of
    the table.  When it passes the test of line 228,
    [i2 not in (0, no_windows - 1)], with [i2 = i // 2] and the doubled
    count in a split run, the cut reads the line [0] of an empty array
    and raises [IndexError]; when it does not pass it, the greatest
    distance from home is the [max] of an empty sequence and raises
    [ValueError]. *)
Theorem empty_window_raises (st : loop_state) (i : Z) :
  selected_ i = [] ->
  window_step_ st i
  = Raise (if interior split_day_night no_windows i
           then IndexError else ValueError).
Proof.
  intros Hsel. unfold window_step, clip.
  rewrite count_selected, Hsel.
  destruct (interior split_day_night no_windows i).
  - cbn [List.length Z.of_nat Z.eqb].
    destruct (split_day_night && negb (is_day i)); reflexivity.
  - reflexivity.
Qed.

(** With the log asked for and no place of interest, line 333 takes the
    length of [None]: no window goes through. *)
Lemma log_without_places_step (st : loop_state) (i : Z) :
  places_of_interest = None -> save_log = true ->
  exists e, window_step_ st i = Raise e.
Proof.
  intros Hp Hs. unfold window_step.
  destruct (clip_ i) as [temp|e]; cbn [bind]; [|eexists; reflexivity].
  destruct (max_dist_home home_x home_y temp) as [mdh|e]; cbn [bind];
    [|eexists; reflexivity].
  unfold places_part. rewrite Hp, Hs. cbn [orb bind].
  eexists. reflexivity.
Qed.

(** With the log asked for and no place of interest, a window whose
    selection is not empty and whose cut goes through raises
    [TypeError]. *)
Theorem log_without_places_raises (st : loop_state) (i : Z)
  (temp : list row) :
  places_of_interest = None -> save_log = true ->
  clip_ i = Ok temp -> temp <> [] ->
  window_step_ st i = Raise TypeError.
Proof.
  intros Hp Hs Hclip Hne. unfold window_step. rewrite Hclip. cbn [bind].
  destruct (pymax_nonempty (d_home_1 home_x home_y temp
                            ++ d_home_2 home_x home_y temp)) as [mdh Hm].
  { destruct temp; [congruence|]. discriminate. }
  unfold max_dist_home. rewrite Hm. cbn [bind].
  unfold places_part. rewrite Hp, Hs. reflexivity.
Qed.

Lemma log_without_places_loop (st : loop_state) (n : Z) :
  places_of_interest = None -> save_log = true -> 0 < n ->
  exists e, window_loop_ st (py_range n) = Raise e.
Proof.
  intros Hp Hs Hn. destruct (py_range_positive n Hn) as [rest ->].
  cbn [window_loop].
  destruct (log_without_places_step st 0 Hp Hs) as [e ->].
  eexists. reflexivity.
Qed.

End FaultFacts.

(** With [save_log=True] and no place of interest, [gps_summaries] never
    returns a line of statistics: whatever the trajectory and the
    provider, it raises, or leaves the process, or (when there is no
    window at all) returns a table without lines and an empty log. *)
Theorem log_without_places_returns_nothing (world : provider)
  (traj : list row) (tz_str : string) (opt : resolution)
  (threshold : option xnum) (split_day_night : bool)
  (t : frame) (l : list (string * log_entry)) :
  fst (gps_summaries world traj tz_str opt None true threshold
                     split_day_night) = Returned t l ->
  data t = [] /\ l = [].
Proof.
  unfold gps_summaries. cbn [orb].
  destruct (request_loop world (query_of traj) 2 0) as [[res|] trace];
    [|discriminate].
  unfold summaries_core.
  destruct (aget traj 0 3) as [first|e]; cbn [bind finish fst];
    [|discriminate].
  destruct (aget traj (-1) 3) as [last|e]; cbn [bind finish fst];
    [|discriminate].
  set (nw := no_windows_of opt _ _ _).
  destruct (0 <? nw) eqn:Hnw.
  - apply Z.ltb_lt in Hnw.
    destruct (log_without_places_loop traj tz_str opt
                (effective_split opt split_day_night)
                (start_stamp_of opt tz_str first) (window_of opt) nw
                (fst (locate_home (filter is_observed traj) tz_str))
                (snd (locate_home (filter is_observed traj) tz_str))
                None true (ix_ids (index_of res))
                (ix_locations (index_of res)) (ix_tags (index_of res))
                (mkLoop [] [] threshold [calculating opt]) nw
                eq_refl eq_refl Hnw) as [e He].
    rewrite He. cbn [bind finish fst]. discriminate.
  - cbn [bind fst snd log_tags stdout places_of_interest2].
    rewrite app_nil_r.
    destruct (effective_split opt split_day_night) eqn:Es.
    + assert (opt = Daily) as ->
        by (destruct opt; [discriminate Es | reflexivity]).
      cbn [base_columns].
      rewrite <- (app_nil_r daily_columns).
      rewrite (reshape_wide [] []); [|intros p [] | intros x []].
      cbn [bind finish fst table logs data]. intros H. inversion H; subst.
      split; reflexivity.
    + cbn [bind finish fst table logs]. intros H. inversion H; subst.
      split; reflexivity.
Qed.

(* ------------------------------------------------------------------ *)
(** ** The windows of the planner *)

(** Every window the loop visits lies within the span from [start_stamp]
    to [end_stamp] and has the length of the resolution; without split
    each window starts where the one before ends; with the split the two
    halves of a day share the bounds of the day; what the windows leave
    of the span at its end is shorter than one window. *)
Theorem windows_within_span (opt : resolution) (split_day_night : bool)
  (start_stamp end_stamp i : Z) :
  let w := window_of opt in
  let sp := effective_split opt split_day_night in
  0 <= i < no_windows_of opt sp start_stamp end_stamp ->
  start_stamp <= start_time_of sp start_stamp w i
  /\ end_time_of sp start_stamp w i <= end_stamp
  /\ end_time_of sp start_stamp w i = start_time_of sp start_stamp w i + w
  /\ (sp = false ->
      start_time_of sp start_stamp w (i + 1) = end_time_of sp start_stamp w i)
  /\ (sp = true ->
      start_time_of sp start_stamp w (2 * (i / 2))
      = start_time_of sp start_stamp w i
      /\ start_time_of sp start_stamp w (2 * (i / 2) + 2)
         = end_time_of sp start_stamp w i)
  /\ end_stamp - (start_stamp + (end_stamp - start_stamp) / w * w) < w.
Proof.
  cbv zeta. intros Hi.
  pose proof (window_positive opt) as Hw.
  pose proof (Z.mul_div_le (end_stamp - start_stamp) (window_of opt) Hw)
    as Hle.
  pose proof (Z.mul_succ_div_gt (end_stamp - start_stamp) (window_of opt) Hw)
    as Hgt.
  set (n := (end_stamp - start_stamp) / window_of opt) in *.
  assert (Hi2 : 0 <= i2_of (effective_split opt split_day_night) i < n).
  { unfold no_windows_of, effective_split, i2_of in *.
    fold n in Hi.
    destruct opt; [lia|]. destruct split_day_night; [|lia].
    split; [apply Z.div_pos; lia|].
    apply Z.div_lt_upper_bound; lia. }
  unfold start_time_of, end_time_of.
  set (j := i2_of (effective_split opt split_day_night) i) in *.
  split; [nia|]. split; [nia|]. split; [ring|].
  split; [|split; [|nia]].
  - intros E. unfold j, i2_of. rewrite E. ring.
  - intros E. unfold j, i2_of. rewrite E. split.
    + replace (2 * (i / 2) / 2) with (i / 2); [reflexivity|].
      symmetry. rewrite Z.mul_comm. apply Z.div_mul. lia.
    + replace ((2 * (i / 2) + 2) / 2) with (i / 2 + 1); [reflexivity|].
      symmetry. replace (2 * (i / 2) + 2) with ((i / 2 + 1) * 2) by ring.
      apply Z.div_mul. lia.
Qed.

(* ------------------------------------------------------------------ *)
(** ** The two halves of a split day *)

Lemma xltb_not_leb (a b : xnum) : xltb a b = true -> xleb b a = false.
Proof.
  destruct a, b; cbn [xltb xleb]; try discriminate; try reflexivity.
  intros H. apply negb_true_iff in H. exact H.
Qed.

Lemma finite_not_ltb (a b : xnum) :
  is_finite a = true -> is_finite b = true ->
  xltb a b = false -> xleb b a = true.
Proof.
  destruct a, b; cbn [is_finite xltb xleb]; try discriminate.
  intros _ _ H. apply negb_false_iff in H. exact H.
Qed.

Lemma is_day_even (k : Z) : is_day (2 * k) = true.
Proof.
  unfold is_day. rewrite Z.mul_comm, Z.mod_mul by lia. reflexivity.
Qed.

Lemma is_day_odd (k : Z) : is_day (2 * k + 1) = false.
Proof.
  unfold is_day. rewrite Z.mul_comm, Z.add_comm, Z.mod_add by lia.
  reflexivity.
Qed.

(** No line is taken into both halves of a split day; a line with finite
    stamps that overlaps the day strictly is taken into exactly one of
    them. *)
Theorem halves_partition (tz_str : string) (start_stamp window k : Z)
  (r : row) :
  let day := selection_rule tz_str true start_stamp window (2 * k) r in
  let night :=
    selection_rule tz_str true start_stamp window (2 * k + 1) r in
  day && night = false
  /\ (is_finite (r_t0 r) = true -> is_finite (r_t1 r) = true ->
      xltb (r_t0 r) (of_Z (end_time_of true start_stamp window (2 * k)))
      = true ->
      xgtb (r_t1 r) (of_Z (start_time_of true start_stamp window (2 * k)))
      = true ->
      xorb day night = true).
Proof.
  cbv zeta. unfold selection_rule.
  rewrite is_day_even, is_day_odd.
  unfold t2_of, t3_of, end_time_of, start_time_of.
  rewrite halves_same_time.
  replace (i2_of true (2 * k + 1)) with (i2_of true (2 * k)).
  2: { unfold i2_of. rewrite Z.mul_comm, Z.div_mul by lia.
       rewrite Z.add_comm, Z.div_add by lia. reflexivity. }
  set (t2 := of_Z (datetime2stamp (set_hour _ 8) tz_str)).
  set (t3 := of_Z (datetime2stamp (set_hour _ 20) tz_str)).
  set (e := of_Z (start_stamp + (i2_of true (2 * k) + 1) * window)).
  set (s := of_Z (start_stamp + i2_of true (2 * k) * window)).
  unfold xgtb, xgeb.
  split.
  - destruct (xltb (r_t1 r) t2) eqn:A.
    { rewrite (xltb_not_leb _ _ A), andb_false_r. reflexivity. }
    destruct (xltb t3 (r_t0 r)) eqn:B.
    { rewrite (xltb_not_leb _ _ B). reflexivity. }
    cbn [orb andb]. apply andb_false_r.
  - intros F0 F1 He Hs. rewrite He, Hs.
    destruct (xltb (r_t1 r) t2) eqn:A.
    { rewrite (xltb_not_leb _ _ A), andb_false_r. reflexivity. }
    rewrite (finite_not_ltb (r_t1 r) t2 F1 eq_refl A).
    destruct (xltb t3 (r_t0 r)) eqn:B.
    { rewrite (xltb_not_leb _ _ B). reflexivity. }
    rewrite (finite_not_ltb t3 (r_t0 r) eq_refl F0 B). reflexivity.
Qed.

(* ------------------------------------------------------------------ *)
(** ** What the cut leaves as it is *)

(** Two arrays with the same number of lines, the same statuses and the
    same marks of observation. *)
Definition same_lines (a b : list row) : Prop :=
  List.length a = List.length b
  /\ map r_s a = map r_s b
  /\ map r_obs a = map r_obs b.

Lemma same_lines_refl (a : list row) : same_lines a a.
Proof. repeat split. Qed.

Lemma same_lines_trans (a b c : list row) :
  same_lines a b -> same_lines b c -> same_lines a c.
Proof.
  intros [A1 [A2 A3]] [B1 [B2 B3]]. repeat split; congruence.
Qed.

Lemma update_nth_same (temp : list row) (k : nat) (f : row -> row) :
  (forall r, r_s (f r) = r_s r /\ r_obs (f r) = r_obs r) ->
  same_lines (update_nth temp k f) temp.
Proof.
  intros Hf. revert k.
  induction temp as [|x temp IH]; intros k; [apply same_lines_refl|].
  destruct k as [|k]; cbn [update_nth].
  - destruct (Hf x) as [A B]. repeat split; cbn [map]; congruence.
  - destruct (IH k) as [A [B C]].
    repeat split; cbn [map List.length]; congruence.
Qed.

Lemma aset_same (temp temp' : list row) (i : Z) (j : nat) (v : xnum) :
  (1 <= j <= 6)%nat ->
  aset temp i j v = Ok temp' -> same_lines temp' temp.
Proof.
  intros Hj H. unfold aset in H.
  destruct (norm_index (List.length temp) i) as [k|e]; cbn [bind] in H;
    [|discriminate H].
  inversion H; subst. apply update_nth_same.
  intros [s x0 y0 t0 x1 y1 t1 o].
  do 7 (destruct j as [|j]; [split; reflexivity || lia|]). lia.
Qed.

Ltac binds_ok H :=
  repeat match type of H with
         | bind ?m _ = Ok _ =>
             let E := fresh "E" in
             destruct m eqn:E; cbn [bind] in H; [|discriminate H]
         end.

Ltac chain_same :=
  repeat match goal with
         | E : aset ?a _ _ _ = Ok ?b |- same_lines ?b _ =>
             apply (same_lines_trans b a);
             [eapply aset_same; [|exact E]; lia|]
         end;
  try apply same_lines_refl.

Lemma clip_single_same (t0_temp t1_temp : Z) (temp temp' : list row) :
  clip_single t0_temp t1_temp temp = Ok temp' -> same_lines temp' temp.
Proof.
  intros H. unfold clip_single in H. binds_ok H. chain_same.
Qed.

Lemma clip_ends_same (sidx eidx t0_temp t1_temp : Z)
  (temp temp' : list row) :
  clip_ends sidx eidx t0_temp t1_temp temp = Ok temp' ->
  same_lines temp' temp.
Proof.
  intros H. unfold clip_ends in H. binds_ok H. chain_same.
Qed.

(** Whatever the window, the cut leaves the number of the lines
    selected, their statuses and their marks of observation as they
    are: it only writes coordinates and stamps. *)
Theorem clip_keeps_lines (traj : list row) (tz_str : string)
  (split_day_night : bool) (start_stamp window no_windows i : Z)
  (temp : list row) :
  clip traj tz_str split_day_night start_stamp window no_windows i
  = Ok temp ->
  List.length temp
  = List.length (selected traj tz_str split_day_night start_stamp window i)
  /\ map r_s temp
     = map r_s (selected traj tz_str split_day_night start_stamp window i)
  /\ map r_obs temp
     = map r_obs (selected traj tz_str split_day_night start_stamp window i).
Proof.
  intros H. unfold clip in H.
  destruct (interior split_day_night no_windows i).
  - destruct (count_true _ =? 1).
    + exact (clip_single_same _ _ _ _ H).
    + destruct (split_day_night && negb (is_day i)).
      * destruct (clip_ends 0 _ _ _ _) as [mid|e] eqn:E; cbn [bind] in H;
          [|discriminate H].
        apply (same_lines_trans _ mid);
          [exact (clip_ends_same _ _ _ _ _ _ H)
          | exact (clip_ends_same _ _ _ _ _ _ E)].
      * exact (clip_ends_same _ _ _ _ _ _ H).
  - inversion H; subst. apply same_lines_refl.
Qed.


(* ------------------------------------------------------------------ *)
(** ** The three tries of the request *)

Definition is_get (e : event) : bool :=
  match e with HttpGet _ _ => true | _ => false end.

(** [n] tries without answer, each followed by a pause of a minute. *)
Definition failed_tries (query : string) (n : nat) : list event :=
  List.concat (repeat [HttpGet overpass_url query; Sleep 60] n).

Lemma request_loop_tries (world : provider) (query : string) :
  (exists n, (n < 3)%nat
     /\ (forall k, (k < n)%nat -> status_code (world k) <> 200)
     /\ status_code (world n) = 200
     /\ request_loop world query 2 0
        = (Some (world n),
           failed_tries query n ++ [HttpGet overpass_url query]))
  \/ ((forall k, (k < 3)%nat -> status_code (world k) <> 200)
      /\ request_loop world query 2 0
         = (None, failed_tries query 2
                  ++ [HttpGet overpass_url query; Stdout too_many])).
Proof.
  cbn [request_loop].
  destruct (status_code (world 0%nat) =? 200) eqn:E0.
  { left. exists 0%nat. apply Z.eqb_eq in E0.
    split; [lia|]. split; [intros k Hk; lia|]. split; [exact E0|].
    reflexivity. }
  destruct (status_code (world 1%nat) =? 200) eqn:E1.
  { left. exists 1%nat. apply Z.eqb_eq in E1. apply Z.eqb_neq in E0.
    split; [lia|]. split.
    - intros k Hk. assert (k = 0%nat) as -> by lia. exact E0.
    - split; [exact E1|]. reflexivity. }
  destruct (status_code (world 2%nat) =? 200) eqn:E2.
  { left. exists 2%nat. apply Z.eqb_eq in E2.
    apply Z.eqb_neq in E0. apply Z.eqb_neq in E1.
    split; [lia|]. split.
    - intros k Hk.
      assert (k = 0%nat \/ k = 1%nat) as [-> | ->] by lia; assumption.
    - split; [exact E2|]. reflexivity. }
  right. apply Z.eqb_neq in E0. apply Z.eqb_neq in E1. apply Z.eqb_neq in E2.
  split; [|reflexivity].
  intros k Hk.
  assert (k = 0%nat \/ k = 1%nat \/ k = 2%nat) as [-> | [-> | ->]] by lia;
    assumption.
Qed.

Lemma gets_of_failed_tries (query : string) (n : nat) (rest : list event) :
  List.length (filter is_get (failed_tries query n ++ rest))
  = (n + List.length (filter is_get rest))%nat.
Proof.
  unfold failed_tries. induction n as [|n IH]; [reflexivity|].
  cbn [repeat List.concat app filter is_get List.length]. rewrite IH. reflexivity.
Qed.

Lemma finish_outcome (before : list event) (w : list string)
  (r : result summaries) :
  fst (finish before w r) <> Exited
  /\ filter is_get (snd (finish before w r)) = filter is_get before.
Proof.
  assert (E : forall l, filter is_get (map Stdout l) = []).
  { induction l as [|x l IH]; [reflexivity | exact IH]. }
  destruct r as [s|e]; cbn [finish fst snd]; split;
    try discriminate; rewrite filter_app, E, app_nil_r; reflexivity.
Qed.

(** The function asks the provider at most three times, with a pause of
    a minute after the first and after the second try without answer;
    it leaves the process exactly when it has to ask and the first three
    answers all have a status other than 200, and then all it has done
    is to send the three requests, to wait twice and to write the
    notice: nothing is computed, nothing else is written. *)
Theorem at_most_three_requests (world : provider) (traj : list row)
  (tz_str : string) (opt : resolution)
  (places_of_interest : option (list string)) (save_log : bool)
  (threshold : option xnum) (split_day_night : bool) :
  let run := gps_summaries world traj tz_str opt places_of_interest
                           save_log threshold split_day_night in
  let get := HttpGet overpass_url (query_of traj) in
  (List.length (filter is_get (snd run)) <= 3)%nat
  /\ (fst run = Exited
      <-> asks_provider places_of_interest save_log = true
          /\ forall k, (k < 3)%nat -> status_code (world k) <> 200)
  /\ (fst run = Exited ->
      snd run = [get; Sleep 60; get; Sleep 60; get; Stdout too_many]).
Proof.
  cbv zeta. unfold gps_summaries, asks_provider.
  destruct (_ || save_log).
  - destruct (request_loop_tries world (query_of traj))
      as [[n [Hn [Hk [H200 ->]]]] | [Hk ->]].
    + match goal with
      | |- context [finish ?b ?w ?r] =>
          destruct (finish_outcome b w r) as [NE G]
      end.
      split; [|split].
      * rewrite G, gets_of_failed_tries. cbn [filter is_get List.length]. lia.
      * split; [intros H; contradiction|].
        intros [_ H]. exfalso. exact (H n Hn H200).
      * intros H. contradiction.
    + cbn [fst snd]. split; [|split].
      * cbn. lia.
      * split; [intros _; split; [reflexivity | exact Hk] | reflexivity].
      * intros _. reflexivity.
  - match goal with
    | |- context [finish ?b ?w ?r] =>
        destruct (finish_outcome b w r) as [NE G]
    end.
    split; [|split].
    + rewrite G. cbn. lia.
    + split; [intros H; contradiction | intros [H _]; discriminate].
    + intros H. contradiction.
Qed.


(* ------------------------------------------------------------------ *)
(** ** The index of the answer and the place part *)

Lemma dict_get_set {V} (d : list (string * V)) (k k' : string) (v : V) :
  dict_get (dict_set d k v) k'
  = if String.eqb k k' then Some v else dict_get d k'.
Proof.
  induction d as [|[k0 v0] d IH]; cbn [dict_set dict_get]; [reflexivity|].
  destruct (String.eqb_spec k0 k) as [->|N]; cbn [dict_get].
  - destruct (String.eqb k k'); reflexivity.
  - rewrite IH. destruct (String.eqb_spec k0 k') as [->|N']; [|reflexivity].
    destruct (String.eqb_spec k k') as [->|_]; [congruence | reflexivity].
Qed.

Lemma idict_get_set {V} (d : list (Z * V)) (k k' : Z) (v : V) :
  idict_get (idict_set d k v) k'
  = if k =? k' then Some v else idict_get d k'.
Proof.
  induction d as [|[k0 v0] d IH]; cbn [idict_set idict_get]; [reflexivity|].
  destruct (Z.eqb_spec k0 k) as [->|N]; cbn [idict_get].
  - destruct (k =? k'); reflexivity.
  - rewrite IH. destruct (Z.eqb_spec k0 k') as [->|N']; [|reflexivity].
    destruct (Z.eqb_spec k k') as [->|_]; [congruence | reflexivity].
Qed.

Lemma idict_set_in {V} (d : list (Z * V)) (k id : Z) (v values : V) :
  In (id, values) (idict_set d k v) -> id = k \/ In (id, values) d.
Proof.
  induction d as [|[k0 v0] d IH]; cbn [idict_set].
  - intros [H|[]]. inversion H. left. reflexivity.
  - destruct (Z.eqb_spec k0 k) as [->|N]; intros [H|H].
    + inversion H. left. reflexivity.
    + right. right. exact H.
    + right. left. exact H.
    + destruct (IH H) as [E|I]; [left; exact E | right; right; exact I].
Qed.

(** Every identifier filed under a category has a geometry, and every
    identifier with a geometry has its tags. *)
Definition indexed (ix : place_index) : Prop :=
  (forall key els id,
      dict_get (ix_ids ix) key = Some els -> In id els ->
      idict_get (ix_locations ix) id <> None)
  /\ (forall id values,
         In (id, values) (ix_locations ix) ->
         idict_get (ix_tags ix) id <> None).

Definition node_or_way (e : element) : Prop :=
  el_type e = "node"%string \/ el_type e = "way"%string.

Lemma add_id_members (ids : list (string * list Z)) (a key : string)
  (id0 id : Z) (els : list Z) :
  dict_get (add_id ids a id0) key = Some els -> In id els ->
  id = id0 \/ exists els', dict_get ids key = Some els' /\ In id els'.
Proof.
  unfold add_id. intros H I.
  destruct (dict_get ids a) as [l|] eqn:E; rewrite dict_get_set in H;
    destruct (String.eqb_spec a key) as [->|N].
  - inversion H; subst. apply in_app_or in I. destruct I as [I|[I|[]]].
    + right. exists l. split; assumption.
    + left. symmetry. exact I.
  - right. exists els. split; assumption.
  - inversion H; subst. destruct I as [I|[]]. left. symmetry. exact I.
  - right. exists els. split; assumption.
Qed.

Lemma index_step_indexed (ix : place_index) (e : element) :
  node_or_way e -> indexed ix -> indexed (index_step ix e).
Proof.
  intros T [HI HL].
  assert (Loc : forall id,
             id = el_id e \/ idict_get (ix_locations ix) id <> None ->
             idict_get (ix_locations (index_step ix e)) id <> None).
  { intros id H. unfold index_step. cbn [ix_locations].
    destruct T as [T|T]; rewrite T; cbn [String.eqb Ascii.eqb Bool.eqb];
      rewrite idict_get_set;
      (destruct (Z.eqb_spec (el_id e) id) as [E|N]; [discriminate|]);
      (destruct H as [H|H]; [congruence | exact H]). }
  split.
  - intros key els id H I. apply Loc.
    unfold index_step in H. cbn [ix_ids] in H.
    destruct (dict_get (el_tags e) "amenity") as [a|].
    + destruct (add_id_members _ _ _ _ _ _ H I) as [E|[els' [G I']]];
        [left; exact E | right; exact (HI _ _ _ G I')].
    + destruct (dict_get (el_tags e) "leisure") as [l|].
      * destruct (add_id_members _ _ _ _ _ _ H I) as [E|[els' [G I']]];
          [left; exact E | right; exact (HI _ _ _ G I')].
      * right. exact (HI _ _ _ H I).
  - intros id values H. unfold index_step in *. cbn [ix_locations ix_tags] in *.
    rewrite idict_get_set.
    destruct (Z.eqb_spec (el_id e) id) as [E|N]; [discriminate|].
    destruct (String.eqb (el_type e) "node").
    + destruct (idict_set_in _ _ _ _ _ H) as [E|I];
        [congruence | exact (HL _ _ I)].
    + destruct (String.eqb (el_type e) "way").
      * destruct (idict_set_in _ _ _ _ _ H) as [E|I];
          [congruence | exact (HL _ _ I)].
      * exact (HL _ _ H).
Qed.

Lemma index_of_indexed (res : response) :
  (forall e, In e (elements res) -> node_or_way e) -> indexed (index_of res).
Proof.
  unfold index_of.
  assert (G : forall els ix,
             (forall e, In e els -> node_or_way e) -> indexed ix ->
             indexed (fold_left index_step els ix)).
  { induction els as [|e els IH]; intros ix T H; cbn [fold_left];
      [exact H|].
    apply IH.
    - intros e' I. apply T. right. exact I.
    - apply index_step_indexed; [apply T; left; reflexivity | exact H]. }
  intros T. apply G; [exact T|].
  split; [intros key els id H; discriminate | intros id values []].
Qed.

Section PlaceFacts.

Variable places : list string.
Variable save_log : bool.
Variable ids : list (string * list Z).
Variable locations : list (Z * coords).
Variable tags : list (Z * tag_dict).
Hypothesis well_indexed : indexed (mkIndex ids locations tags).

Lemma match_elements_found (c : cluster) (els : list Z) :
  (forall id, In id els -> idict_get locations id <> None) ->
  exists b, match_elements locations c els = Ok b.
Proof.
  induction els as [|id els IH]; intros H; cbn [match_elements].
  - eexists. reflexivity.
  - destruct (idict_get locations id) as [values|] eqn:E.
    + destruct (geometry_matches c values); [eexists; reflexivity|].
      apply IH. intros id' I. apply H. right. exact I.
    + exfalso. apply (H id); [left; reflexivity | exact E].
Qed.

Lemma log_matches_found (c : cluster) (locs : list (Z * coords))
  (log : list tag_dict) :
  (forall id values, In (id, values) locs -> idict_get tags id <> None) ->
  exists log', log_matches tags c locs log = Ok log'.
Proof.
  revert log.
  induction locs as [|[id values] locs IH]; intros log H;
    cbn [log_matches].
  - eexists. reflexivity.
  - assert (H' : forall id' values',
               In (id', values') locs -> idict_get tags id' <> None)
      by (intros id' values' I; apply (H id' values'); right; exact I).
    destruct (geometry_matches c values); [|apply IH; exact H'].
    destruct (idict_get tags id) as [t|] eqn:E.
    + apply IH. exact H'.
    + exfalso. apply (H id values); [left; reflexivity | exact E].
Qed.

Lemma update_nth_length {A} (l : list A) (k : nat) (f : A -> A) :
  List.length (update_nth l k f) = List.length l.
Proof.
  revert k. induction l as [|x l IH]; intros k; [reflexivity|].
  destruct k as [|k]; cbn [update_nth List.length]; [reflexivity|].
  rewrite IH. reflexivity.
Qed.

Lemma list_add_at_within (l : list xnum) (j : Z) (v : xnum) :
  - Z.of_nat (List.length l) <= j < Z.of_nat (List.length l) ->
  exists l', list_add_at l j v = Ok l' /\ List.length l' = List.length l.
Proof.
  intros H. unfold list_add_at, norm_index.
  destruct (j <? 0) eqn:E.
  - apply Z.ltb_lt in E.
    replace ((0 <=? j + Z.of_nat (List.length l))
             && (j + Z.of_nat (List.length l) <? Z.of_nat (List.length l)))
      with true
      by (symmetry; apply andb_true_iff; split;
          [apply Z.leb_le | apply Z.ltb_lt]; lia).
    cbn [bind]. eexists. split; [reflexivity | apply update_nth_length].
  - apply Z.ltb_ge in E.
    replace ((0 <=? j) && (j <? Z.of_nat (List.length l))) with true
      by (symmetry; apply andb_true_iff; split;
          [apply Z.leb_le | apply Z.ltb_lt]; lia).
    cbn [bind]. eexists. split; [reflexivity | apply update_nth_length].
Qed.

Lemma attribute_places_within (c : cluster) (ps : list string) (j : Z)
  (acc : list xnum * bool) :
  0 <= j ->
  j + Z.of_nat (List.length ps) <= Z.of_nat (List.length (fst acc)) ->
  exists r, attribute_places ids locations c ps j acc = Ok r
            /\ List.length (fst r) = List.length (fst acc).
Proof.
  revert j acc.
  induction ps as [|place ps IH]; intros j acc Hj Hlen;
    cbn [attribute_places].
  - eexists. split; reflexivity.
  - cbn [List.length] in Hlen.
    assert (Step : exists acc',
               match dict_get ids place with
               | None => Ok acc
               | Some els =>
                   m <- match_elements locations c els ;;
                   if m : bool then
                     times <- list_add_at (fst acc) j
                                (xdiv (c_min c) (of_Z 60)) ;;
                     Ok (times, false)
                   else Ok acc
               end = Ok acc'
               /\ List.length (fst acc') = List.length (fst acc)).
    { destruct (dict_get ids place) as [els|] eqn:E;
        [|eexists; split; reflexivity].
      destruct (match_elements_found c els) as [b ->].
      { intros id I. destruct well_indexed as [HI _].
        exact (HI place els id E I). }
      cbn [bind]. destruct b; [|eexists; split; reflexivity].
      destruct (list_add_at_within (fst acc) j (xdiv (c_min c) (of_Z 60)))
        as [l' [-> L]]; [lia|].
      cbn [bind]. eexists. split; [reflexivity | exact L]. }
    destruct Step as [acc' [-> L]]. cbn [bind].
    destruct (IH (j + 1) acc') as [r [-> L']]; [lia | rewrite L; lia |].
    eexists. split; [reflexivity | congruence].
Qed.

Lemma place_step_within (st : place_state) (c : cluster) :
  List.length (all_place_times_temp st) = S (List.length places) ->
  exists st', place_step (Some places) save_log ids locations tags st c
              = Ok st'
              /\ List.length (all_place_times_temp st')
                 = S (List.length places).
Proof.
  intros L. unfold place_step, place_times.
  destruct (attribute_places_within c places 0 (all_place_times_temp st, true))
    as [r [-> Lr]]; [lia | cbn [fst]; lia |].
  cbn [bind fst] in *.
  assert (T : exists times,
             (if snd r : bool
              then list_add_at (fst r) (-1) (xdiv (c_min c) (of_Z 60))
              else Ok (fst r)) = Ok times
             /\ List.length times = S (List.length places)).
  { destruct (snd r).
    - destruct (list_add_at_within (fst r) (-1) (xdiv (c_min c) (of_Z 60)))
        as [l' [-> L']]; [lia|].
      eexists. split; [reflexivity | congruence].
    - eexists. split; [reflexivity | congruence]. }
  destruct T as [times [-> Lt]]. cbn [bind].
  destruct save_log; [|eexists; split; [reflexivity | exact Lt]].
  assert (G : exists log,
             (if xgeb (c_min c)
                      match threshold st with
                      | Some t => t
                      | None => of_Z 60
                      end
              then log_matches tags c locations (log_tags_temp st)
              else Ok (log_tags_temp st)) = Ok log).
  { destruct (xgeb _ _); [|eexists; reflexivity].
    apply log_matches_found. destruct well_indexed as [_ HL]. exact HL. }
  destruct G as [log ->]. cbn [bind].
  eexists. split; [reflexivity | exact Lt].
Qed.

Lemma place_loop_within (cs : list cluster) (st : place_state) :
  List.length (all_place_times_temp st) = S (List.length places) ->
  exists st', place_loop (Some places) save_log ids locations tags st cs
              = Ok st'
              /\ List.length (all_place_times_temp st')
                 = S (List.length places).
Proof.
  revert st. induction cs as [|c cs IH]; intros st L; cbn [place_loop].
  - eexists. split; [reflexivity | exact L].
  - destruct (place_step_within st c L) as [st' [-> L']]. cbn [bind].
    apply IH. exact L'.
Qed.

End PlaceFacts.

(** When places of interest are given and the answer of the provider
    holds only nodes and ways, the place part of a window raises
    nothing, whatever the lines of the window: every identifier filed
    under a category has its geometry, every geometry has its tags, and
    the indices into the list of times stay within its bounds.  The
    list of times keeps one cell per place and one for [other]. *)
Theorem place_part_raises_nothing (res : response) (home_x home_y : xnum)
  (places : list string) (save_log : bool) (temp : list row)
  (th : option xnum) (w : list string) :
  (forall e, In e (elements res) -> node_or_way e) ->
  exists ps,
    places_part home_x home_y (Some places) save_log
                (ix_ids (index_of res)) (ix_locations (index_of res))
                (ix_tags (index_of res)) temp th w = Ok ps
    /\ List.length (all_place_times_temp ps) = S (List.length places).
Proof.
  intros T. unfold places_part. cbn [orb].
  apply place_loop_within.
  - destruct (index_of res) as [i l t] eqn:E. cbn [ix_ids ix_locations ix_tags].
    rewrite <- E. apply index_of_indexed. exact T.
  - cbn [all_place_times_temp]. rewrite repeat_length. lia.
Qed.


(* ------------------------------------------------------------------ *)
(** ** Points kept apart: the anchors of the query and the clusters *)

Lemma xltb_nan_r (b : xnum) : xltb b NaN = false.
Proof. destruct b; reflexivity. Qed.

Lemma np_min1_in (x : xnum) (r : list xnum) : In (np_min1 x r) (x :: r).
Proof.
  unfold np_min1. revert x.
  induction r as [|y r IH]; intros x; cbn [fold_left]; [left; reflexivity|].
  destruct (IH (if is_nan x then x else if is_nan y then y
                else if xltb y x then y else x)) as [E|I].
  - rewrite <- E.
    destruct (is_nan x); [left; reflexivity|].
    destruct (is_nan y); [right; left; reflexivity|].
    destruct (xltb y x); [right; left; reflexivity | left; reflexivity].
  - right. right. exact I.
Qed.

(** A least cell above a bound: every cell is above it (a NaN among the
    cells makes the least cell NaN, which is above nothing). *)
Lemma np_min1_above (b x : xnum) (r : list xnum) :
  xgtb (np_min1 x r) b = true ->
  forall y, In y (x :: r) -> xgtb y b = true.
Proof.
  unfold np_min1. revert x.
  induction r as [|y r IH]; intros x H z I; cbn [fold_left] in H.
  - destruct I as [<-|[]]. exact H.
  - pose proof (IH _ H) as G.
    assert (S2 : xgtb x b = true /\ xgtb y b = true).
    { specialize (G _ (or_introl eq_refl)). unfold xgtb in *.
      destruct (is_nan x) eqn:Nx.
      { destruct x; try discriminate. rewrite xltb_nan_r in G. discriminate. }
      destruct (is_nan y) eqn:Ny.
      { destruct y; try discriminate. rewrite xltb_nan_r in G. discriminate. }
      destruct (is_nan b) eqn:Nb.
      { destruct b; discriminate. }
      rewrite xltb_min in G by assumption.
      apply andb_true_iff in G. exact G. }
    destruct I as [<-|[<-|I]]; [apply S2 | apply S2|].
    apply G. right. exact I.
Qed.

Lemma ForallOrdPairs_snoc {A} (R : A -> A -> Prop) (l : list A) (x : A) :
  ForallOrdPairs R l -> Forall (fun a => R a x) l ->
  ForallOrdPairs R (l ++ [x]).
Proof.
  induction 1 as [|a l Ha Hl IH]; intros F; cbn [app].
  - constructor; constructor.
  - inversion F; subst. constructor.
    + apply Forall_app. split; [exact Ha | constructor; [assumption|constructor]].
    + apply IH. assumption.
Qed.

(** The later point [q] is more than [limit] meters from the earlier
    point [p]. *)
Definition apart (limit : xnum) (p q : xnum * xnum) : Prop :=
  xgtb (great_circle_dist (fst q) (snd q) (fst p) (snd p)) limit = true.

Definition start_of (r : row) : xnum * xnum := (r_x0 r, r_y0 r).

(** The line [r] starts at [p], or not more than [limit] meters from it
    (or at a distance that is no number). *)
Definition covered (limit : xnum) (r : row) (p : xnum * xnum) : Prop :=
  p = start_of r
  \/ xgtb (great_circle_dist (r_x0 r) (r_y0 r) (fst p) (snd p)) limit = false.

Section Nets.

Variable limit : xnum.

(** The step shared by the two loops: the start of [r] is kept when
    nothing is kept yet or when every point kept is more than [limit]
    meters away. *)
Definition net_step (acc : list (xnum * xnum)) (r : row)
  : list (xnum * xnum) :=
  match acc with
  | [] => [start_of r]
  | a :: acc' =>
      let d := fun p => great_circle_dist (r_x0 r) (r_y0 r) (fst p) (snd p) in
      if xgtb (np_min1 (d a) (map d acc')) limit
      then acc ++ [start_of r]
      else acc
  end.

Lemma net_step_cases (acc : list (xnum * xnum)) (r : row) :
  (net_step acc r = acc ++ [start_of r]
   /\ Forall (fun p => apart limit p (start_of r)) acc)
  \/ (net_step acc r = acc /\ exists p, In p acc /\ covered limit r p).
Proof.
  destruct acc as [|a acc]; [left; split; [reflexivity | constructor]|].
  pose (d := fun p => great_circle_dist (r_x0 r) (r_y0 r) (fst p) (snd p)).
  change (net_step (a :: acc) r)
    with (if xgtb (np_min1 (d a) (map d acc)) limit
          then (a :: acc) ++ [start_of r] else a :: acc).
  destruct (xgtb (np_min1 (d a) (map d acc)) limit) eqn:E.
  - left. split; [reflexivity|].
    apply Forall_forall. intros p I.
    apply (np_min1_above _ _ _ E (d p)).
    change (In (d p) (map d (a :: acc))). apply in_map. exact I.
  - right. split; [reflexivity|].
    pose proof (np_min1_in (d a) (map d acc)) as I.
    change (In (np_min1 (d a) (map d acc)) (map d (a :: acc))) in I.
    apply in_map_iff in I. destruct I as [p [Ep Ip]].
    exists p. split; [exact Ip|]. right.
    change (xgtb (d p) limit = false). rewrite Ep. exact E.
Qed.

Lemma net_fold (rs : list row) (acc : list (xnum * xnum)) :
  let net := fold_left net_step rs acc in
  (ForallOrdPairs (apart limit) acc -> ForallOrdPairs (apart limit) net)
  /\ (forall p, In p acc -> In p net)
  /\ (forall p, In p net ->
                In p acc \/ exists r, In r rs /\ p = start_of r)
  /\ (forall r, In r rs -> exists p, In p net /\ covered limit r p)
  /\ (List.length net <= List.length acc + List.length rs)%nat.
Proof.
  cbv zeta. revert acc.
  induction rs as [|r rs IH]; intros acc; cbn [fold_left].
  - split; [auto|]. split; [auto|]. split; [auto|].
    split; [intros r []|]. cbn [List.length]. lia.
  - destruct (IH (net_step acc r)) as [A [B [C [D L]]]].
    assert (Grow : forall p, In p acc -> In p (net_step acc r)).
    { intros p I.
      destruct (net_step_cases acc r) as [[-> _]|[-> _]];
        [apply in_or_app; left; exact I | exact I]. }
    split; [|split; [|split; [|split]]].
    + intros F. apply A.
      destruct (net_step_cases acc r) as [[-> Far]|[-> _]]; [|exact F].
      apply ForallOrdPairs_snoc; assumption.
    + intros p I. apply B, Grow, I.
    + intros p I. destruct (C p I) as [J|[r' [J ->]]].
      * destruct (net_step_cases acc r) as [[E _]|[E _]]; rewrite E in J.
        -- apply in_app_or in J. destruct J as [J|[<-|[]]]; [left; exact J|].
           right. exists r. split; [left|]; reflexivity.
        -- left. exact J.
      * right. exists r'. split; [right; exact J | reflexivity].
    + intros r' [<-|I]; [|exact (D r' I)].
      destruct (net_step_cases acc r) as [[E _]|[E [p [Ip Cp]]]].
      * exists (start_of r). split; [|left; reflexivity].
        apply B. rewrite E. apply in_or_app. right. left. reflexivity.
      * exists p. split; [apply B; rewrite E; exact Ip | exact Cp].
    + assert (List.length (net_step acc r) <= S (List.length acc))%nat.
      { destruct (net_step_cases acc r) as [[-> _]|[-> _]];
          [rewrite length_app; cbn [List.length]; lia | lia]. }
      cbn [List.length]. lia.
Qed.

End Nets.

(** The points the query is built around are starts of pauses of the
    trajectory; each is more than 1000 meters from every point kept
    before it; and every pause starts at one of them or not more than
    1000 meters from one of them, so that the boxes drawn around them
    leave no pause out. *)
Theorem anchors_form_a_net (traj : list row) :
  ForallOrdPairs (apart (of_Z 1000)) (anchors traj)
  /\ (forall p, In p (anchors traj) ->
                exists r, In r traj /\ is_pause r = true /\ p = start_of r)
  /\ (forall r, In r traj -> is_pause r = true ->
                exists p, In p (anchors traj) /\ covered (of_Z 1000) r p).
Proof.
  change (anchors traj)
    with (fold_left (net_step (of_Z 1000)) (filter is_pause traj) []).
  destruct (net_fold (of_Z 1000) (filter is_pause traj) [])
    as [A [_ [C [D _]]]].
  split; [apply A; constructor|]. split.
  - intros p I. destruct (C p I) as [[]|[r [J ->]]].
    apply filter_In in J. exists r. tauto.
  - intros r I P. apply D. apply filter_In. tauto.
Qed.

Definition place_of (c : cluster) : xnum * xnum := (c_lat c, c_lon c).

Definition far_from_home (home_x home_y : xnum) (r : row) : bool :=
  xgtb (great_circle_dist (r_x0 r) (r_y0 r) home_x home_y) (of_Z 5).

Lemma cluster_step_places (home_x home_y : xnum) (pa : list cluster)
  (r : row) :
  map place_of (cluster_step home_x home_y pa r)
  = if far_from_home home_x home_y r
    then net_step (of_Z 5) (map place_of pa) r
    else map place_of pa.
Proof.
  unfold cluster_step, far_from_home.
  destruct (xgtb (great_circle_dist _ _ home_x home_y) (of_Z 5));
    [|reflexivity].
  destruct pa as [|c cs]; [reflexivity|].
  change (net_step (of_Z 5) (map place_of (c :: cs)) r)
    with (if xgtb (np_min1 (dist_to r c)
                     (map (fun p => great_circle_dist (r_x0 r) (r_y0 r)
                                      (fst p) (snd p))
                          (map place_of cs))) (of_Z 5)
          then map place_of (c :: cs) ++ [start_of r]
          else map place_of (c :: cs)).
  rewrite map_map.
  change (map (fun x => great_circle_dist (r_x0 r) (r_y0 r)
                          (fst (place_of x)) (snd (place_of x))) cs)
    with (map (dist_to r) cs).
  destruct (xgtb (np_min1 (dist_to r c) (map (dist_to r) cs)) (of_Z 5)).
  - rewrite map_app. reflexivity.
  - rewrite map_map. apply map_ext. intros c'.
    destruct (xleb (dist_to r c') (of_Z 5)); reflexivity.
Qed.

Lemma pause_clusters_places (home_x home_y : xnum) (temp : list row) :
  map place_of (pause_clusters home_x home_y temp)
  = fold_left (net_step (of_Z 5))
              (filter (far_from_home home_x home_y) (filter is_pause temp))
              [].
Proof.
  unfold pause_clusters.
  change (@nil (xnum * xnum)) with (map place_of []).
  generalize (@nil cluster).
  induction (filter is_pause temp) as [|r rs IH]; intros pa;
    cbn [fold_left filter]; [reflexivity|].
  rewrite IH, cluster_step_places.
  destruct (far_from_home home_x home_y r); reflexivity.
Qed.

(** The clusters of a window: each sits where a pause of the window
    that is more than 5 meters from home starts, more than 5 meters
    from every cluster made before it; every such pause starts at a
    cluster or not more than 5 meters from one; there are no more
    clusters than pauses. *)
Theorem clusters_form_a_net (home_x home_y : xnum) (temp : list row) :
  let cs := pause_clusters home_x home_y temp in
  ForallOrdPairs (apart (of_Z 5)) (map place_of cs)
  /\ (forall c, In c cs ->
                exists r, In r temp /\ is_pause r = true
                          /\ far_from_home home_x home_y r = true
                          /\ place_of c = start_of r)
  /\ (forall r, In r temp -> is_pause r = true ->
                far_from_home home_x home_y r = true ->
                exists c, In c cs /\ covered (of_Z 5) r (place_of c))
  /\ (List.length cs <= List.length (filter is_pause temp))%nat.
Proof.
  cbv zeta.
  pose proof (pause_clusters_places home_x home_y temp) as E.
  destruct (net_fold (of_Z 5)
              (filter (far_from_home home_x home_y) (filter is_pause temp))
              []) as [A [_ [C [D L]]]].
  rewrite <- E in A, C, D, L.
  split; [apply A; constructor|]. split; [|split].
  - intros c I. destruct (C (place_of c) (in_map place_of _ _ I))
      as [[]|[r [J ->]]].
    apply filter_In in J. destruct J as [J F].
    apply filter_In in J. exists r. tauto.
  - intros r I P F.
    destruct (D r) as [p [Ip Cp]].
    { apply filter_In. split; [apply filter_In; tauto | exact F]. }
    apply in_map_iff in Ip. destruct Ip as [c [<- Ic]].
    exists c. tauto.
  - rewrite length_map in L. cbn [List.length] in L.
    pose proof (filter_length_le (far_from_home home_x home_y)
                  (filter is_pause temp)). lia.
Qed.


(* ------------------------------------------------------------------ *)
(** ** One line for each window; the notice about the threshold *)

(** How the threshold and the lines written move: not at all, or, with
    the log asked for and no threshold yet, to 60 minutes with the
    notice written last. *)
Definition notice_rel (save_log : bool) (th : option xnum)
  (w : list string) (th' : option xnum) (w' : list string) : Prop :=
  (th' = th /\ w' = w)
  \/ (save_log = true /\ th = None /\ th' = Some (of_Z 60)
      /\ w' = w ++ [threshold_notice]).

Lemma notice_rel_trans (sl : bool) (t1 t2 t3 : option xnum)
  (w1 w2 w3 : list string) :
  notice_rel sl t1 w1 t2 w2 -> notice_rel sl t2 w2 t3 w3 ->
  notice_rel sl t1 w1 t3 w3.
Proof.
  intros [[-> ->]|[S [N [T W]]]] [[-> ->]|[S' [N' [T' W']]]].
  - left. tauto.
  - right. tauto.
  - right. tauto.
  - congruence.
Qed.

Lemma list_add_at_length (l l' : list xnum) (j : Z) (v : xnum) :
  list_add_at l j v = Ok l' -> List.length l' = List.length l.
Proof.
  unfold list_add_at.
  destruct (norm_index (List.length l) j) as [k|e]; cbn [bind];
    [|discriminate].
  intros H. inversion H. apply update_nth_length.
Qed.

Section RowFacts.

Variable traj : list row.
Variable tz_str : string.
Variable opt : resolution.
Variable split_day_night : bool.
Variable start_stamp : Z.
Variable window : Z.
Variable no_windows : Z.
Variable home_x home_y : xnum.
Variable places_of_interest : option (list string).
Variable save_log : bool.
Variable ids : list (string * list Z).
Variable locations : list (Z * coords).
Variable tags : list (Z * tag_dict).

Local Abbreviation window_step_ st i :=
  (window_step traj tz_str opt split_day_night start_stamp window no_windows
               home_x home_y places_of_interest save_log ids locations tags
               st i).
Local Abbreviation window_loop_ st l :=
  (window_loop traj tz_str opt split_day_night start_stamp window no_windows
               home_x home_y places_of_interest save_log ids locations tags
               st l).

Lemma attribute_places_length (c : cluster) (ps : list string) (j : Z)
  (acc r : list xnum * bool) :
  attribute_places ids locations c ps j acc = Ok r ->
  List.length (fst r) = List.length (fst acc).
Proof.
  revert j acc.
  induction ps as [|place ps IH]; intros j acc; cbn [attribute_places].
  - intros H. inversion H. reflexivity.
  - destruct (dict_get ids place) as [els|].
    + destruct (match_elements locations c els) as [[|]|e]; cbn [bind];
        [| apply IH | discriminate].
      destruct (list_add_at (fst acc) j (xdiv (c_min c) (of_Z 60)))
        as [times|e] eqn:E; cbn [bind]; [|discriminate].
      intros H. apply IH in H. cbn [fst] in H.
      rewrite H. exact (list_add_at_length _ _ _ _ E).
    + cbn [bind]. apply IH.
Qed.

Lemma place_step_keeps (poi : option (list string))
  (st st' : place_state) (c : cluster) :
  place_step poi save_log ids locations tags st c = Ok st' ->
  List.length (all_place_times_temp st')
  = List.length (all_place_times_temp st)
  /\ notice_rel save_log (threshold st) (written st)
                (threshold st') (written st').
Proof.
  unfold place_step, place_times.
  match goal with
  | |- (x <- ?m ;; _) = _ -> _ => destruct m as [times|e] eqn:T
  end; cbn [bind]; [|discriminate].
  assert (L : List.length times = List.length (all_place_times_temp st)).
  { destruct poi as [places|].
    - destruct (attribute_places ids locations c places 0
                  (all_place_times_temp st, true)) as [r|e] eqn:A;
        cbn [bind] in T; [|discriminate].
      apply attribute_places_length in A. cbn [fst] in A.
      destruct (snd r).
      + apply list_add_at_length in T. congruence.
      + inversion T. congruence.
    - inversion T. reflexivity. }
  destruct save_log.
  - match goal with
    | |- (x <- ?m ;; _) = _ -> _ => destruct m as [log|e]
    end; cbn [bind]; [|discriminate].
    intros H. inversion H. cbn [all_place_times_temp threshold written].
    split; [exact L|].
    destruct (threshold st) as [t|]; [left; split; reflexivity|].
    right. repeat split; reflexivity.
  - intros H. inversion H. cbn [all_place_times_temp threshold written].
    split; [exact L | left; split; reflexivity].
Qed.

Lemma place_loop_keeps (poi : option (list string)) (cs : list cluster)
  (st st' : place_state) :
  place_loop poi save_log ids locations tags st cs = Ok st' ->
  List.length (all_place_times_temp st')
  = List.length (all_place_times_temp st)
  /\ notice_rel save_log (threshold st) (written st)
                (threshold st') (written st').
Proof.
  revert st. induction cs as [|c cs IH]; intros st; cbn [place_loop].
  - intros H. inversion H. split; [reflexivity | left; split; reflexivity].
  - destruct (place_step poi save_log ids locations tags st c)
      as [st1|e] eqn:E; cbn [bind]; [|discriminate].
    intros H. apply IH in H. apply place_step_keeps in E.
    destruct H as [L R], E as [L1 R1].
    split; [congruence | exact (notice_rel_trans _ _ _ _ _ _ _ R1 R)].
Qed.

Lemma places_part_keeps (temp : list row) (th : option xnum)
  (w : list string) (ps : place_state) :
  places_part home_x home_y places_of_interest save_log ids locations tags
              temp th w = Ok ps ->
  List.length (place_cells places_of_interest ps)
  = List.length (places_of_interest2 places_of_interest)
  /\ notice_rel save_log th w (threshold ps) (written ps).
Proof.
  unfold places_part, place_cells, places_of_interest2.
  destruct places_of_interest as [places|]; cbn [orb].
  - intros H. apply place_loop_keeps in H.
    cbn [all_place_times_temp threshold written] in H.
    destruct H as [L R]. split; [|exact R].
    rewrite L, repeat_length, length_app. reflexivity.
  - destruct save_log; [discriminate|].
    intros H. inversion H. split; [reflexivity | left; split; reflexivity].
Qed.

Lemma nan_places_length :
  List.length (nan_places places_of_interest)
  = List.length (places_of_interest2 places_of_interest).
Proof.
  unfold nan_places, places_of_interest2.
  destruct places_of_interest as [places|]; [|reflexivity].
  rewrite repeat_length, length_app. reflexivity.
Qed.

(** The width of the table: its fixed columns, then the places. *)
Definition width : nat :=
  List.length (base_columns opt ++ places_of_interest2 places_of_interest).

Lemma window_step_line (st st' : loop_state) (i : Z) :
  window_step_ st i = Ok st' ->
  (exists line, summary_stats st' = summary_stats st ++ [line]
                /\ List.length line = width)
  /\ notice_rel save_log (cur_threshold st) (stdout st)
                (cur_threshold st') (stdout st').
Proof.
  unfold window_step, width.
  match goal with
  | |- (x <- ?m ;; _) = _ -> _ => destruct m as [temp|e]
  end; cbn [bind]; [|discriminate].
  match goal with
  | |- (x <- ?m ;; _) = _ -> _ => destruct m as [mdh|e]
  end; cbn [bind]; [|discriminate].
  match goal with
  | |- (x <- ?m ;; _) = _ -> _ => destruct m as [ps|e] eqn:P
  end; cbn [bind]; [|discriminate].
  apply places_part_keeps in P. destruct P as [L R].
  pose proof nan_places_length as N.
  rewrite length_app.
  destruct opt; cbn [base_columns].
  - destruct (xeqb _ xzero); intros H; inversion H;
      cbn [summary_stats cur_threshold stdout];
      (split; [|exact R]); eexists; (split; [reflexivity|]).
    + unfold hourly_nan_row. rewrite !length_app, repeat_length, N.
      reflexivity.
    + unfold hourly_row. rewrite length_app, L. reflexivity.
  - match goal with
    | |- (x <- ?m ;; _) = _ -> _ => destruct m as [diam|e]
    end; cbn [bind]; [|discriminate].
    destruct (xeqb _ xzero); intros H; inversion H;
      cbn [summary_stats cur_threshold stdout];
      (split; [|exact R]); eexists; (split; [reflexivity|]).
    + unfold daily_nan_row. rewrite !length_app, repeat_length, N.
      reflexivity.
    + unfold daily_row. rewrite length_app, L. reflexivity.
Qed.

Lemma window_loop_lines (is_ : list Z) (st st' : loop_state) :
  window_loop_ st is_ = Ok st' ->
  (exists lines, summary_stats st' = summary_stats st ++ lines
                 /\ List.length lines = List.length is_
                 /\ forall line, In line lines -> List.length line = width)
  /\ notice_rel save_log (cur_threshold st) (stdout st)
                (cur_threshold st') (stdout st').
Proof.
  revert st. induction is_ as [|i is_ IH]; intros st; cbn [window_loop].
  - intros H. inversion H. split; [|left; split; reflexivity].
    exists []. rewrite app_nil_r. split; [reflexivity|].
    split; [reflexivity | intros line []].
  - destruct (window_step_ st i) as [st1|e] eqn:E; cbn [bind];
      [|discriminate].
    intros H. apply IH in H. apply window_step_line in E.
    destruct H as [[lines [S [Len W]]] R], E as [[line [S1 W1]] R1].
    split; [|exact (notice_rel_trans _ _ _ _ _ _ _ R1 R)].
    exists (line :: lines). rewrite S, S1, <- app_assoc.
    split; [reflexivity|]. split; [cbn [List.length]; congruence|].
    intros l [<-|I]; [exact W1 | exact (W l I)].
Qed.

End RowFacts.

Lemma py_range_length (n : Z) : List.length (py_range n) = Z.to_nat n.
Proof. unfold py_range. rewrite length_map, length_seq. reflexivity. Qed.

(** What a run of the core that returns has gone through. *)
Lemma summaries_core_returned (traj : list row) (tz_str : string)
  (opt : resolution) (places_of_interest : option (list string))
  (save_log : bool) (threshold : option xnum) (split_day_night : bool)
  (ids : list (string * list Z)) (locations : list (Z * coords))
  (tags : list (Z * tag_dict)) (s : summaries) :
  summaries_core traj tz_str opt places_of_interest save_log threshold
                 split_day_night ids locations tags = Ok s ->
  exists first last f th,
    aget traj 0 3 = Ok first /\ aget traj (-1) 3 = Ok last
    /\ columns f = base_columns opt ++ places_of_interest2 places_of_interest
    /\ List.length (data f)
       = Z.to_nat (no_windows_of opt (effective_split opt split_day_night)
                     (start_stamp_of opt tz_str first)
                     (end_stamp_of opt tz_str last))
    /\ (forall line, In line (data f) ->
                     List.length line = List.length (columns f))
    /\ (if effective_split opt split_day_night
        then reshape f = Ok (table s) else table s = f)
    /\ notice_rel save_log threshold [calculating opt] th (printed s).
Proof.
  unfold summaries_core.
  destruct (aget traj 0 3) as [first|e]; cbn [bind]; [|discriminate].
  destruct (aget traj (-1) 3) as [last|e]; cbn [bind]; [|discriminate].
  cbv zeta.
  set (nw := no_windows_of opt (effective_split opt split_day_night)
               (start_stamp_of opt tz_str first)
               (end_stamp_of opt tz_str last)).
  set (names := base_columns opt ++ places_of_interest2 places_of_interest).
  intros H.
  assert (G : exists f st th,
             (if 0 <? nw then
                st <- window_loop traj tz_str opt
                        (effective_split opt split_day_night)
                        (start_stamp_of opt tz_str first) (window_of opt) nw
                        (fst (locate_home (filter is_observed traj) tz_str))
                        (snd (locate_home (filter is_observed traj) tz_str))
                        places_of_interest save_log ids locations tags
                        (mkLoop [] [] threshold [calculating opt])
                        (py_range nw) ;;
                f <- make_frame names (summary_stats st) ;;
                Ok (f, st)
              else Ok (mkFrame names [],
                       mkLoop [] [] threshold [calculating opt]))
             = Ok (f, st)
             /\ columns f = names
             /\ List.length (data f) = Z.to_nat nw
             /\ (forall line, In line (data f) ->
                              List.length line = List.length (columns f))
             /\ notice_rel save_log threshold [calculating opt]
                           th (stdout st)).
  { destruct (0 <? nw) eqn:E.
    - match type of H with
      | (r <- (st <- ?m ;; _) ;; _) = _ => destruct m as [st|e] eqn:W
      end; cbn [bind] in H |- *; [|discriminate].
      apply window_loop_lines in W.
      cbn [summary_stats cur_threshold stdout app] in W.
      destruct W as [[lines [S [Len Wd]]] R].
      rewrite S in *. unfold make_frame in *.
      destruct (forallb _ lines); cbn [bind] in H |- *; [|discriminate].
      exists (mkFrame names lines), st, (cur_threshold st).
      cbn [columns data]. split; [reflexivity|]. split; [reflexivity|].
      split; [rewrite Len; apply py_range_length|].
      split; [exact Wd | exact R].
    - exists (mkFrame names []), (mkLoop [] [] threshold [calculating opt]),
        threshold.
      cbn [columns data stdout List.length].
      apply Z.ltb_ge in E.
      split; [reflexivity|]. split; [reflexivity|]. split; [lia|].
      split; [intros line [] | left; split; reflexivity]. }
  destruct G as [f [st [th [E [C [L [Wd R]]]]]]].
  rewrite E in H. cbn [bind fst snd] in H.
  exists first, last, f, th.
  split; [reflexivity|]. split; [reflexivity|].
  split; [exact C|]. split; [exact L|]. split; [exact Wd|].
  destruct (effective_split opt split_day_night).
  - destruct (reshape f) as [t2|e]; cbn [bind] in H; [|discriminate].
    inversion H. cbn [table printed]. split; [reflexivity | exact R].
  - cbn [bind] in H. inversion H. cbn [table printed].
    split; [reflexivity | exact R].
Qed.

(** The lines written to the standard output, in order. *)
Definition prints (evs : list event) : list string :=
  flat_map (fun e => match e with Stdout text => [text] | _ => [] end) evs.

Lemma prints_of_stdout (l : list string) : prints (map Stdout l) = l.
Proof.
  unfold prints. induction l as [|x l IH]; [reflexivity|].
  cbn [map flat_map app]. rewrite IH. reflexivity.
Qed.

Lemma prints_of_tries (query : string) (n : nat) :
  prints (failed_tries query n ++ [HttpGet overpass_url query]) = [].
Proof.
  unfold failed_tries. induction n as [|n IH]; [reflexivity|].
  cbn [repeat List.concat app]. exact IH.
Qed.

(** A run that returns has gone through the core, and has written what
    the core wrote and nothing else. *)
Lemma gps_summaries_returned (world : provider) (traj : list row)
  (tz_str : string) (opt : resolution)
  (places_of_interest : option (list string)) (save_log : bool)
  (threshold : option xnum) (split_day_night : bool)
  (t : frame) (l : list (string * log_entry)) :
  fst (gps_summaries world traj tz_str opt places_of_interest save_log
                     threshold split_day_night) = Returned t l ->
  exists ids locations tags s,
    summaries_core traj tz_str opt places_of_interest save_log threshold
                   split_day_night ids locations tags = Ok s
    /\ table s = t /\ logs s = l
    /\ prints (snd (gps_summaries world traj tz_str opt places_of_interest
                                  save_log threshold split_day_night))
       = printed s.
Proof.
  unfold gps_summaries.
  destruct (_ || save_log).
  - destruct (request_loop_tries world (query_of traj))
      as [[n [_ [_ [_ ->]]]] | [_ ->]]; [|discriminate].
    match goal with
    | |- context [finish _ _ ?r] => destruct r as [s|e] eqn:E
    end; cbn [finish fst snd]; [|discriminate].
    intros H. inversion H. do 4 eexists.
    split; [exact E|]. split; [reflexivity|]. split; [reflexivity|].
    unfold prints. rewrite flat_map_app.
    fold (prints (failed_tries (query_of traj) n
                  ++ [HttpGet overpass_url (query_of traj)])).
    fold (prints (map Stdout (printed s))).
    rewrite prints_of_tries, prints_of_stdout. reflexivity.
  - match goal with
    | |- context [finish _ _ ?r] => destruct r as [s|e] eqn:E
    end; cbn [finish fst snd]; [|discriminate].
    intros H. inversion H. do 4 eexists.
    split; [exact E|]. split; [reflexivity|]. split; [reflexivity|].
    cbn [app]. apply prints_of_stdout.
Qed.

(** Without the split into day and night, a run that returns gives a
    table with one line for each window, the number of windows being the
    whole number of windows between the two stamps; its columns are the
    fixed ones of the resolution followed by the places and [other];
    every line has one cell for each column. *)
Theorem one_row_per_window (world : provider) (traj : list row)
  (tz_str : string) (opt : resolution)
  (places_of_interest : option (list string)) (save_log : bool)
  (threshold : option xnum) (split_day_night : bool)
  (t : frame) (l : list (string * log_entry)) :
  effective_split opt split_day_night = false ->
  fst (gps_summaries world traj tz_str opt places_of_interest save_log
                     threshold split_day_night) = Returned t l ->
  columns t = base_columns opt ++ places_of_interest2 places_of_interest
  /\ (forall line, In line (data t) ->
                   List.length line = List.length (columns t))
  /\ exists first last,
       aget traj 0 3 = Ok first /\ aget traj (-1) 3 = Ok last
       /\ Z.of_nat (List.length (data t))
          = Z.max 0 ((end_stamp_of opt tz_str last
                      - start_stamp_of opt tz_str first) / window_of opt).
Proof.
  intros Hs H.
  destruct (gps_summaries_returned _ _ _ _ _ _ _ _ _ _ H)
    as [ids [locations [tags [s [C [<- [_ _]]]]]]].
  destruct (summaries_core_returned _ _ _ _ _ _ _ _ _ _ _ C)
    as [first [last [f [th [A0 [A1 [Cf [L [W [T _]]]]]]]]]].
  rewrite Hs in T, L. rewrite T.
  split; [exact Cf|]. split; [exact W|].
  exists first, last. split; [exact A0|]. split; [exact A1|].
  rewrite L.
  assert (E : no_windows_of opt false (start_stamp_of opt tz_str first)
                (end_stamp_of opt tz_str last)
              = (end_stamp_of opt tz_str last
                 - start_stamp_of opt tz_str first) / window_of opt)
    by (destruct opt; reflexivity).
  rewrite E. lia.
Qed.

(** A run that returns has written the line that names the resolution
    and at most one line more, the notice about the threshold; the
    notice is written only when the log is asked for and no threshold is
    given, and then once, however many windows and pauses there are. *)
Theorem notice_written_once (world : provider) (traj : list row)
  (tz_str : string) (opt : resolution)
  (places_of_interest : option (list string)) (save_log : bool)
  (threshold : option xnum) (split_day_night : bool)
  (t : frame) (l : list (string * log_entry)) :
  fst (gps_summaries world traj tz_str opt places_of_interest save_log
                     threshold split_day_night) = Returned t l ->
  let written := prints (snd (gps_summaries world traj tz_str opt
                                places_of_interest save_log threshold
                                split_day_night)) in
  written = [calculating opt]
  \/ (save_log = true /\ threshold = None
      /\ written = [calculating opt; threshold_notice]).
Proof.
  intros H. cbv zeta.
  destruct (gps_summaries_returned _ _ _ _ _ _ _ _ _ _ H)
    as [ids [locations [tags [s [C [_ [_ ->]]]]]]].
  destruct (summaries_core_returned _ _ _ _ _ _ _ _ _ _ _ C)
    as [first [last [f [th [_ [_ [_ [_ [_ [_ R]]]]]]]]]].
  destruct R as [[_ ->]|[S [N [_ ->]]]]; [left; reflexivity|].
  right. split; [exact S|]. split; [exact N | reflexivity].
Qed.


(* ------------------------------------------------------------------ *)
(** ** One line for each day of a split run *)

Lemma lines_in_pairs (m : nat) (lines : list (list xnum)) :
  List.length lines = (2 * m)%nat ->
  exists pairs, lines = lines_of_pairs pairs /\ List.length pairs = m.
Proof.
  revert lines. induction m as [|m IH]; intros lines H.
  - destruct lines; [|discriminate]. exists []. split; reflexivity.
  - destruct lines as [|a [|b rest]]; cbn [List.length] in H; try lia.
    destruct (IH rest) as [pairs [-> L]]; [lia|].
    exists ((a, b) :: pairs). split; [reflexivity|].
    cbn [List.length]. rewrite L. reflexivity.
Qed.

Lemma merge_pair_length (extra : list string) (d n : list xnum) :
  List.length d = (21 + List.length extra)%nat ->
  List.length n = (21 + List.length extra)%nat ->
  List.length (merge_pair d n) = List.length (merged_columns extra).
Proof.
  intros Hd Hn. unfold merge_pair, merged_columns.
  rewrite !length_app. cbn [List.length].
  rewrite !length_map, !length_app, length_firstn, !length_skipn.
  change (List.length date_columns) with 3%nat.
  change (List.length kept_columns) with 16%nat.
  lia.
Qed.

(** With the split into day and night, and places whose labels are not
    those of the observed durations, a daily run that returns gives one
    line for each calendar day between the two stamps: the reshape goes
    through, the columns are the merged ones, and every line has one
    cell for each column. *)
Theorem one_row_per_day (world : provider) (traj : list row)
  (tz_str : string) (places_of_interest : option (list string))
  (save_log : bool) (threshold : option xnum)
  (t : frame) (l : list (string * log_entry)) :
  free_of_reserved (places_of_interest2 places_of_interest) ->
  fst (gps_summaries world traj tz_str Daily places_of_interest save_log
                     threshold true) = Returned t l ->
  columns t = merged_columns (places_of_interest2 places_of_interest)
  /\ (forall line, In line (data t) ->
                   List.length line = List.length (columns t))
  /\ exists first last,
       aget traj 0 3 = Ok first /\ aget traj (-1) 3 = Ok last
       /\ Z.of_nat (List.length (data t))
          = Z.max 0 ((end_stamp_of Daily tz_str last
                      - start_stamp_of Daily tz_str first) / 86400).
Proof.
  intros Hfree H.
  destruct (gps_summaries_returned _ _ _ _ _ _ _ _ _ _ H)
    as [ids [locations [tags [s [C [<- [_ _]]]]]]].
  destruct (summaries_core_returned _ _ _ _ _ _ _ _ _ _ _ C)
    as [first [last [f [th [A0 [A1 [Cf [L [W [T _]]]]]]]]]].
  cbn [effective_split] in T, L.
  set (extra := places_of_interest2 places_of_interest) in *.
  set (n := (end_stamp_of Daily tz_str last
             - start_stamp_of Daily tz_str first) / 86400).
  assert (L2 : List.length (data f) = (2 * Z.to_nat n)%nat).
  { rewrite L. unfold no_windows_of. cbn [window_of].
    change (60 * 60 * 24) with 86400. fold n. lia. }
  destruct f as [cols lines]. cbn [columns data base_columns] in *.
  subst cols.
  destruct (lines_in_pairs _ _ L2) as [pairs [-> Lp]].
  assert (Wp : forall p, In p pairs ->
             List.length (fst p) = (21 + List.length extra)%nat
             /\ List.length (snd p) = (21 + List.length extra)%nat).
  { intros p I.
    assert (G : forall line, In line [fst p; snd p] ->
                  List.length line = (21 + List.length extra)%nat).
    { intros line J. rewrite (W line).
      - rewrite length_app. reflexivity.
      - unfold lines_of_pairs. apply in_flat_map. exists p.
        split; assumption. }
    split; apply G; [left | right; left]; reflexivity. }
  rewrite reshape_wide in T.
  - rewrite evens_pairs, odds_pairs, concat_lines_pairs, map_map in T.
    injection T as <-. cbn [columns data].
    split; [reflexivity|]. split.
    + intros line I. apply in_map_iff in I. destruct I as [p [<- I]].
      destruct (Wp p I) as [A B].
      change (List.length (shape (List.length extra)
                             (fst p ++ skipn 3 (snd p)))
              = List.length (merged_columns extra)).
      rewrite (shape_pair (List.length extra) (fst p) (snd p) A B).
      apply merge_pair_length; assumption.
    + exists first, last. split; [exact A0|]. split; [exact A1|].
      rewrite length_map, Lp. fold n. lia.
  - exact Hfree.
  - rewrite evens_pairs, odds_pairs, concat_lines_pairs.
    intros line I. apply in_map_iff in I. destruct I as [p [<- I]].
    destruct (Wp p I) as [A B].
    rewrite length_app, length_skipn, A, B.
    unfold wide_columns. rewrite !length_app, !length_map, !length_app.
    change (List.length date_columns) with 3%nat.
    change (List.length tail_columns) with 18%nat.
    lia.
Qed.


(* ------------------------------------------------------------------ *)
(** ** The cut of a window of several lines *)

Lemma aget_of_first (r : row) (rest : list row) (j : nat) :
  aget (r :: rest) 0 j = Ok (getc r j).
Proof. reflexivity. Qed.

Lemma aset_of_first (r : row) (rest : list row) (j : nat) (v : xnum) :
  aset (r :: rest) 0 j v = Ok (setc r j v :: rest).
Proof. reflexivity. Qed.

Lemma norm_index_last (n : nat) : norm_index (S n) (-1) = Ok n.
Proof.
  unfold norm_index. cbn [Z.ltb Z.compare].
  replace (-1 + Z.of_nat (S n)) with (Z.of_nat n) by lia.
  replace ((0 <=? Z.of_nat n) && (Z.of_nat n <? Z.of_nat (S n))) with true
    by (symmetry; apply andb_true_iff; split;
        [apply Z.leb_le | apply Z.ltb_lt]; lia).
  rewrite Nat2Z.id. reflexivity.
Qed.

Lemma aget_of_last (first last : row) (mid : list row) (j : nat) :
  aget (first :: mid ++ [last]) (-1) j = Ok (getc last j).
Proof.
  unfold aget. cbn [List.length]. rewrite norm_index_last. cbn [bind].
  rewrite length_app. cbn [List.length].
  replace (List.length mid + 1)%nat with (S (List.length mid)) by lia.
  cbn [nth_error]. rewrite nth_error_app2 by lia.
  rewrite Nat.sub_diag. reflexivity.
Qed.

Lemma aset_of_last (first last : row) (mid : list row) (j : nat) (v : xnum) :
  aset (first :: mid ++ [last]) (-1) j v
  = Ok (first :: mid ++ [setc last j v]).
Proof.
  unfold aset. cbn [List.length]. rewrite norm_index_last. cbn [bind].
  rewrite length_app. cbn [List.length].
  replace (List.length mid + 1)%nat with (S (List.length mid)) by lia.
  cbn [update_nth]. do 2 f_equal.
  induction mid as [|x mid IH]; [reflexivity|].
  cbn [app List.length update_nth]. rewrite IH. reflexivity.
Qed.

(** The first line of several after the cut: its start is put on the
    bound [t0_temp], whether it lay before it or after it. *)
Definition first_cut (t0_temp : Z) (r : row) : row :=
  let p0 := ((r_t1 r - of_Z t0_temp) / (r_t1 r - r_t0 r))%X in
  mkRow (r_s r)
        ((xone - p0) * r_x1 r + p0 * r_x0 r)%X
        ((xone - p0) * r_y1 r + p0 * r_y0 r)%X
        (of_Z t0_temp)
        (r_x1 r) (r_y1 r) (r_t1 r) (r_obs r).

(** The last line of several after the cut: its end is put on the bound
    [t1_temp]. *)
Definition last_cut (t1_temp : Z) (r : row) : row :=
  let p1 := ((of_Z t1_temp - r_t0 r) / (r_t1 r - r_t0 r))%X in
  mkRow (r_s r) (r_x0 r) (r_y0 r) (r_t0 r)
        ((xone - p1) * r_x0 r + p1 * r_x1 r)%X
        ((xone - p1) * r_y0 r + p1 * r_y1 r)%X
        (of_Z t1_temp)
        (r_obs r).

Lemma clip_ends_outer (t0_temp t1_temp : Z) (first last : row)
  (mid : list row) :
  clip_ends 0 (-1) t0_temp t1_temp (first :: mid ++ [last])
  = Ok (first_cut t0_temp first :: mid ++ [last_cut t1_temp last]).
Proof.
  unfold clip_ends.
  repeat (rewrite ?aget_of_first, ?aget_of_last, ?aset_of_first, ?aset_of_last;
          cbn [bind]).
  destruct first, last. reflexivity.
Qed.

(** In an interior window that takes two lines or more, and is not a
    night half, the cut touches the first and the last line only: the
    start of the first is put on the lower bound and its starting point
    on the blend of its two points, the end of the last is put on the
    upper bound and its end point on the blend; the end of the first
    line, the start of the last and every line between them are left as
    they are. *)
Theorem clip_cuts_the_two_ends (traj : list row) (tz_str : string)
  (split_day_night : bool) (start_stamp window no_windows i : Z)
  (first last : row) (mid : list row) :
  interior split_day_night no_windows i = true ->
  split_day_night && negb (is_day i) = false ->
  selected traj tz_str split_day_night start_stamp window i
  = first :: mid ++ [last] ->
  clip traj tz_str split_day_night start_stamp window no_windows i
  = Ok (first_cut (t0_temp_of tz_str split_day_night start_stamp window i)
                  first
        :: mid
        ++ [last_cut (t1_temp_of tz_str split_day_night start_stamp window i)
                     last]).
Proof.
  intros Hint Hnight Hsel. unfold clip.
  rewrite Hint, count_selected, Hsel, Hnight.
  assert (E : (Z.of_nat (List.length (first :: mid ++ [last])) =? 1) = false).
  { apply Z.eqb_neq. cbn [List.length]. rewrite length_app.
    cbn [List.length]. lia. }
  rewrite E. apply clip_ends_outer.
Qed.


(* ------------------------------------------------------------------ *)
(** ** Where the minutes of a cluster go *)

(** The times after [v] is added to the cells that are flagged. *)
Definition credit (v : xnum) (times : list xnum) (flags : list bool)
  : list xnum :=
  map (fun p => if snd p : bool then xadd (fst p) v else fst p)
      (combine times flags).

Lemma credit_app (v : xnum) (t1 t2 : list xnum) (f1 f2 : list bool) :
  List.length t1 = List.length f1 ->
  credit v (t1 ++ t2) (f1 ++ f2) = credit v t1 f1 ++ credit v t2 f2.
Proof.
  unfold credit. revert f1.
  induction t1 as [|x t1 IH]; intros [|b f1] H; try discriminate;
    [reflexivity|].
  cbn [app combine map]. rewrite IH by (cbn in H; lia). reflexivity.
Qed.

Lemma update_nth_middle {A} (pre post : list A) (x : A) (f : A -> A) :
  update_nth (pre ++ x :: post) (List.length pre) f = pre ++ f x :: post.
Proof.
  induction pre as [|y pre IH]; [reflexivity|].
  cbn [app List.length update_nth]. rewrite IH. reflexivity.
Qed.

Lemma list_add_at_middle (pre post : list xnum) (x v : xnum) :
  list_add_at (pre ++ x :: post) (Z.of_nat (List.length pre)) v
  = Ok (pre ++ xadd x v :: post).
Proof.
  unfold list_add_at, norm_index.
  replace (Z.of_nat (List.length pre) <? 0) with false
    by (symmetry; apply Z.ltb_ge; lia).
  replace ((0 <=? Z.of_nat (List.length pre))
           && (Z.of_nat (List.length pre)
               <? Z.of_nat (List.length (pre ++ x :: post))))
    with true
    by (symmetry; apply andb_true_iff; split;
        [apply Z.leb_le; lia
        | apply Z.ltb_lt; rewrite length_app; cbn [List.length]; lia]).
  cbn [bind]. rewrite Nat2Z.id, update_nth_middle. reflexivity.
Qed.

Lemma list_add_at_last (pre : list xnum) (x v : xnum) :
  list_add_at (pre ++ [x]) (-1) v = Ok (pre ++ [xadd x v]).
Proof.
  unfold list_add_at. rewrite length_app. cbn [List.length].
  replace (List.length pre + 1)%nat with (S (List.length pre)) by lia.
  rewrite norm_index_last. cbn [bind].
  rewrite update_nth_middle. reflexivity.
Qed.

Section Attribution.

Variable ids : list (string * list Z).
Variable locations : list (Z * coords).

(** The geometry of the element [id] matches the cluster. *)
Definition element_matches (c : cluster) (id : Z) : bool :=
  match idict_get locations id with
  | Some values => geometry_matches c values
  | None => false
  end.

(** Some element filed under [place] matches the cluster. *)
Definition found (c : cluster) (place : string) : bool :=
  match dict_get ids place with
  | Some els => existsb (element_matches c) els
  | None => false
  end.

Lemma match_elements_exists (c : cluster) (els : list Z) (b : bool) :
  match_elements locations c els = Ok b ->
  b = existsb (element_matches c) els.
Proof.
  induction els as [|id els IH]; cbn [match_elements existsb].
  - intros H. inversion H. reflexivity.
  - unfold element_matches at 1.
    destruct (idict_get locations id) as [values|]; [|discriminate].
    destruct (geometry_matches c values); [|exact IH].
    intros H. inversion H. reflexivity.
Qed.

Lemma attribute_places_closed (c : cluster) (ps : list string) :
  forall (pre cur post : list xnum) (flag : bool) (r : list xnum * bool),
    List.length cur = List.length ps ->
    attribute_places ids locations c ps (Z.of_nat (List.length pre))
                     (pre ++ cur ++ post, flag) = Ok r ->
    r = (pre ++ credit (xdiv (c_min c) (of_Z 60)) cur (map (found c) ps)
             ++ post,
         flag && negb (existsb (found c) ps)).
Proof.
  induction ps as [|place ps IH]; intros pre cur post flag r L;
    cbn [attribute_places].
  - destruct cur; [|discriminate]. intros H. inversion H.
    cbn [map existsb negb credit combine app]. rewrite andb_true_r.
    reflexivity.
  - destruct cur as [|x cur]; [discriminate|]. cbn [List.length] in L.
    assert (Next : forall y fl,
               attribute_places ids locations c ps
                 (Z.of_nat (List.length pre) + 1)
                 (pre ++ (y :: cur) ++ post, fl) = Ok r ->
               r = (pre ++ (y :: credit (xdiv (c_min c) (of_Z 60)) cur
                                   (map (found c) ps)) ++ post,
                    fl && negb (existsb (found c) ps))).
    { intros y fl H.
      replace (Z.of_nat (List.length pre) + 1)
        with (Z.of_nat (List.length (pre ++ [y]))) in H
        by (rewrite length_app; cbn [List.length]; lia).
      replace (pre ++ (y :: cur) ++ post)
        with ((pre ++ [y]) ++ cur ++ post) in H
        by (rewrite <- app_assoc; reflexivity).
      apply IH in H; [|lia]. rewrite H, <- app_assoc. reflexivity. }
    cbn [map existsb]. unfold found at 1 3.
    destruct (dict_get ids place) as [els|].
    + destruct (match_elements locations c els) as [m|e] eqn:M;
        cbn [bind]; [|discriminate].
      apply match_elements_exists in M. rewrite <- M.
      destruct m; cbn [fst].
      * change (pre ++ (x :: cur) ++ post)
          with (pre ++ x :: cur ++ post).
        rewrite list_add_at_middle. cbn [bind].
        intros H. apply (Next (xadd x (xdiv (c_min c) (of_Z 60))) false) in H.
        rewrite H. cbn [orb negb credit combine map fst snd app].
        rewrite andb_false_r. reflexivity.
      * intros H. apply (Next x flag) in H.
        rewrite H. cbn [orb credit combine map fst snd app]. reflexivity.
    + cbn [bind]. intros H. apply (Next x flag) in H.
      rewrite H. cbn [orb credit combine map fst snd app]. reflexivity.
Qed.

End Attribution.

(** Where the minutes of one cluster go, when the step raises nothing:
    [row[2] / 60] is added to the cell of every place of interest under
    which some element matches the cluster, to each of them when there
    are several, and to the cell [other] exactly when no place of
    interest has such an element; no other cell changes. *)
Theorem pause_time_goes_to_places (places : list string) (save_log : bool)
  (ids : list (string * list Z)) (locations : list (Z * coords))
  (tags : list (Z * tag_dict)) (st st' : place_state) (c : cluster) :
  List.length (all_place_times_temp st) = S (List.length places) ->
  place_step (Some places) save_log ids locations tags st c = Ok st' ->
  all_place_times_temp st'
  = credit (xdiv (c_min c) (of_Z 60)) (all_place_times_temp st)
           (map (found ids locations c) places
            ++ [negb (existsb (found ids locations c) places)]).
Proof.
  intros L.
  destruct (exists_last (l := all_place_times_temp st)) as [cur [o E]].
  { intros N. rewrite N in L. discriminate. }
  rewrite E in *. rewrite length_app in L. cbn [List.length] in L.
  assert (Lc : List.length cur = List.length places) by lia.
  rewrite credit_app by (rewrite length_map; exact Lc).
  unfold place_step, place_times. rewrite E.
  destruct (attribute_places ids locations c places 0 (cur ++ [o], true))
    as [r|e] eqn:A; cbn [bind]; [|discriminate].
  apply (attribute_places_closed ids locations c places [] cur [o] true r Lc)
    in A.
  subst r. cbn [app fst snd andb].
  set (times := credit _ cur _).
  destruct (negb (existsb (found ids locations c) places)).
  - rewrite list_add_at_last. cbn [bind].
    destruct save_log.
    + match goal with
      | |- (x <- ?m ;; _) = _ -> _ => destruct m as [log|e]
      end; cbn [bind]; [|discriminate].
      intros H. inversion H. reflexivity.
    + intros H. inversion H. reflexivity.
  - cbn [bind]. destruct save_log.
    + match goal with
      | |- (x <- ?m ;; _) = _ -> _ => destruct m as [log|e]
      end; cbn [bind]; [|discriminate].
      intros H. inversion H. reflexivity.
    + intros H. inversion H. reflexivity.
Qed.


(* ------------------------------------------------------------------ *)
(** ** A gap in the trajectory *)

Lemma py_range_in (n i : Z) : 0 <= i < n -> In i (py_range n).
Proof.
  intros H. unfold py_range. apply in_map_iff.
  exists (Z.to_nat i). split; [lia|]. apply in_seq. lia.
Qed.

Section GapFacts.

Variable traj : list row.
Variable tz_str : string.
Variable opt : resolution.
Variable split_day_night : bool.
Variable start_stamp : Z.
Variable window : Z.
Variable no_windows : Z.
Variable home_x home_y : xnum.
Variable places_of_interest : option (list string).
Variable save_log : bool.
Variable ids : list (string * list Z).
Variable locations : list (Z * coords).
Variable tags : list (Z * tag_dict).

Local Abbreviation window_step_ st i :=
  (window_step traj tz_str opt split_day_night start_stamp window no_windows
               home_x home_y places_of_interest save_log ids locations tags
               st i).
Local Abbreviation window_loop_ st l :=
  (window_loop traj tz_str opt split_day_night start_stamp window no_windows
               home_x home_y places_of_interest save_log ids locations tags
               st l).

Lemma window_step_of_nothing (st : loop_state) (i : Z) :
  selected traj tz_str split_day_night start_stamp window i = [] ->
  exists e, window_step_ st i = Raise e.
Proof.
  intros Hsel. unfold window_step, clip.
  rewrite count_selected, Hsel.
  destruct (interior split_day_night no_windows i).
  - cbn [List.length Z.of_nat Z.eqb].
    destruct (split_day_night && negb (is_day i)); eexists; reflexivity.
  - eexists. reflexivity.
Qed.

(** The loop stops at the first window that raises: no later window is
    computed and nothing is kept of the earlier ones. *)
Lemma window_loop_stops (is_ : list Z) (i : Z) :
  In i is_ ->
  (forall st, exists e, window_step_ st i = Raise e) ->
  forall st, exists e, window_loop_ st is_ = Raise e.
Proof.
  intros I R. induction is_ as [|a is_ IH]; [destruct I|].
  intros st. cbn [window_loop].
  destruct (window_step_ st a) as [st'|e] eqn:E; cbn [bind];
    [|eexists; reflexivity].
  destruct I as [->|I]; [|apply IH; exact I].
  destruct (R st) as [e' E']. congruence.
Qed.

End GapFacts.

(** A trajectory with a gap that covers a whole window cannot be
    summarised: when some window between the two stamps is overlapped by
    no line, the call returns no table at all, not even the lines of the
    windows before the gap. *)
Theorem gap_in_trajectory_raises (world : provider) (traj : list row)
  (tz_str : string) (opt : resolution)
  (places_of_interest : option (list string)) (save_log : bool)
  (threshold : option xnum) (split_day_night : bool)
  (first last : xnum) (i : Z)
  (t : frame) (l : list (string * log_entry)) :
  aget traj 0 3 = Ok first ->
  aget traj (-1) 3 = Ok last ->
  0 <= i < no_windows_of opt (effective_split opt split_day_night)
                         (start_stamp_of opt tz_str first)
                         (end_stamp_of opt tz_str last) ->
  selected traj tz_str (effective_split opt split_day_night)
           (start_stamp_of opt tz_str first) (window_of opt) i = [] ->
  fst (gps_summaries world traj tz_str opt places_of_interest save_log
                     threshold split_day_night) <> Returned t l.
Proof.
  intros A0 A1 Hi Hsel H.
  destruct (gps_summaries_returned _ _ _ _ _ _ _ _ _ _ H)
    as [ids [locations [tags [s [C _]]]]].
  unfold summaries_core in C. rewrite A0, A1 in C. cbn [bind] in C.
  cbv zeta in C.
  replace (0 <? no_windows_of opt (effective_split opt split_day_night)
                  (start_stamp_of opt tz_str first)
                  (end_stamp_of opt tz_str last)) with true in C
    by (symmetry; apply Z.ltb_lt; lia).
  match type of C with
  | (r <- (st <- ?m ;; _) ;; _) = _ =>
      assert (R : exists e, m = Raise e)
  end.
  { apply (window_loop_stops _ _ _ _ _ _ _ _ _ _ _ _ _ _ _ i).
    - apply py_range_in. exact Hi.
    - intros st. apply window_step_of_nothing. exact Hsel. }
  destruct R as [e R]. rewrite R in C. discriminate.
Qed.


(* ------------------------------------------------------------------ *)
(** ** What [gps_summaries] does to the outside *)

Definition is_sleep (e : event) : bool :=
  match e with Sleep _ => true | _ => false end.

(** [w'] is [w] with lines written after it. *)
Definition extends (w w' : list string) : Prop := exists rest, w' = w ++ rest.

Lemma extends_refl (w : list string) : extends w w.
Proof. exists []. rewrite app_nil_r. reflexivity. Qed.

Lemma extends_trans (a b c : list string) :
  extends a b -> extends b c -> extends a c.
Proof.
  intros [r1 ->] [r2 ->]. exists (r1 ++ r2). rewrite app_assoc. reflexivity.
Qed.

Lemma notice_rel_extends (sl : bool) (th th' : option xnum)
  (w w' : list string) :
  notice_rel sl th w th' w' -> extends w w'.
Proof.
  intros [[_ ->]|[_ [_ [_ ->]]]]; [apply extends_refl|].
  eexists. reflexivity.
Qed.

Section WrittenFacts.

Variable traj : list row.
Variable tz_str : string.
Variable opt : resolution.
Variable split_day_night : bool.
Variable start_stamp : Z.
Variable window : Z.
Variable no_windows : Z.
Variable home_x home_y : xnum.
Variable places_of_interest : option (list string).
Variable save_log : bool.
Variable ids : list (string * list Z).
Variable locations : list (Z * coords).
Variable tags : list (Z * tag_dict).

Local Abbreviation place_step_ poi st c :=
  (place_step poi save_log ids locations tags st c).
Local Abbreviation place_step_written_ poi st c :=
  (place_step_written poi save_log ids locations st c).
Local Abbreviation place_loop_written_ poi st cs :=
  (place_loop_written poi save_log ids locations tags st cs).
Local Abbreviation window_step_ st i :=
  (window_step traj tz_str opt split_day_night start_stamp window no_windows
               home_x home_y places_of_interest save_log ids locations tags
               st i).
Local Abbreviation window_step_written_ st i :=
  (window_step_written traj tz_str split_day_night start_stamp window
               no_windows home_x home_y places_of_interest save_log ids
               locations tags st i).
Local Abbreviation window_loop_ st l :=
  (window_loop traj tz_str opt split_day_night start_stamp window no_windows
               home_x home_y places_of_interest save_log ids locations tags
               st l).
Local Abbreviation window_loop_written_ st l :=
  (window_loop_written traj tz_str opt split_day_night start_stamp window
               no_windows home_x home_y places_of_interest save_log ids
               locations tags st l).

Lemma place_step_written_extends (poi : option (list string))
  (st : place_state) (c : cluster) :
  extends (written st) (place_step_written_ poi st c).
Proof.
  unfold place_step_written.
  destruct (place_times _ _ _ _ _); [|apply extends_refl].
  destruct save_log; [|apply extends_refl].
  destruct (threshold st); [apply extends_refl | eexists; reflexivity].
Qed.

Lemma place_loop_written_extends (poi : option (list string))
  (cs : list cluster) (st : place_state) :
  extends (written st) (place_loop_written_ poi st cs)
  /\ forall st', place_loop poi save_log ids locations tags st cs = Ok st' ->
                 place_loop_written_ poi st cs = written st'.
Proof.
  revert st. induction cs as [|c cs IH]; intros st;
    cbn [place_loop_written place_loop].
  - split; [apply extends_refl|]. intros st' H. inversion H. reflexivity.
  - destruct (place_step_ poi st c) as [st1|e] eqn:E; cbn [bind].
    + destruct (IH st1) as [X R]. split; [|exact R].
      apply place_step_keeps in E. destruct E as [_ N].
      exact (extends_trans _ _ _ (notice_rel_extends _ _ _ _ _ N) X).
    + split; [apply place_step_written_extends | discriminate].
Qed.

Lemma places_part_written_extends (temp : list row) (th : option xnum)
  (w : list string) :
  extends w (places_part_written home_x home_y places_of_interest save_log
                                 ids locations tags temp th w)
  /\ forall ps, places_part home_x home_y places_of_interest save_log ids
                            locations tags temp th w = Ok ps ->
                places_part_written home_x home_y places_of_interest
                                    save_log ids locations tags temp th w
                = written ps.
Proof.
  unfold places_part_written, places_part.
  destruct (_ || save_log).
  - destruct places_of_interest as [places|].
    + apply place_loop_written_extends.
    + split; [apply extends_refl | discriminate].
  - split; [apply extends_refl|]. intros ps H. inversion H. reflexivity.
Qed.

Lemma window_step_written_extends (st : loop_state) (i : Z) :
  extends (stdout st) (window_step_written_ st i)
  /\ forall st', window_step_ st i = Ok st' ->
                 window_step_written_ st i = stdout st'.
Proof.
  unfold window_step_written, window_step.
  destruct (clip _ _ _ _ _ _ i) as [temp|e]; cbn [bind];
    [|split; [apply extends_refl | discriminate]].
  destruct (max_dist_home home_x home_y temp) as [mdh|e]; cbn [bind];
    [|split; [apply extends_refl | discriminate]].
  destruct (places_part_written_extends temp (cur_threshold st) (stdout st))
    as [X R].
  split; [exact X|].
  destruct (places_part _ _ _ _ _ _ _ _ _ _) as [ps|e]; cbn [bind];
    [|discriminate].
  rewrite (R ps eq_refl).
  destruct opt.
  - destruct (xeqb _ xzero); intros st' H; inversion H; reflexivity.
  - destruct (diameter temp) as [diam|e]; cbn [bind]; [|discriminate].
    destruct (xeqb _ xzero); intros st' H; inversion H; reflexivity.
Qed.

Lemma window_loop_written_extends (is_ : list Z) (st : loop_state) :
  extends (stdout st) (window_loop_written_ st is_)
  /\ forall st', window_loop_ st is_ = Ok st' ->
                 window_loop_written_ st is_ = stdout st'.
Proof.
  revert st. induction is_ as [|i is_ IH]; intros st;
    cbn [window_loop_written window_loop].
  - split; [apply extends_refl|]. intros st' H. inversion H. reflexivity.
  - destruct (window_step_written_extends st i) as [X R].
    destruct (window_step_ st i) as [st1|e]; cbn [bind].
    + destruct (IH st1) as [X1 R1]. split; [|exact R1].
      rewrite (R st1 eq_refl) in X. exact (extends_trans _ _ _ X X1).
    + split; [exact X | discriminate].
Qed.

End WrittenFacts.

(** The line that names the resolution is written first, whether the
    call goes on to return or to raise; when it returns, what has been
    written is what the result records. *)
Lemma core_written_first (traj : list row) (tz_str : string)
  (opt : resolution) (places_of_interest : option (list string))
  (save_log : bool) (threshold : option xnum) (split_day_night : bool)
  (ids : list (string * list Z)) (locations : list (Z * coords))
  (tags : list (Z * tag_dict)) :
  extends [calculating opt]
          (core_written traj tz_str opt places_of_interest save_log
                        threshold split_day_night ids locations tags)
  /\ forall s, summaries_core traj tz_str opt places_of_interest save_log
                              threshold split_day_night ids locations tags
               = Ok s ->
               core_written traj tz_str opt places_of_interest save_log
                            threshold split_day_night ids locations tags
               = printed s.
Proof.
  unfold core_written, summaries_core.
  destruct (aget traj 0 3) as [first|e]; cbn [bind];
    [|split; [apply extends_refl | discriminate]].
  destruct (aget traj (-1) 3) as [last|e]; cbn [bind];
    [|split; [apply extends_refl | discriminate]].
  cbv zeta.
  destruct (0 <? no_windows_of _ _ _ _).
  - match goal with
    | |- context [window_loop_written ?a ?b ?c ?d ?e ?f ?g ?h ?i ?j ?k ?l
                                      ?m ?n ?st ?is_] =>
        destruct (window_loop_written_extends a b c d e f g h i j k l m n
                    is_ st) as [X R]
    end.
    split; [exact X|].
    destruct (window_loop _ _ _ _ _ _ _ _ _ _ _ _ _ _ _ _) as [st|e];
      cbn [bind]; [|discriminate].
    rewrite (R st eq_refl).
    destruct (make_frame _ _) as [f|e]; cbn [bind fst snd]; [|discriminate].
    destruct (effective_split opt split_day_night).
    + destruct (reshape f); cbn [bind]; [|discriminate].
      intros s H. inversion H. reflexivity.
    + cbn [bind]. intros s H. inversion H. reflexivity.
  - split; [apply extends_refl|]. cbn [bind fst snd stdout].
    destruct (effective_split opt split_day_night).
    + destruct (reshape _); cbn [bind]; [|discriminate].
      intros s H. inversion H. reflexivity.
    + cbn [bind]. intros s H. inversion H. reflexivity.
Qed.

(** The trace of the end of a call: the events before it, then lines
    written to the standard output, the first of them the line that
    names the resolution. *)
Lemma finish_core_trace (before : list event) (traj : list row)
  (tz_str : string) (opt : resolution)
  (places_of_interest : option (list string)) (save_log : bool)
  (threshold : option xnum) (split_day_night : bool)
  (ids : list (string * list Z)) (locations : list (Z * coords))
  (tags : list (Z * tag_dict)) :
  exists rest,
    snd (finish before
           (core_written traj tz_str opt places_of_interest save_log
                         threshold split_day_night ids locations tags)
           (summaries_core traj tz_str opt places_of_interest save_log
                           threshold split_day_night ids locations tags))
    = before ++ map Stdout (calculating opt :: rest).
Proof.
  destruct (core_written_first traj tz_str opt places_of_interest save_log
              threshold split_day_night ids locations tags) as [[rest E] R].
  exists rest.
  destruct (summaries_core _ _ _ _ _ _ _ _ _ _) as [s|e]; cbn [finish snd].
  - rewrite <- (R s eq_refl), E. reflexivity.
  - rewrite E. reflexivity.
Qed.

Lemma filter_of_stdout (f : event -> bool) (l : list string) :
  (forall text, f (Stdout text) = false) -> filter f (map Stdout l) = [].
Proof.
  intros H. induction l as [|x l IH]; [reflexivity|].
  cbn [map filter]. rewrite H. exact IH.
Qed.

(** C9, as amended: the result and the trace of [gps_summaries] are a
    function of its arguments and of the answers of the provider to its
    first three requests.  When places of interest are given or the log
    is asked for, the function itself sends the query before anything
    else, again after a pause of a minute when the answer has a status
    other than 200, three times at most; after the third such answer it
    writes a notice and leaves the process, having computed nothing;
    after an answer of status 200 it sends no other request.  When
    neither is asked for, it sends no request, never pauses, never
    leaves the process, and its result is the same whatever the
    provider.  Unless it has left the process, it has itself written
    the line that names the resolution to the standard output, whether
    it then returns or raises. *)
Theorem summaries_and_provider (traj : list row) (tz_str : string)
  (opt : resolution) (places_of_interest : option (list string))
  (save_log : bool) (threshold : option xnum) (split_day_night : bool) :
  let run := fun world =>
    gps_summaries world traj tz_str opt places_of_interest save_log
                  threshold split_day_night in
  let get := HttpGet overpass_url (query_of traj) in
  (forall w1 w2 : provider,
      (forall n, (n < 3)%nat -> w1 n = w2 n) -> run w1 = run w2)
  /\ (asks_provider places_of_interest save_log = true ->
      forall w,
        (exists n rest,
            (n < 3)%nat
            /\ (forall k, (k < n)%nat -> status_code (w k) <> 200)
            /\ status_code (w n) = 200
            /\ fst (run w) <> Exited
            /\ snd (run w)
               = failed_tries (query_of traj) n
                 ++ get :: map Stdout (calculating opt :: rest))
        \/ ((forall k, (k < 3)%nat -> status_code (w k) <> 200)
            /\ run w
               = (Exited,
                  failed_tries (query_of traj) 2
                  ++ [get; Stdout too_many])))
  /\ (asks_provider places_of_interest save_log = false ->
      (forall w1 w2, run w1 = run w2)
      /\ forall w,
           fst (run w) <> Exited
           /\ filter is_get (snd (run w)) = []
           /\ filter is_sleep (snd (run w)) = []
           /\ exists rest, prints (snd (run w)) = calculating opt :: rest).
Proof.
  cbv zeta. unfold gps_summaries, asks_provider.
  split; [|split].
  - intros w1 w2 H.
    destruct (_ || save_log); [|reflexivity].
    rewrite (request_loop_ext w1 w2); [reflexivity|].
    intros k Hk. apply H. lia.
  - intros -> w.
    destruct (request_loop_tries w (query_of traj))
      as [[n [Hn [Hk [H200 ->]]]] | [Hk ->]].
    + left.
      match goal with
      | |- context [finish ?b (core_written ?a1 ?a2 ?a3 ?a4 ?a5 ?a6 ?a7
                                            ?a8 ?a9 ?a10) ?r] =>
          destruct (finish_core_trace b a1 a2 a3 a4 a5 a6 a7 a8 a9 a10)
            as [rest E];
          destruct (finish_outcome b (core_written a1 a2 a3 a4 a5 a6 a7
                                                   a8 a9 a10) r)
            as [NE _]
      end.
      exists n, rest. split; [exact Hn|]. split; [exact Hk|].
      split; [exact H200|]. split; [exact NE|].
      rewrite E, <- app_assoc. reflexivity.
    + right. split; [exact Hk | reflexivity].
  - intros ->. split; [reflexivity|].
    intros w.
    match goal with
    | |- context [finish ?b (core_written ?a1 ?a2 ?a3 ?a4 ?a5 ?a6 ?a7
                                          ?a8 ?a9 ?a10) ?r] =>
        destruct (finish_core_trace b a1 a2 a3 a4 a5 a6 a7 a8 a9 a10)
          as [rest E];
        destruct (finish_outcome b (core_written a1 a2 a3 a4 a5 a6 a7
                                                 a8 a9 a10) r)
          as [NE _]
    end.
    split; [exact NE|]. rewrite E. cbn [app].
    split; [apply filter_of_stdout; reflexivity|].
    split; [apply filter_of_stdout; reflexivity|].
    exists rest. apply prints_of_stdout.
Qed.


(* ------------------------------------------------------------------ *)
(** ** The number of windows *)

(** The core on a span without a window. *)
Lemma summaries_core_of_no_window (traj : list row) (tz_str : string)
  (opt : resolution) (places_of_interest : option (list string))
  (save_log : bool) (threshold : option xnum) (split_day_night : bool)
  (ids : list (string * list Z)) (locations : list (Z * coords))
  (tags : list (Z * tag_dict)) (first last : xnum) :
  aget traj 0 3 = Ok first ->
  aget traj (-1) 3 = Ok last ->
  no_windows_of opt (effective_split opt split_day_night)
                (start_stamp_of opt tz_str first)
                (end_stamp_of opt tz_str last) <= 0 ->
  (effective_split opt split_day_night = true ->
   free_of_reserved (places_of_interest2 places_of_interest)) ->
  summaries_core traj tz_str opt places_of_interest save_log threshold
                 split_day_night ids locations tags
  = Ok (mkSummaries
          (mkFrame (final_columns opt split_day_night places_of_interest) [])
          [] [calculating opt]).
Proof.
  intros A0 A1 Hn Hfree. unfold summaries_core.
  rewrite A0, A1. cbn [bind].
  replace (0 <? no_windows_of _ _ _ _) with false
    by (symmetry; apply Z.ltb_ge; exact Hn).
  cbn [bind fst snd log_tags stdout]. unfold final_columns.
  destruct (effective_split opt split_day_night) eqn:Es.
  - assert (opt = Daily) as ->
      by (destruct opt; [discriminate Es | reflexivity]).
    cbn [base_columns].
    rewrite (reshape_wide _ [] (Hfree eq_refl)).
    + reflexivity.
    + intros l [].
  - reflexivity.
Qed.

(** C6: the number of windows is the floor of the span over the length
    of a window, twice that for a split day, whatever its sign; the
    loop goes over the windows [0] to [no_windows - 1] and over no
    other, so that a call that returns has made one line for each of
    them (before the halves of a day are put side by side); and when
    the number is zero or less, the call, unless it has left the
    process before it came to count (the provider is asked and refuses
    three times), raises nothing and returns a table without lines, with
    the labels of the resolution followed by those of the places and
    [other] (reshaped when the day is split), and an empty log.  The
    trajectory is not empty, so that there is a span; for a split day
    without windows the labels of the places are not [obs_duration],
    [obs_day] or [obs_night]. *)
Theorem empty_span (world : provider) (traj : list row) (tz_str : string)
  (opt : resolution) (places_of_interest : option (list string))
  (save_log : bool) (threshold : option xnum) (split_day_night : bool)
  (first last : xnum) :
  aget traj 0 3 = Ok first ->
  aget traj (-1) 3 = Ok last ->
  let split := effective_split opt split_day_night in
  let start_stamp := start_stamp_of opt tz_str first in
  let end_stamp := end_stamp_of opt tz_str last in
  let n := (end_stamp - start_stamp) / window_of opt in
  let no_windows := no_windows_of opt split start_stamp end_stamp in
  let home := locate_home (filter is_observed traj) tz_str in
  let names := base_columns opt ++ places_of_interest2 places_of_interest in
  let run := gps_summaries world traj tz_str opt places_of_interest
                           save_log threshold split_day_night in
  (window_of opt * n <= end_stamp - start_stamp < window_of opt * (n + 1))
  /\ no_windows = (if split then n * 2 else n)
  /\ (forall t l,
        fst run = Returned t l ->
        exists ids locations tags st,
          window_loop traj tz_str opt split start_stamp (window_of opt)
                      no_windows (fst home) (snd home) places_of_interest
                      save_log ids locations tags
                      (mkLoop [] [] threshold [calculating opt])
                      (py_range no_windows) = Ok st
          /\ py_range no_windows = map Z.of_nat (seq 0 (Z.to_nat no_windows))
          /\ Z.of_nat (List.length (summary_stats st)) = Z.max 0 no_windows
          /\ l = log_tags st
          /\ (if split
              then reshape (mkFrame names (summary_stats st)) = Ok t
              else t = mkFrame names (summary_stats st)))
  /\ (no_windows <= 0 ->
      (split = true ->
       free_of_reserved (places_of_interest2 places_of_interest)) ->
      (asks_provider places_of_interest save_log = true
       /\ (forall k, (k < 3)%nat -> status_code (world k) <> 200)
       /\ fst run = Exited)
      \/ fst run
         = Returned
             (mkFrame (final_columns opt split_day_night places_of_interest)
                      [])
             []).
Proof.
  intros A0 A1. cbv zeta.
  split; [|split; [|split]].
  - pose proof (window_positive opt) as Hw.
    pose proof (Z.mul_div_le (end_stamp_of opt tz_str last
                              - start_stamp_of opt tz_str first)
                             (window_of opt) Hw).
    pose proof (Z.mul_succ_div_gt
                  (end_stamp_of opt tz_str last
                   - start_stamp_of opt tz_str first)
                  (window_of opt) Hw).
    lia.
  - unfold no_windows_of, effective_split.
    destruct opt; reflexivity.
  - intros t l H.
    destruct (gps_summaries_returned _ _ _ _ _ _ _ _ _ _ H)
      as [ids [locations [tags [s [C [Et [El _]]]]]]].
    exists ids, locations, tags.
    unfold summaries_core in C. rewrite A0, A1 in C. cbn [bind] in C.
    cbv zeta in C.
    set (nw := no_windows_of opt (effective_split opt split_day_night)
                 (start_stamp_of opt tz_str first)
                 (end_stamp_of opt tz_str last)) in *.
    destruct (0 <? nw) eqn:E.
    + match type of C with
      | (r <- (st <- ?m ;; _) ;; _) = _ => destruct m as [st|e] eqn:W
      end; cbn [bind] in C; [|discriminate].
      exists st. split; [reflexivity|]. split; [reflexivity|].
      pose proof (window_loop_lines _ _ _ _ _ _ _ _ _ _ _ _ _ _ _ _ _ W)
        as [[lines [S [Len _]]] _].
      cbn [summary_stats app] in S.
      unfold make_frame in C.
      destruct (forallb _ (summary_stats st)); cbn [bind fst snd] in C;
        [|discriminate].
      apply Z.ltb_lt in E.
      split; [rewrite S, Len, py_range_length; lia|].
      destruct (effective_split opt split_day_night).
      * destruct (reshape _) as [t2|e] eqn:R; cbn [bind] in C;
          [|discriminate].
        inversion C; subst. cbn [table logs]. split; reflexivity.
      * cbn [bind] in C. inversion C; subst. cbn [table logs].
        split; reflexivity.
    + apply Z.ltb_ge in E.
      exists (mkLoop [] [] threshold [calculating opt]).
      assert (P : py_range nw = []).
      { unfold py_range. replace (Z.to_nat nw) with 0%nat by lia.
        reflexivity. }
      rewrite P. cbn [window_loop summary_stats List.length log_tags].
      split; [reflexivity|].
      split; [replace (Z.to_nat nw) with 0%nat by lia; reflexivity|].
      split; [lia|].
      cbn [bind fst snd log_tags stdout] in C.
      destruct (effective_split opt split_day_night).
      * destruct (reshape _) as [t2|e] eqn:R; cbn [bind] in C;
          [|discriminate].
        inversion C; subst. cbn [table logs]. split; reflexivity.
      * cbn [bind] in C. inversion C; subst. cbn [table logs].
        split; reflexivity.
  - intros Hn Hfree. unfold gps_summaries, asks_provider.
    destruct (_ || save_log).
    + destruct (request_loop_tries world (query_of traj))
        as [[k [_ [_ [_ ->]]]] | [Hk ->]].
      * right.
        rewrite (summaries_core_of_no_window _ _ _ _ _ _ _ _ _ _ _ _
                   A0 A1 Hn Hfree).
        reflexivity.
      * left. split; [reflexivity|]. split; [exact Hk | reflexivity].
    + right.
      rewrite (summaries_core_of_no_window _ _ _ _ _ _ _ _ _ _ _ _
                 A0 A1 Hn Hfree).
      reflexivity.
Qed.


(* ------------------------------------------------------------------ *)
(** ** The cut has no guard on the duration *)











Section NoGuard.

Variable traj : list row.
Variable tz_str : string.
Variable split_day_night : bool.
Variable start_stamp : Z.
Variable window : Z.
Variable no_windows : Z.

Local Abbreviation start_time i :=
  (start_time_of split_day_night start_stamp window i).
Local Abbreviation end_time i :=
  (end_time_of split_day_night start_stamp window i).
Local Abbreviation t2 i := (t2_of tz_str split_day_night start_stamp window i).
Local Abbreviation t3 i := (t3_of tz_str split_day_night start_stamp window i).
Local Abbreviation selected_ i :=
  (selected traj tz_str split_day_night start_stamp window i).
Local Abbreviation clip_ i :=
  (clip traj tz_str split_day_night start_stamp window no_windows i).
Local Abbreviation t0_temp i :=
  (t0_temp_of tz_str split_day_night start_stamp window i).
Local Abbreviation t1_temp i :=
  (t1_temp_of tz_str split_day_night start_stamp window i).
Local Abbreviation stop1_ i :=
  (stop1 traj tz_str split_day_night start_stamp window i).
Local Abbreviation stop2_ i :=
  (stop2 traj tz_str split_day_night start_stamp window i).


End NoGuard.

End Summaries.

(* ------------------------------------------------------------------ *)
(** * Runs on concrete trajectories *)

(** The code outside the file, for the runs below: stamps of January
    1970 in the time zone UTC, points of the meridian 0. *)
Module Runs.

Definition xfloor (a : xnum) : Z :=
  match a with
  | Fin q => Qfloor q
  | _ => 0
  end.

(** [stamp2datetime] and [datetime2stamp] for UTC, within January 1970. *)
Definition stamp2datetime (t : xnum) (tz_str : string) : time_list :=
  let s := xfloor t in
  mkTime 1970 1 (1 + s / 86400) (s mod 86400 / 3600) (s mod 3600 / 60)
         (s mod 60).

Definition datetime2stamp (t : time_list) (tz_str : string) : Z :=
  (tl_day t - 1) * 86400 + tl_hour t * 3600 + tl_minute t * 60 + tl_second t.

(** The great-circle distance of two points of one meridian: the radius
    of the earth times the difference of the latitudes, 111195 meters
    for a degree. *)
Definition great_circle_dist (lat1 lon1 lat2 lon2 : xnum) : xnum :=
  match lat1, lat2 with
  | Fin a, Fin b => Fin (111195 * Qabs (a - b))
  | _, _ => NaN
  end.

Fixpoint pairwise_great_circle_dist (points : list (xnum * xnum))
  : list xnum :=
  match points with
  | [] => []
  | p :: rest =>
      map (fun q => great_circle_dist (fst p) (snd p) (fst q) (snd q)) rest
      ++ pairwise_great_circle_dist rest
  end.

(** [num_sig_places] for pauses farther from one another than the
    radius: each is a place of its own. *)
Definition num_sig_places (data : list row) (radius : Z) : list xnum :=
  map dur data.

(** A home at the origin. *)
Definition locate_home (obs_traj : list row) (tz_str : string)
  : xnum * xnum :=
  (xzero, xzero).

Definition bbox_str (lat lon : xnum) (radius : Z) : string := "(bbox)".

(** The deviation of a vector of one number, [0], and of two, half
    their distance; with a value that is no finite number numpy gives
    NaN, as it does for no value at all.  The deviation of three numbers
    or more is no rational in general: it is left as NaN here, and no
    window of a run of this file has three flights or three pauses. *)
Definition np_std (v : list xnum) : xnum :=
  match v with
  | [Fin _] => xzero
  | [Fin a; Fin b] => Fin (Qabs (a - b) / 2)
  | _ => NaN
  end.

(** Rounding to the nearest integer, a half to the even one. *)
Definition np_round (a : xnum) : xnum :=
  match a with
  | Fin q =>
      let f := Qfloor q in
      let r := (q - inject_Z f)%Q in
      match (r ?= 1 # 2)%Q with
      | Lt => of_Z f
      | Gt => of_Z (f + 1)
      | Eq => if Z.even f then of_Z f else of_Z (f + 1)
      end
  | _ => a
  end.

(** The logarithm where it is rational or no number: [0] at 1, minus
    infinity at 0, NaN below 0.  At any other number it is no rational:
    it is left as NaN here, and no run of this file calls it, for want
    of a pause in its daily windows. *)
Definition np_log (a : xnum) : xnum :=
  match a with
  | Fin q =>
      match Qsgn q with
      | Gt => if Qeq_bool q 1 then xzero else NaN
      | Eq => NInf
      | Lt => NaN
      end
  | PInf => PInf
  | _ => NaN
  end.

(** The runs have no polygon and do not call [contains]. *)
Definition polygon_contains (vertices : coords) (point : xnum * xnum) : bool :=
  false.

Definition tz : string := "UTC".

(** A line of the trajectory on the meridian 0. *)
Definition line (s : Z) (lat0 : Q) (t0 : Z) (lat1 : Q) (t1 : Z) (obs : Z)
  : row :=
  mkRow (of_Z s) (Fin lat0) xzero (of_Z t0) (Fin lat1) xzero (of_Z t1)
        (of_Z obs).

(** The functions of the file over this code. *)
Definition selected_run := selected stamp2datetime datetime2stamp.
Definition clip_run := clip stamp2datetime datetime2stamp.
Definition window_step_run :=
  window_step great_circle_dist pairwise_great_circle_dist num_sig_places
              stamp2datetime datetime2stamp np_std np_round np_log
              polygon_contains.
Definition gps_summaries_run :=
  gps_summaries great_circle_dist pairwise_great_circle_dist num_sig_places
                locate_home stamp2datetime datetime2stamp bbox_str np_std
                np_round np_log polygon_contains.

(** A provider that answers with no element, and one that refuses. *)
Definition provider_without : provider := fun _ => mkResponse 200 [].
Definition provider_down : provider := fun _ => mkResponse 429 [].

(** *** A line of no duration in the middle hour of three *)





(** *** Two flights after 20 o'clock, the day split *)

Definition evening : list row :=
  [line 1 0 72000 (1 # 100) 75600 1;
   line 1 (1 # 100) 75600 (2 # 100) 79200 1].

(** C5, the claim as written fails for the daytime window from 8 to 20
    o'clock of the first day ([t2 = 28800], [t3 = 72000], the day from 0
    to 86400): the first flight starts at [t3], not before it, and is
    taken; the second overlaps the day strictly and is not taken. *)
Lemma daytime_selection_is_not_strict :
  t2_of stamp2datetime datetime2stamp tz true 0 86400 0 = 28800
  /\ t3_of stamp2datetime datetime2stamp tz true 0 86400 0 = 72000
  /\ selected_run evening tz true 0 86400 0
     = [line 1 0 72000 (1 # 100) 75600 1]
  /\ filter (fun r => xltb (r_t0 r) (of_Z 72000)
                      && xgtb (r_t1 r) (of_Z 28800)) evening = []
  /\ filter (fun r => xltb (r_t0 r) (of_Z 86400)
                      && xgtb (r_t1 r) (of_Z 0)) evening = evening.
Proof. repeat split; reflexivity. Qed.

(** *** An imputed flight over three hours *)

Definition imputed : list row := [line 1 0 0 (1 # 100) 10800 0].

Definition start_state : loop_state := mkLoop [] [] None [].



(** *** A flight over the middle window of three hours *)

Definition long_flight : list row := [line 1 0 0 (3 # 100) 10800 1].

Lemma one_line_cut_to_window_run :
  exists r',
    clip_run long_flight tz false 0 3600 3 1 = Ok [r']
    /\ r_t0 r' = of_Z 3600 /\ r_t1 r' = of_Z 7200
    /\ xeq (dur r') (of_Z 3600)
    /\ xeq (r_x0 r') (Fin (1 # 100))
    /\ xeq (r_x1 r') (Fin (2 # 100)).
Proof.
  destruct (one_line_cut_to_window stamp2datetime datetime2stamp
              long_flight tz false 0 3600 3 1
              (line 1 0 0 (3 # 100) 10800 1) 0 10800 0 0 (3 # 100) 0
              eq_refl eq_refl eq_refl eq_refl eq_refl
              eq_refl eq_refl eq_refl eq_refl)
    as [r' [C [T0 [T1 [D [X0 [_ [X1 _]]]]]]]].
  exists r'. repeat split; try assumption.
  - destruct (r_x0 r'); try exact X0. cbn [xeq] in *. rewrite X0.
    reflexivity.
  - destruct (r_x1 r'); try exact X1. cbn [xeq] in *. rewrite X1.
    reflexivity.
Defined.

(** *** A day without observation, split *)

Definition unobserved_day : list row :=
  [line 1 0 0 (1 # 100) 25200 0;
   line 1 (1 # 100) 25200 (2 # 100) 75600 0;
   line 1 (2 # 100) 75600 (3 # 100) 86400 0].

Definition first_of_january : time_list := mkTime 1970 1 1 0 0 0.

Definition after_half : loop_state :=
  mkLoop [nan_line Daily None first_of_january]
         [("1/1/1970"%string, LogNaN)] None [].

Definition after_halves : loop_state :=
  mkLoop [nan_line Daily None first_of_january;
          nan_line Daily None first_of_january]
         [("1/1/1970"%string, LogNaN)] None [].

Lemma degenerate_halves_share_key_run :
  log_tags after_half = dict_set [] "1/1/1970"%string LogNaN
  /\ log_tags after_halves = log_tags after_half
  /\ dict_get (log_tags after_halves) "1/1/1970"%string = Some LogNaN.
Proof.
  refine (degenerate_halves_share_key great_circle_dist
            pairwise_great_circle_dist num_sig_places stamp2datetime
            datetime2stamp np_std np_round np_log polygon_contains
            unobserved_day tz 0 86400 2 xzero xzero None false [] [] []
            start_state after_half after_halves 0
            [line 1 (1 # 100) 25200 (2 # 100) 75600 0]
            [line 1 0 0 (1 # 100) 25200 0;
             line 1 (2 # 100) 75600 (3 # 100) 86400 0]
            _ _ _ _ _ _); vm_compute; reflexivity.
Defined.

(** *** Three pauses on a line, far from home *)

Definition first_pause : row := line 2 1 0 1 600 1.
Definition second_pause : row :=
  line 2 (100007 # 100000) 600 (100007 # 100000) 1800 1.
Definition third_pause : row :=
  line 2 (100003 # 100000) 1800 (100003 # 100000) 2100 1.

Definition three_pauses : list row :=
  [first_pause; second_pause; third_pause].

Definition minutes_are (cs : list cluster) (ms : list Z) : bool :=
  (List.length cs =? List.length ms)%nat
  && forallb (fun p => xeqb (c_min (fst p)) (of_Z (snd p))) (combine cs ms).

(** C7, the claim as written fails: the first two pauses, 7.8 meters
    apart, start two clusters of 10 and 20 minutes; the third pause, of
    5 minutes, is 3.3 meters from the first cluster, its nearest, and
    4.4 meters from the second: its minutes go to both, not to the
    nearest alone. *)
Lemma dwell_goes_to_every_near_cluster :
  let before := pause_clusters great_circle_dist xzero xzero
                               [first_pause; second_pause] in
  let after := pause_clusters great_circle_dist xzero xzero three_pauses in
  minutes_are before [10; 20] = true
  /\ map (fun c => xltb (dist_to great_circle_dist third_pause c)
                         (of_Z 4)) before = [true; false]
  /\ map (fun c => xleb (dist_to great_circle_dist third_pause c)
                         (of_Z 5)) before = [true; true]
  /\ minutes_are after [15; 25] = true
  /\ minutes_are after [15; 20] = false
  /\ map c_lat after = map c_lat before.
Proof.
  cbv zeta. repeat split; vm_compute; reflexivity.
Qed.

Definition two_clusters : list cluster :=
  [mkCluster (Fin 1) xzero (of_Z 10);
   mkCluster (Fin (100007 # 100000)) xzero (of_Z 20)].

Lemma cluster_step_rule_run :
  cluster_step great_circle_dist xzero xzero two_clusters third_pause
  = [add_dwell third_pause (mkCluster (Fin 1) xzero (of_Z 10));
     add_dwell third_pause
               (mkCluster (Fin (100007 # 100000)) xzero (of_Z 20))].
Proof.
  rewrite (cluster_step_rule great_circle_dist xzero xzero two_clusters
             third_pause).
  - reflexivity.
  - intros c [<-|[<-|[]]]; reflexivity.
Defined.

(** *** Two halves of one day *)




(** *** A trajectory within one hour *)

Definition short_walk : row := line 1 0 100 (1 # 1000) 200 1.

(** *** An hour at a place, and three providers *)

Definition outing : list row :=
  [line 1 0 0 (1 # 1000) 3600 1;
   line 2 (1 # 1000) 3600 (1 # 1000) 7200 1;
   line 1 (1 # 1000) 7200 0 7300 1].

Definition cafe : element :=
  mkElement 42 "node" [("amenity", "cafe")]%string
            (Fin (101 # 100000)) xzero [].

Definition provider_with_cafe : provider := fun _ => mkResponse 200 [cafe].

Definition outing_run (world : provider) : outcome * list event :=
  gps_summaries_run world outing tz Hourly (Some ["cafe"%string]) false
                    None false.

(** The cells [cafe] and [other] of the one line of the table returned. *)
Definition place_cells_of (o : outcome) : list (list xnum) :=
  match o with
  | Returned t _ => map (skipn 16) (data t)
  | _ => []
  end.

(** C9, the claim as written fails: on one trajectory and one set of
    options, the function itself sends the query, and what it returns
    follows the answer: the hour goes to [cafe] with a provider that
    knows a cafe there, to [other] with one that knows none, and the
    run is left without a result when the provider refuses three
    times. *)
Lemma result_follows_the_provider :
  (exists rest,
      snd (outing_run provider_with_cafe)
      = HttpGet overpass_url
                (query_of great_circle_dist bbox_str outing) :: rest)
  /\ map (map (fun c => xeqb c xone))
         (place_cells_of (fst (outing_run provider_with_cafe)))
     = [[true; false]]
  /\ map (map (fun c => xeqb c xone))
         (place_cells_of (fst (outing_run provider_without)))
     = [[false; true]]
  /\ fst (outing_run provider_down) = Exited
  /\ fst (outing_run provider_with_cafe)
     <> fst (outing_run provider_without).
Proof.
  split; [eexists; vm_compute; reflexivity|].
  repeat split; try (vm_compute; reflexivity).
  vm_compute. discriminate.
Qed.

(** *** Two days of flights, the day split *)

(** Five flights without a gap, from 0 to 170000; the second goes
    through the daytime of the first day, the fourth through that of
    the second. *)
Definition two_days : list row :=
  [line 1 0 0 (1 # 100) 20000 1;
   line 1 (1 # 100) 20000 (2 # 100) 80000 1;
   line 1 (2 # 100) 80000 (3 # 100) 100000 1;
   line 1 (3 # 100) 100000 (4 # 100) 160000 1;
   line 1 (4 # 100) 160000 (5 # 100) 170000 1].

Definition two_days_run : outcome * list event :=
  gps_summaries_run provider_without two_days tz Daily None false None true.

(** C4, the code on the failing input.  The test of line 228 compares
    the number of the day with the doubled count less one: with two days
    or more both halves of the last day pass it, where the last window
    of an unsplit run does not.  On the input, two days give four
    windows, and the call goes through all of them and returns a line
    for each day.  The daytime of the first day is not cut: its flight,
    from 20000 to 80000, counts for its whole 60000 seconds.  The
    daytime of the last day is cut: its flight, from 100000 to 160000,
    is put on the bounds 115200 and 158400 and counts for 12 hours. *)
Lemma last_day_is_clipped :
  (forall n i, 2 <= n -> 2 * n - 2 <= i < 2 * n ->
               interior true (2 * n) i = true)
  /\ (forall n, 1 <= n -> interior false n (n - 1) = false)
  /\ no_windows_of Daily true
       (start_stamp_of stamp2datetime datetime2stamp Daily tz (of_Z 0))
       (end_stamp_of stamp2datetime datetime2stamp Daily tz (of_Z 160000))
     = 4
  /\ clip_run two_days tz true 0 86400 4 0
     = Ok [line 1 (1 # 100) 20000 (2 # 100) 80000 1]
  /\ selected_run two_days tz true 0 86400 2
     = [line 1 (3 # 100) 100000 (4 # 100) 160000 1]
  /\ (exists temp,
         clip_run two_days tz true 0 86400 4 2 = Ok temp
         /\ map r_t0 temp = [of_Z 115200]
         /\ map r_t1 temp = [of_Z 158400])
  /\ exists t l d1 d2,
       fst two_days_run = Returned t l
       /\ data t = [d1; d2]
       /\ nth_error (columns t) 4 = Some "obs_duration_datetime"%string
       /\ xeqb (nth 4 d1 NaN) (Fin (60000 # 3600)) = true
       /\ xeqb (nth 4 d2 NaN) (of_Z 12) = true.
Proof.
  split.
  { intros n i Hn Hi. unfold interior, i2_of.
    assert (E : i / 2 = n - 1)
      by (symmetry; apply Z.div_unique with (i - 2 * (n - 1)); lia).
    rewrite E.
    apply negb_true_iff, orb_false_iff.
    split; apply Z.eqb_neq; lia. }
  split.
  { intros n Hn. unfold interior, i2_of.
    apply negb_false_iff, orb_true_iff. right. apply Z.eqb_refl. }
  split; [reflexivity|]. split; [vm_compute; reflexivity|].
  split; [vm_compute; reflexivity|].
  split; [eexists; split; [vm_compute; reflexivity|];
          split; reflexivity|].
  do 4 eexists.
  split; [vm_compute; reflexivity|].
  split; [reflexivity|]. split; [reflexivity|].
  split; vm_compute; reflexivity.
Qed.

(** *** A trajectory with a gap *)

(** A flight to 7200, and nothing until 20000: the windows are the
    four hours from 3600 to 18000, and the second, from 7200 to 10800,
    takes no line. *)
Definition gapped : list row :=
  [line 1 0 0 (1 # 100) 7200 1;
   line 1 (1 # 100) 20000 (2 # 100) 20100 1].

Lemma empty_window_raises_run :
  window_step_run gapped tz Hourly false 3600 3600 4 xzero xzero None false
                  [] [] [] start_state 1 = Raise IndexError.
Proof.
  exact (empty_window_raises great_circle_dist pairwise_great_circle_dist
           num_sig_places stamp2datetime datetime2stamp np_std np_round
           np_log polygon_contains gapped tz Hourly false 3600 3600 4
           xzero xzero None false [] [] [] start_state 1 eq_refl).
Defined.

Lemma log_without_places_raises_run :
  window_step_run imputed tz Hourly false 0 3600 3 xzero xzero None true
                  [] [] [] start_state 0 = Raise TypeError.
Proof.
  refine (log_without_places_raises great_circle_dist
            pairwise_great_circle_dist num_sig_places stamp2datetime
            datetime2stamp np_std np_round np_log polygon_contains
            imputed tz Hourly false 0 3600 3 xzero xzero None true
            [] [] [] start_state 0 imputed eq_refl eq_refl eq_refl _).
  discriminate.
Defined.

Lemma log_without_places_returns_nothing_run :
  fst (gps_summaries_run provider_without [short_walk] tz Hourly None true
                         None false)
  = Returned (mkFrame hourly_columns []) []
  /\ data (mkFrame hourly_columns []) = []
  /\ @nil (string * log_entry) = [].
Proof.
  assert (E : fst (gps_summaries_run provider_without [short_walk] tz
                     Hourly None true None false)
              = Returned (mkFrame hourly_columns []) [])
    by (vm_compute; reflexivity).
  split; [exact E|].
  exact (log_without_places_returns_nothing great_circle_dist
           pairwise_great_circle_dist num_sig_places locate_home
           stamp2datetime datetime2stamp bbox_str np_std np_round np_log
           polygon_contains provider_without [short_walk] tz Hourly None
           false (mkFrame hourly_columns []) [] E).
Defined.

Lemma windows_within_span_run :
  3600 <= start_time_of false 3600 3600 1
  /\ end_time_of false 3600 3600 1 <= 10800
  /\ end_time_of false 3600 3600 1 = start_time_of false 3600 3600 1 + 3600
  /\ start_time_of false 3600 3600 2 = end_time_of false 3600 3600 1.
Proof.
  destruct (windows_within_span Hourly false 3600 10800 1)
    as [A [B [C [D _]]]].
  - vm_compute. split; [discriminate | reflexivity].
  - split; [exact A | split; [exact B | split; [exact C|]]].
    exact (D eq_refl).
Defined.

Lemma clip_keeps_lines_run :
  exists temp,
    clip_run long_flight tz false 0 3600 3 1 = Ok temp
    /\ List.length temp = 1%nat
    /\ map r_s temp = [of_Z 1] /\ map r_obs temp = [of_Z 1].
Proof.
  eexists. split; [vm_compute; reflexivity|].
  exact (clip_keeps_lines stamp2datetime datetime2stamp long_flight tz
           false 0 3600 3 1 _ eq_refl).
Defined.


(** *** The hour at the café, with the log *)

Lemma place_part_raises_nothing_run :
  exists ps,
    places_part great_circle_dist polygon_contains xzero xzero
                (Some ["cafe"%string]) true
                (ix_ids (index_of (mkResponse 200 [cafe])))
                (ix_locations (index_of (mkResponse 200 [cafe])))
                (ix_tags (index_of (mkResponse 200 [cafe])))
                outing None [] = Ok ps
    /\ List.length (all_place_times_temp ps) = 2%nat.
Proof.
  apply (place_part_raises_nothing great_circle_dist polygon_contains
           (mkResponse 200 [cafe])).
  intros e H. cbn [elements In] in H. destruct H as [<-|[]].
  left. reflexivity.
Defined.

Definition cafe_log_run : outcome * list event :=
  gps_summaries_run provider_with_cafe outing tz Hourly
                    (Some ["cafe"%string]) true None false.

Definition cafe_table : frame :=
  Eval vm_compute in
    match fst cafe_log_run with
    | Returned t _ => t
    | _ => mkFrame [] []
    end.

Definition cafe_log : list (string * log_entry) :=
  Eval vm_compute in
    match fst cafe_log_run with
    | Returned _ l => l
    | _ => []
    end.

Lemma cafe_log_run_returns : fst cafe_log_run = Returned cafe_table cafe_log.
Proof. vm_compute. reflexivity. Qed.

Lemma one_row_per_window_run :
  fst cafe_log_run = Returned cafe_table cafe_log
  /\ columns cafe_table = hourly_columns ++ ["cafe"%string; "other"%string]
  /\ Z.of_nat (List.length (data cafe_table)) = 1.
Proof.
  split; [exact cafe_log_run_returns|].
  destruct (one_row_per_window great_circle_dist pairwise_great_circle_dist
              num_sig_places locate_home stamp2datetime datetime2stamp
              bbox_str np_std np_round np_log polygon_contains
              provider_with_cafe outing tz Hourly (Some ["cafe"%string])
              true None false cafe_table cafe_log eq_refl
              cafe_log_run_returns)
    as [C [_ [first [last [A0 [A1 L]]]]]].
  split; [exact C|].
  vm_compute in A0, A1. injection A0 as <-. injection A1 as <-.
  exact L.
Defined.

Lemma notice_written_once_run :
  fst cafe_log_run = Returned cafe_table cafe_log
  /\ prints (snd cafe_log_run) = [calculating Hourly; threshold_notice].
Proof.
  split; [exact cafe_log_run_returns|].
  destruct (notice_written_once great_circle_dist pairwise_great_circle_dist
              num_sig_places locate_home stamp2datetime datetime2stamp
              bbox_str np_std np_round np_log polygon_contains
              provider_with_cafe outing tz Hourly (Some ["cafe"%string])
              true None false cafe_table cafe_log cafe_log_run_returns)
    as [H|[_ [_ H]]].
  - vm_compute in H. discriminate.
  - exact H.
Defined.


(** *** A day in two halves *)

(** A flight before 8 o'clock, a flight through the day, a flight after
    20 o'clock. *)
Definition split_day : list row :=
  [line 1 0 100 (1 # 1000) 20000 1;
   line 1 (1 # 1000) 20000 (2 # 1000) 80000 1;
   line 1 (2 # 1000) 80000 (3 # 1000) 85000 1].

Definition split_day_run : outcome * list event :=
  gps_summaries_run provider_without split_day tz Daily None false None true.

Definition split_day_table : frame :=
  Eval vm_compute in
    match fst split_day_run with
    | Returned t _ => t
    | _ => mkFrame [] []
    end.

Definition split_day_log : list (string * log_entry) :=
  Eval vm_compute in
    match fst split_day_run with
    | Returned _ l => l
    | _ => []
    end.

Lemma split_day_run_returns :
  fst split_day_run = Returned split_day_table split_day_log.
Proof. vm_compute. reflexivity. Qed.

Lemma one_row_per_day_run :
  fst split_day_run = Returned split_day_table split_day_log
  /\ columns split_day_table = merged_columns []
  /\ Z.of_nat (List.length (data split_day_table)) = 1.
Proof.
  split; [exact split_day_run_returns|].
  assert (F : free_of_reserved (places_of_interest2 None))
    by (intros p []).
  destruct (one_row_per_day great_circle_dist pairwise_great_circle_dist
              num_sig_places locate_home stamp2datetime datetime2stamp
              bbox_str np_std np_round np_log polygon_contains
              provider_without split_day tz None false None
              split_day_table split_day_log F split_day_run_returns)
    as [C [_ [first [last [A0 [A1 L]]]]]].
  split; [exact C|].
  vm_compute in A0, A1. injection A0 as <-. injection A1 as <-.
  exact L.
Defined.


(** *** An hour of three lines *)

Definition three_lines : list row :=
  [line 1 0 0 (1 # 100) 5000 1;
   line 2 (1 # 100) 5000 (1 # 100) 6000 1;
   line 1 (1 # 100) 6000 0 12000 1].

Lemma clip_cuts_the_two_ends_run :
  clip_run three_lines tz false 0 3600 4 1
  = Ok [first_cut 3600 (line 1 0 0 (1 # 100) 5000 1);
        line 2 (1 # 100) 5000 (1 # 100) 6000 1;
        last_cut 7200 (line 1 (1 # 100) 6000 0 12000 1)].
Proof.
  exact (clip_cuts_the_two_ends stamp2datetime datetime2stamp three_lines tz
           false 0 3600 4 1
           (line 1 0 0 (1 # 100) 5000 1) (line 1 (1 # 100) 6000 0 12000 1)
           [line 2 (1 # 100) 5000 (1 # 100) 6000 1]
           eq_refl eq_refl eq_refl).
Defined.


(** *** An hour at the café, cell by cell *)

Definition cafe_ids : list (string * list Z) := [("cafe"%string, [42])].
Definition cafe_locations : list (Z * coords) :=
  [(42, [(Fin (101 # 100000), xzero)])].
Definition at_the_cafe : cluster := mkCluster (Fin (1 # 1000)) xzero (of_Z 60).
Definition no_time_yet : place_state := mkPlaceState [xzero; xzero] [] None [].

Lemma pause_time_goes_to_places_run :
  exists st',
    place_step great_circle_dist polygon_contains (Some ["cafe"%string])
               false cafe_ids cafe_locations [] no_time_yet at_the_cafe
    = Ok st'
    /\ all_place_times_temp st'
       = [xadd xzero (xdiv (of_Z 60) (of_Z 60)); xzero].
Proof.
  eexists. split; [reflexivity|].
  exact (pause_time_goes_to_places great_circle_dist polygon_contains
           ["cafe"%string] false cafe_ids cafe_locations [] no_time_yet _
           at_the_cafe eq_refl eq_refl).
Defined.


Lemma gap_in_trajectory_raises_run :
  fst (gps_summaries_run provider_without gapped tz Hourly None false None
                         false)
  <> Returned (mkFrame hourly_columns []) [].
Proof.
  refine (gap_in_trajectory_raises great_circle_dist
            pairwise_great_circle_dist num_sig_places locate_home
            stamp2datetime datetime2stamp bbox_str np_std np_round np_log
            polygon_contains provider_without gapped tz Hourly None false
            None false (of_Z 0) (of_Z 20000) 1 (mkFrame hourly_columns []) []
            eq_refl eq_refl _ eq_refl).
  vm_compute. split; [discriminate | reflexivity].
Defined.

(** *** A span without a window *)

Lemma empty_span_run :
  no_windows_of Hourly false
    (start_stamp_of stamp2datetime datetime2stamp Hourly tz (of_Z 100))
    (end_stamp_of stamp2datetime datetime2stamp Hourly tz (of_Z 100)) = -1
  /\ fst (gps_summaries_run provider_without [short_walk] tz Hourly
                            (Some ["cafe"%string]) false None false)
     = Returned
         (mkFrame (hourly_columns ++ ["cafe"%string; "other"%string]) [])
         [].
Proof.
  split; [reflexivity|].
  destruct (empty_span great_circle_dist pairwise_great_circle_dist
              num_sig_places locate_home stamp2datetime datetime2stamp
              bbox_str np_std np_round np_log polygon_contains
              provider_without [short_walk] tz Hourly
              (Some ["cafe"%string]) false None false (of_Z 100) (of_Z 100)
              eq_refl eq_refl) as [_ [_ [_ Z0]]].
  destruct Z0 as [[_ [K _]]|R].
  - vm_compute. discriminate.
  - discriminate.
  - exfalso. apply (K 0%nat); [lia | reflexivity].
  - exact R.
Defined.

End Runs.

(* ------------------------------------------------------------------ *)
(** * [gps_quality_check] (lines 729 to 753) *)

Module Quality.

Local Open Scope string_scope.

(** What the function asks of the file system: whether a path exists
    ([os.path.exists]), the names in a directory ([os.listdir]; [None]
    when it raises), and the number of lines of data of the csv file at
    a path ([pd.read_csv(path).shape[0]]; [None] when the reading
    raises). *)
Record file_system : Type := mkFileSystem {
  path_exists : string -> bool;
  listdir : string -> option (list string);
  csv_rows : string -> option Z
}.

(** How a call ends without a result: [os.listdir] raises, the first
    character of an empty name is asked for, [pd.read_csv] raises. *)
Inductive failure : Type :=
| ListdirFailed
| EmptyName
| ReadFailed.

Inductive answer : Type :=
| Quality (quality_check : Q)
| Failed (f : failure).

(** [s[n:]] *)
Fixpoint string_drop (n : nat) (s : string) : string :=
  match n, s with
  | O, _ => s
  | S n', String _ s' => string_drop n' s'
  | S _, EmptyString => EmptyString
  end.

(** Lines 742 and 743 for one name: a name that starts with a dot loses
    its first two characters. *)
Definition strip_name (name : string) : option string :=
  match name with
  | EmptyString => None
  | String c _ =>
      if Ascii.eqb c "."%char then Some (string_drop 2 name) else Some name
  end.

(** The loop of lines 741 to 743. *)
Fixpoint strip_names (file_list : list string) : option (list string) :=
  match file_list with
  | [] => Some []
  | name :: rest =>
      match strip_name name with
      | None => None
      | Some name' =>
          match strip_names rest with
          | None => None
          | Some rest' => Some (name' :: rest')
          end
      end
  end.

(** [np.sort] of an array of strings. *)
Fixpoint insert_sorted (x : string) (l : list string) : list string :=
  match l with
  | [] => [x]
  | y :: l' => if String.leb x y then x :: l else y :: insert_sorted x l'
  end.

Definition np_sort (l : list string) : list string :=
  fold_right insert_sorted [] l.

(** The loop of lines 748 to 751. *)
Fixpoint count_quality (fs : file_system) (file_path : list string)
  (quality_yes : Z) : option Z :=
  match file_path with
  | [] => Some quality_yes
  | p :: rest =>
      match csv_rows fs p with
      | None => None
      | Some rows =>
          count_quality fs rest
            (if (60 <? rows)%Z then quality_yes + 1 else quality_yes)
      end
  end.

(** [study_folder + "/" + str(id_code) + "/gps"], for an [id_code] that
    is a string. *)
Definition gps_path_of (study_folder id_code : string) : string :=
  study_folder ++ "/" ++ id_code ++ "/gps".

Definition gps_quality_check (fs : file_system)
  (study_folder id_code : string) : answer :=
  let gps_path := gps_path_of study_folder id_code in
  if negb (path_exists fs gps_path) then Quality 0
  else
    match listdir fs gps_path with
    | None => Failed ListdirFailed
    | Some file_list =>
        match strip_names file_list with
        | None => Failed EmptyName
        | Some file_list' =>
            let file_path :=
              np_sort (map (fun name => gps_path ++ "/" ++ name) file_list') in
            match count_quality fs file_path 0 with
            | None => Failed ReadFailed
            | Some quality_yes =>
                Quality (inject_Z quality_yes
                         / (inject_Z (Z.of_nat (List.length file_path))
                            + (1 # 10000)))%Q
            end
        end
    end.

(** ** Facts *)

Lemma insert_sorted_length (x : string) (l : list string) :
  List.length (insert_sorted x l) = S (List.length l).
Proof.
  induction l as [|y l IH]; cbn [insert_sorted]; [reflexivity|].
  destruct (String.leb x y); cbn [List.length]; [reflexivity|].
  rewrite IH. reflexivity.
Qed.

Lemma np_sort_length (l : list string) :
  List.length (np_sort l) = List.length l.
Proof.
  induction l as [|x l IH]; [reflexivity|].
  cbn [np_sort fold_right]. fold (np_sort l).
  rewrite insert_sorted_length, IH. reflexivity.
Qed.

Lemma insert_sorted_in (x y : string) (l : list string) :
  In y (insert_sorted x l) <-> y = x \/ In y l.
Proof.
  induction l as [|z l IH]; cbn [insert_sorted].
  - cbn [In]. intuition congruence.
  - destruct (String.leb x z); cbn [In]; [intuition congruence|].
    rewrite IH. intuition congruence.
Qed.

Lemma np_sort_in (y : string) (l : list string) :
  In y (np_sort l) <-> In y l.
Proof.
  induction l as [|x l IH]; [reflexivity|].
  cbn [np_sort fold_right]. fold (np_sort l).
  rewrite insert_sorted_in, IH. cbn [In]. intuition congruence.
Qed.

Lemma insert_sorted_filter (f : string -> bool) (x : string)
  (l : list string) :
  List.length (filter f (insert_sorted x l))
  = List.length (filter f (x :: l)).
Proof.
  induction l as [|z l IH]; cbn [insert_sorted]; [reflexivity|].
  destruct (String.leb x z); [reflexivity|].
  cbn [filter] in *.
  destruct (f z), (f x); cbn [List.length] in *; lia.
Qed.

Lemma np_sort_filter (f : string -> bool) (l : list string) :
  List.length (filter f (np_sort l)) = List.length (filter f l).
Proof.
  induction l as [|x l IH]; [reflexivity|].
  cbn [np_sort fold_right]. fold (np_sort l).
  rewrite insert_sorted_filter. cbn [filter].
  destruct (f x); cbn [List.length]; rewrite IH; reflexivity.
Qed.

(** The file at [p] can be read and has more than 60 lines. *)
Definition enough (fs : file_system) (p : string) : bool :=
  match csv_rows fs p with
  | Some rows => (60 <? rows)%Z
  | None => false
  end.

Lemma count_quality_counts (fs : file_system) (file_path : list string)
  (start quality_yes : Z) :
  count_quality fs file_path start = Some quality_yes ->
  quality_yes
  = start + Z.of_nat (List.length (filter (enough fs) file_path))
  /\ forall p, In p file_path -> csv_rows fs p <> None.
Proof.
  revert start.
  induction file_path as [|p rest IH]; intros start; cbn [count_quality].
  - intros H. inversion H. cbn [filter List.length].
    split; [lia | intros p []].
  - destruct (csv_rows fs p) as [rows|] eqn:E; [|discriminate].
    intros H. apply IH in H. destruct H as [-> R].
    split.
    + cbn [filter].
      assert (G : enough fs p = (60 <? rows)%Z)
        by (unfold enough; rewrite E; reflexivity).
      rewrite G. destruct (60 <? rows)%Z; cbn [List.length]; lia.
    + intros p' [<-|I]; [congruence | exact (R p' I)].
Qed.

Lemma strip_names_map (file_list file_list' : list string) :
  strip_names file_list = Some file_list' ->
  List.length file_list' = List.length file_list
  /\ forall name, In name file_list ->
                  exists name', strip_name name = Some name'
                                /\ In name' file_list'.
Proof.
  revert file_list'.
  induction file_list as [|name rest IH]; intros l'; cbn [strip_names].
  - intros H. inversion H. split; [reflexivity | intros name []].
  - destruct (strip_name name) as [name'|] eqn:E; [|discriminate].
    destruct (strip_names rest) as [rest'|]; [|discriminate].
    intros H. inversion H. destruct (IH rest' eq_refl) as [L R].
    split; [cbn [List.length]; congruence|].
    intros n [<-|I].
    + exists name'. split; [exact E | left; reflexivity].
    + destruct (R n I) as [n' [S' I']]. exists n'.
      split; [exact S' | right; exact I'].
Qed.

(** What a call that gives a result has gone through. *)
Lemma quality_returned (fs : file_system) (study_folder id_code : string)
  (q : Q) :
  gps_quality_check fs study_folder id_code = Quality q ->
  let gps_path := gps_path_of study_folder id_code in
  (path_exists fs gps_path = false /\ q = 0%Q)
  \/ exists file_list file_list',
       path_exists fs gps_path = true
       /\ listdir fs gps_path = Some file_list
       /\ strip_names file_list = Some file_list'
       /\ (forall name, In name file_list' ->
                        csv_rows fs (gps_path ++ "/" ++ name) <> None)
       /\ q = (inject_Z
                 (Z.of_nat
                    (List.length
                       (filter (fun name =>
                                  enough fs (gps_path ++ "/" ++ name))
                               file_list')))
               / (inject_Z (Z.of_nat (List.length file_list)) + (1 # 10000)))%Q.
Proof.
  unfold gps_quality_check. cbv zeta.
  set (gps_path := gps_path_of study_folder id_code).
  destruct (path_exists fs gps_path); cbn [negb];
    [|intros H; inversion H; left; split; reflexivity].
  destruct (listdir fs gps_path) as [file_list|]; [|discriminate].
  destruct (strip_names file_list) as [file_list'|] eqn:S; [|discriminate].
  destruct (count_quality fs _ 0) as [yes|] eqn:C; [|discriminate].
  intros H. injection H as <-. right. exists file_list, file_list'.
  apply count_quality_counts in C. destruct C as [-> R].
  pose proof (strip_names_map _ _ S) as [L _].
  split; [reflexivity|]. split; [reflexivity|]. split; [exact S|].
  split.
  - intros name I. apply R. apply np_sort_in.
    exact (in_map (fun name => gps_path ++ "/" ++ name) _ _ I).
  - rewrite np_sort_length, length_map, L, np_sort_filter. cbn [Z.add].
    assert (G : forall l : list string,
               List.length
                 (filter (enough fs)
                    (map (fun name => gps_path ++ "/" ++ name) l))
               = List.length
                   (filter (fun name => enough fs (gps_path ++ "/" ++ name))
                           l)).
    { induction l as [|x l IH]; [reflexivity|].
      cbn [map filter]. destruct (enough fs (gps_path ++ "/" ++ x));
        cbn [List.length]; rewrite IH; reflexivity. }
    rewrite G. reflexivity.
Qed.

Lemma share_bounds (yes n : nat) :
  (yes <= n)%nat ->
  let q := (inject_Z (Z.of_nat yes)
            / (inject_Z (Z.of_nat n) + (1 # 10000)))%Q in
  (0 <= q)%Q /\ (q < 1)%Q
  /\ ((6 # 10 < q)%Q <-> (3 * n < 5 * yes)%nat)
  /\ (yes = 0%nat -> q == 0)%Q.
Proof.
  intros Hle. cbv zeta.
  assert (Pos : (0 < inject_Z (Z.of_nat n) + (1 # 10000))%Q).
  { unfold Qlt, Qplus, inject_Z. cbn [Qnum Qden]. lia. }
  split; [|split; [|split]].
  - apply Qle_shift_div_l; [exact Pos|].
    unfold Qle, Qmult, Qplus, inject_Z. cbn [Qnum Qden]. lia.
  - apply Qlt_shift_div_r; [exact Pos|].
    unfold Qlt, Qmult, Qplus, inject_Z. cbn [Qnum Qden]. lia.
  - split.
    + intros H. destruct (Nat.lt_ge_cases (3 * n) (5 * yes)) as [G|G];
        [exact G|]. exfalso.
      apply (Qlt_not_le _ _ H).
      apply Qle_shift_div_r; [exact Pos|].
      unfold Qle, Qmult, Qplus, inject_Z. cbn [Qnum Qden]. lia.
    + intros H. apply Qlt_shift_div_l; [exact Pos|].
      unfold Qlt, Qmult, Qplus, inject_Z. cbn [Qnum Qden]. lia.
  - intros ->. unfold Qeq, Qdiv, Qmult. cbn [inject_Z Z.of_nat Qnum Qden].
    lia.
Qed.

(** The result, when there is one, is a number from 0 up to, and never
    reaching, 1 (the division is taken exactly); it is 0 when the
    directory does not exist, and also when it exists and holds
    nothing. *)
Theorem quality_in_unit_interval (fs : file_system)
  (study_folder id_code : string) (q : Q) :
  gps_quality_check fs study_folder id_code = Quality q ->
  (0 <= q)%Q /\ (q < 1)%Q
  /\ (path_exists fs (gps_path_of study_folder id_code) = false
      \/ listdir fs (gps_path_of study_folder id_code) = Some [] ->
      q == 0)%Q.
Proof.
  intros H. apply quality_returned in H. cbv zeta in H.
  destruct H as [[E ->]|[file_list [file_list' [E [Ld [S [_ ->]]]]]]].
  - split; [apply Qle_refl|]. split; [reflexivity|]. intros _. reflexivity.
  - apply strip_names_map in S. destruct S as [L _].
    pose proof (filter_length_le
                  (fun name =>
                     enough fs (gps_path_of study_folder id_code ++ "/" ++ name))
                  file_list') as Le.
    rewrite L in Le.
    destruct (share_bounds _ _ Le) as [A [B [_ Z0]]].
    split; [exact A|]. split; [exact B|].
    intros [F|F]; [congruence|].
    rewrite Ld in F. inversion F; subst.
    destruct file_list'; [|discriminate]. apply Z0. reflexivity.
Qed.

(** The test of the caller, [quality > 0.6] at line 913, passes exactly
    when more than three fifths of the names of the directory lead to a
    file of more than 60 lines (the division is taken exactly); and a
    call that gives a result has been able to read a file for every
    name, for a name that starts with a dot the file named by what
    follows its first two characters.  [read name] is the path read for
    [name]; an empty name has none, and no call with one gives a
    result. *)
Theorem quality_passes_the_test (fs : file_system)
  (study_folder id_code : string) (file_list : list string) (q : Q) :
  let gps_path := gps_path_of study_folder id_code in
  let read := fun name =>
    match strip_name name with
    | Some name' => gps_path ++ "/" ++ name'
    | None => gps_path
    end in
  path_exists fs gps_path = true ->
  listdir fs gps_path = Some file_list ->
  gps_quality_check fs study_folder id_code = Quality q ->
  ((6 # 10 < q)%Q
   <-> (3 * List.length file_list
        < 5 * List.length (filter (fun name => enough fs (read name))
                                  file_list))%nat)
  /\ forall name, In name file_list -> csv_rows fs (read name) <> None.
Proof.
  cbv zeta. intros E Ld H. apply quality_returned in H. cbv zeta in H.
  destruct H as [[E' _]|[fl [file_list' [_ [Ld' [S [R ->]]]]]]];
    [congruence|].
  rewrite Ld in Ld'. inversion Ld'; subst fl. clear Ld'.
  set (gps_path := gps_path_of study_folder id_code) in *.
  assert (Same : forall (l l' : list string) (f : string -> bool),
             strip_names l = Some l' ->
             List.length
               (filter (fun name =>
                          f match strip_name name with
                            | Some name' => gps_path ++ "/" ++ name'
                            | None => gps_path
                            end) l)
             = List.length
                 (filter (fun name => f (gps_path ++ "/" ++ name)) l')).
  { induction l as [|x l IH]; intros l' f; cbn [strip_names].
    - intros G. inversion G. reflexivity.
    - destruct (strip_name x) as [x'|] eqn:Ex; [|discriminate].
      destruct (strip_names l) as [l1|]; [|discriminate].
      intros G. inversion G. cbn [filter]. rewrite Ex.
      destruct (f (gps_path ++ "/" ++ x')); cbn [List.length];
        rewrite (IH l1 f eq_refl); reflexivity. }
  rewrite (Same file_list file_list' (enough fs) S).
  pose proof (strip_names_map _ _ S) as [L M].
  split.
  - pose proof (filter_length_le
                  (fun name => enough fs (gps_path ++ "/" ++ name))
                  file_list') as Le.
    rewrite L in Le.
    destruct (share_bounds _ _ Le) as [_ [_ [T _]]]. exact T.
  - intros name I. destruct (M name I) as [name' [-> I']].
    apply R. exact I'.
Qed.

(** ** A directory of three files *)

Definition three_files : file_system :=
  mkFileSystem
    (fun p => String.eqb p "study/u1/gps")
    (fun p => if String.eqb p "study/u1/gps"
              then Some ["b.csv"; "a.csv"; "c.csv"] else None)
    (fun p => if String.eqb p "study/u1/gps/a.csv" then Some 100
              else if String.eqb p "study/u1/gps/b.csv" then Some 61
              else if String.eqb p "study/u1/gps/c.csv" then Some 60
              else None).

Lemma three_files_quality :
  gps_quality_check three_files "study" "u1" = Quality (2 / (3 + (1 # 10000))).
Proof. reflexivity. Qed.

Lemma quality_in_unit_interval_run :
  (0 <= 2 / (3 + (1 # 10000)))%Q /\ (2 / (3 + (1 # 10000)) < 1)%Q.
Proof.
  destruct (quality_in_unit_interval three_files "study" "u1"
              (2 / (3 + (1 # 10000))) three_files_quality) as [A [B _]].
  split; [exact A | exact B].
Defined.

Lemma quality_passes_the_test_run : (6 # 10 < 2 / (3 + (1 # 10000)))%Q.
Proof.
  destruct (quality_passes_the_test three_files "study" "u1"
              ["b.csv"; "a.csv"; "c.csv"] (2 / (3 + (1 # 10000)))
              eq_refl eq_refl three_files_quality) as [[_ T] _].
  apply T. vm_compute. lia.
Defined.

End Quality.

(* ------------------------------------------------------------------ *)
(** * The entropy of the significant places, over the reals *)

(** Lines 508 to 511 once more, with real numbers for the cells and the
    natural logarithm for [np.log]: [t_xy] holds the seconds spent at
    each place, as [num_sig_places] returns them. *)
Module RealEntropy.

Import Reals Lra.
Local Open Scope R_scope.

(** The builtin [sum]. *)
Definition rsum (l : list R) : R := fold_left Rplus l 0.

(** [np.array(t_xy) / 60 > 15] *)
Definition significant (t : R) : bool :=
  if Rlt_dec 15 (t / 60) then true else false.

Definition t_sig (t_xy : list R) : list R := filter significant t_xy.

Definition num_sig (t_xy : list R) : nat := List.length (t_sig t_xy).

Definition log_shift : R := 1 / 100000.

(** [entropy = -sum(p * np.log(p + 0.00001))] with
    [p = t_sig / sum(t_sig)]. *)
Definition entropy (t_xy : list R) : R :=
  let p := map (fun t => t / rsum (t_sig t_xy)) (t_sig t_xy) in
  - rsum (map (fun q => q * ln (q + log_shift)) p).

Lemma fold_plus (l : list R) (a : R) :
  fold_left Rplus l a = a + rsum l.
Proof.
  unfold rsum. revert a. induction l as [|x l IH]; intros a; cbn [fold_left].
  - lra.
  - rewrite (IH (a + x)), (IH (0 + x)). lra.
Qed.

Lemma rsum_cons (x : R) (l : list R) : rsum (x :: l) = x + rsum l.
Proof. unfold rsum at 1. cbn [fold_left]. rewrite fold_plus. lra. Qed.

Lemma rsum_scale (c : R) (l : list R) :
  rsum (map (fun t => t * c) l) = rsum l * c.
Proof.
  induction l as [|x l IH]; cbn [map].
  - unfold rsum. cbn. lra.
  - rewrite !rsum_cons, IH. lra.
Qed.

Lemma rsum_le (f g : R -> R) (l : list R) :
  (forall x, In x l -> f x <= g x) ->
  rsum (map f l) <= rsum (map g l).
Proof.
  induction l as [|x l IH]; intros H; cbn [map].
  - lra.
  - rewrite !rsum_cons.
    assert (f x <= g x) by (apply H; left; reflexivity).
    assert (rsum (map f l) <= rsum (map g l))
      by (apply IH; intros y Hy; apply H; right; exact Hy).
    lra.
Qed.

Lemma rsum_nonneg (l : list R) :
  (forall x, In x l -> 0 < x) -> 0 <= rsum l.
Proof.
  induction l as [|x l IH]; intros H.
  - unfold rsum. cbn. lra.
  - rewrite rsum_cons.
    assert (0 < x) by (apply H; left; reflexivity).
    assert (0 <= rsum l) by (apply IH; intros y Hy; apply H; right; exact Hy).
    lra.
Qed.

Lemma rsum_bounds (l : list R) (x : R) :
  (forall y, In y l -> 0 < y) -> In x l -> 0 < x <= rsum l.
Proof.
  induction l as [|z l IH]; intros H Hx; [destruct Hx|].
  rewrite rsum_cons.
  assert (0 < z) by (apply H; left; reflexivity).
  assert (0 <= rsum l)
    by (apply rsum_nonneg; intros y Hy; apply H; right; exact Hy).
  destruct Hx as [->|Hx]; [lra|].
  assert (0 < x <= rsum l)
    by (apply IH; [intros y Hy; apply H; right; exact Hy | exact Hx]).
  lra.
Qed.

Lemma significant_positive (t_xy : list R) (t : R) :
  In t (t_sig t_xy) -> 0 < t.
Proof.
  unfold t_sig. intros H. apply filter_In in H. destruct H as [_ H].
  unfold significant in H. destruct (Rlt_dec 15 (t / 60)); [lra|discriminate].
Qed.

Lemma ln_shift_bounds : 0 < ln (1 + log_shift) < log_shift.
Proof.
  unfold log_shift. split.
  - rewrite <- ln_1. apply ln_increasing; lra.
  - rewrite <- (ln_exp (1 / 100000)) at 2.
    apply ln_increasing; [lra|]. apply exp_ineq1. lra.
Qed.

Lemma entropy_of_one (t_xy : list R) :
  num_sig t_xy = 1%nat -> entropy t_xy = - ln (1 + log_shift).
Proof.
  unfold entropy, num_sig.
  pose proof (significant_positive t_xy) as Hpos.
  set (ts := t_sig t_xy) in *.
  intros H1. destruct ts as [|t [|t' ts']]; try discriminate H1.
  assert (0 < t) by (apply Hpos; left; reflexivity).
  cbn [map]. rewrite !rsum_cons. unfold rsum. cbn [fold_left].
  replace (t / (t + 0)) with 1 by (field; lra). lra.
Qed.

(** C3, as amended: the entropy of a daily window is never less than
    [- ln 1.00001], a number between [- 0.00001] and [0]; it is that
    number, and so less than zero, when exactly one place passes the
    filter of 15 minutes, and it is [0] when none does. *)
Theorem entropy_bounds (t_xy : list R) :
  - ln (1 + log_shift) <= entropy t_xy
  /\ (num_sig t_xy = 1%nat -> entropy t_xy = - ln (1 + log_shift))
  /\ (num_sig t_xy = 0%nat -> entropy t_xy = 0)
  /\ - log_shift < - ln (1 + log_shift) < 0.
Proof.
  pose proof ln_shift_bounds as [L0 L1].
  split; [|split; [exact (entropy_of_one t_xy)|split]].
  - unfold entropy.
    pose proof (significant_positive t_xy) as Hpos.
    set (ts := t_sig t_xy) in *.
    destruct ts as [|t ts'] eqn:E.
    { cbn [map]. unfold rsum. cbn. lra. }
    rewrite <- E in *.
    assert (Hs : 0 < rsum ts).
    { assert (0 < t <= rsum ts)
        by (apply rsum_bounds; [exact Hpos | rewrite E; left; reflexivity]).
      lra. }
    rewrite map_map.
    assert (B : rsum (map (fun t0 => t0 / rsum ts
                                     * ln (t0 / rsum ts + log_shift)) ts)
                <= rsum (map (fun t0 => t0 * (ln (1 + log_shift) / rsum ts))
                             ts)).
    { apply rsum_le. intros x Hx.
      destruct (rsum_bounds ts x Hpos Hx) as [X0 X1].
      assert (P0 : 0 < x / rsum ts) by (apply Rdiv_lt_0_compat; lra).
      assert (P1 : x / rsum ts <= 1).
      { apply (Rmult_le_reg_r (rsum ts)); [exact Hs|].
        unfold Rdiv. rewrite Rmult_assoc, Rinv_l by lra. lra. }
      assert (Hl : ln (x / rsum ts + log_shift) <= ln (1 + log_shift)).
      { destruct (Req_dec (x / rsum ts) 1) as [->|N]; [lra|].
        left. apply ln_increasing; unfold log_shift in *; lra. }
      replace (x * (ln (1 + log_shift) / rsum ts))
        with (x / rsum ts * ln (1 + log_shift)) by (field; lra).
      apply Rmult_le_compat_l; lra. }
    rewrite rsum_scale in B.
    replace (rsum ts * (ln (1 + log_shift) / rsum ts))
      with (ln (1 + log_shift)) in B by (field; lra).
    lra.
  - unfold entropy, num_sig. intros H0.
    destruct (t_sig t_xy); [|discriminate H0].
    cbn [map]. unfold rsum. cbn. lra.
  - lra.
Qed.

(** C3, the claim as written fails: with one place of 1000 seconds,
    which passes the filter, the entropy is less than zero, and so is
    not zero. *)
Lemma entropy_of_one_place_is_negative :
  num_sig [1000] = 1%nat /\ entropy [1000] < 0 /\ entropy [1000] <> 0.
Proof.
  assert (N : num_sig [1000] = 1%nat).
  { unfold num_sig, t_sig, significant. cbn [filter].
    destruct (Rlt_dec 15 (1000 / 60)); [reflexivity | exfalso; lra]. }
  pose proof ln_shift_bounds as [L0 L1].
  rewrite (entropy_of_one [1000] N). split; [exact N | split; lra].
Qed.

End RealEntropy.
